(** * Selector manipulation functions (memory/selector.c)

    A shallow embedding of Wine's 16-bit selector manager: the local copy of
    the LDT ([wine_ldt_copy]), the selector-array allocator, the block
    sizer and resizer, the alias functions, the pointer checks, the
    TOOLHELP memory transfers and the Win95 pointer mapping functions.

    Machine integers are mathematical integers with the C wrap-around
    written out: [WORD] is [unsigned short], [DWORD] is [unsigned long] on
    the i386 target the file is written for, pointers are 32-bit. *)

From Stdlib Require Import ZArith Lia Bool List.
Local Open Scope Z_scope.
Local Open Scope bool_scope.

(** ** Integer types and the windef.h word macros *)

(** The casts [(WORD) z] and [(DWORD) z]. *)
Definition WORD (z : Z) : Z := z mod 0x10000.
Definition DWORD (z : Z) : Z := z mod 0x100000000.

(** [z] is a value of the type. *)
Definition is_WORD (z : Z) : Prop := 0 <= z < 0x10000.
Definition is_DWORD (z : Z) : Prop := 0 <= z < 0x100000000.

(** Modelled from the spec: the word macros of windef.h, which is not among
    the sources.  A segmented pointer is a (selector, offset) pair held in
    one 32-bit value, selector in the high word, offset in the low word. *)
Definition LOWORD (l : Z) : Z := WORD l.
Definition HIWORD (l : Z) : Z := WORD (Z.shiftr (DWORD l) 16).
Definition MAKELONG (low high : Z) : Z :=
  Z.lor (WORD low) (Z.shiftl (WORD high) 16).
Definition SELECTOROF (ptr : Z) : Z := HIWORD ptr.
Definition OFFSETOF (ptr : Z) : Z := LOWORD ptr.
Definition PTR_SEG_OFF_TO_SEGPTR (seg off : Z) : Z := MAKELONG off seg.

(** ** The LDT copy and the descriptor helpers of ldt.h *)

Definition LDT_SIZE : Z := 8192.

(** Modelled from the spec: [__AHSHIFT] comes from a header that is not among
    the sources.  A selector's high bits index a slot and its three low bits
    are the table/privilege field ([SELECTOR_AllocArray] sets them with
    [| 7]); 8192 slots times 8 fill the 16-bit selector space. *)
Definition __AHSHIFT : Z := 3.

(** Modelled from the spec: the flag values of ldt.h, which is not among the
    sources.  The type is the five-bit i386 segment type that the masks used
    by the pointer checks ([0x10] non-system, [0x08] code, [0x02]
    readable/writable, [0x04] conforming/expand-down, [0x01] accessed)
    presuppose; Data is a writable data segment, Code a readable code
    segment, and the allocation bit lies outside the type. *)
Definition WINE_LDT_FLAGS_DATA : Z := 0x13.
Definition WINE_LDT_FLAGS_CODE : Z := 0x1b.
Definition WINE_LDT_FLAGS_32BIT : Z := 0x40.
Definition WINE_LDT_FLAGS_ALLOCATED : Z := 0x80.

(** The local copy of the LDT: three parallel arrays indexed by slot number.
    Every index the functions below use is a selector shifted right by
    [__AHSHIFT] or is guarded by [LDT_SIZE], hence within the arrays. *)
Module wine_ldt_copy.
Record t : Type := mk
  { base : Z -> Z;     (* void *base[8192] *)
    limit : Z -> Z;    (* unsigned long limit[8192] *)
    flags : Z -> Z }.  (* unsigned char flags[8192] *)
End wine_ldt_copy.

Definition ldt : Type := wine_ldt_copy.t.

(** Array store [a[i] = v]. *)
Definition upd (a : Z -> Z) (i v : Z) : Z -> Z :=
  fun j => if j =? i then v else a j.

Definition set_flags_at (st : ldt) (i v : Z) : ldt :=
  wine_ldt_copy.mk (wine_ldt_copy.base st) (wine_ldt_copy.limit st)
                   (upd (wine_ldt_copy.flags st) i v).

(** Modelled from the spec: [LDT_ENTRY] and its accessors are declared in
    ldt.h, which is not among the sources.  A descriptor is the record
    (base, limit, flags): a 32-bit base, a 32-bit limit (the last valid byte
    offset, stored as given) and the flags, kept as the five-bit segment
    type [HighWord.Bits.Type] that selector.c reads and writes directly,
    plus the 32-bit flag [Default_Big]. *)
Record LDT_ENTRY : Type := mk_entry
  { ent_base : Z;
    ent_limit : Z;
    Bits_Type : Z;
    Bits_Default_Big : bool }.

(** [memset( &entry, 0, sizeof(entry) )] *)
Definition zero_entry : LDT_ENTRY := mk_entry 0 0 0 false.

(** Modelled from the spec: accessor of ldt.h; the base is a 32-bit
    pointer. *)
Definition wine_ldt_set_base (e : LDT_ENTRY) (b : Z) : LDT_ENTRY :=
  mk_entry (DWORD b) (ent_limit e) (Bits_Type e) (Bits_Default_Big e).

(** Modelled from the spec: accessor of ldt.h; the limit is an unsigned
    32-bit byte offset. *)
Definition wine_ldt_set_limit (e : LDT_ENTRY) (l : Z) : LDT_ENTRY :=
  mk_entry (ent_base e) (DWORD l) (Bits_Type e) (Bits_Default_Big e).

(** Modelled from the spec: accessor of ldt.h; the type field is five bits
    wide, the 32-bit flag goes to [Default_Big]. *)
Definition wine_ldt_set_flags (e : LDT_ENTRY) (f : Z) : LDT_ENTRY :=
  mk_entry (ent_base e) (ent_limit e) (Z.land f 0x1f)
           (negb (Z.land f WINE_LDT_FLAGS_32BIT =? 0)).

(** Assignment to the bit-field [entry.HighWord.Bits.Type]. *)
Definition set_Bits_Type (e : LDT_ENTRY) (t : Z) : LDT_ENTRY :=
  mk_entry (ent_base e) (ent_limit e) (Z.land t 0x1f) (Bits_Default_Big e).

Definition wine_ldt_get_base (e : LDT_ENTRY) : Z := ent_base e.
Definition wine_ldt_get_limit (e : LDT_ENTRY) : Z := ent_limit e.

(** Modelled from the spec: accessor of ldt.h, the inverse of
    [wine_ldt_set_flags]. *)
Definition wine_ldt_get_flags (e : LDT_ENTRY) : Z :=
  Z.lor (Bits_Type e)
        (if Bits_Default_Big e then WINE_LDT_FLAGS_32BIT else 0).

(** Modelled from the spec: [wine_ldt_get_entry] lives in the LDT library,
    which is not among the sources; it reads the slot of the local copy. *)
Definition wine_ldt_get_entry (st : ldt) (sel : Z) : LDT_ENTRY :=
  let index := Z.shiftr sel __AHSHIFT in
  wine_ldt_set_flags
    (wine_ldt_set_limit
       (wine_ldt_set_base zero_entry (wine_ldt_copy.base st index))
       (wine_ldt_copy.limit st index))
    (wine_ldt_copy.flags st index).

(** Modelled from the spec: [wine_ldt_set_entry] lives in the LDT library,
    which is not among the sources; it writes base, limit and flags of the
    slot and keeps the slot's allocation bit.  selector.c relies on that:
    [SELECTOR_AllocArray] marks the slots before [SELECTOR_SetEntries]
    writes them, and [FreeSelector16] clears the bit itself after writing
    the zero entry. *)
Definition wine_ldt_set_entry (st : ldt) (sel : Z) (e : LDT_ENTRY) : ldt :=
  let index := Z.shiftr sel __AHSHIFT in
  wine_ldt_copy.mk
    (upd (wine_ldt_copy.base st) index (wine_ldt_get_base e))
    (upd (wine_ldt_copy.limit st) index (wine_ldt_get_limit e))
    (upd (wine_ldt_copy.flags st) index
         (Z.lor (wine_ldt_get_flags e)
                (Z.land (wine_ldt_copy.flags st index)
                        WINE_LDT_FLAGS_ALLOCATED))).

(** [flags & WINE_LDT_FLAGS_ALLOCATED] used as a condition. *)
Definition allocated (st : ldt) (i : Z) : bool :=
  negb (Z.land (wine_ldt_copy.flags st i) WINE_LDT_FLAGS_ALLOCATED =? 0).

(** Modelled from the spec: the macro [IS_SELECTOR_FREE] of ldt.h tests the
    allocation bit of the selector's slot. *)
Definition IS_SELECTOR_FREE (st : ldt) (sel : Z) : bool :=
  negb (allocated st (Z.shiftr sel __AHSHIFT)).

(** The table in which every slot is free and zero. *)
Definition ldt_empty : ldt :=
  wine_ldt_copy.mk (fun _ => 0) (fun _ => 0) (fun _ => 0).

(** The table in which every slot is taken. *)
Definition ldt_full : ldt :=
  wine_ldt_copy.mk (fun _ => 0) (fun _ => 0)
                   (fun _ => WINE_LDT_FLAGS_ALLOCATED).


(** Wine's value of the reserved boundary, used for the concrete runs. *)
Definition first_ldt_entry : Z := 17.

(** The arrays hold values of their C element types. *)
Definition ldt_wf (st : ldt) : Prop :=
  forall i, is_DWORD (wine_ldt_copy.base st i) /\
            is_DWORD (wine_ldt_copy.limit st i) /\
            0 <= wine_ldt_copy.flags st i < 0x100.

(** get the number of selectors needed to cover up to the selector limit *)
Definition get_sel_count (st : ldt) (sel : Z) : Z :=
  WORD (Z.shiftr (wine_ldt_copy.limit st (Z.shiftr sel __AHSHIFT)) 16 + 1).

(** ** The functions of selector.c *)

Section Selector.

(** The first slot the allocator may hand out.  The macro comes from a
    header that is not among the sources, so it is a parameter here; the
    reserved prefix is non-empty and lies within the table. *)
Variable FIRST_LDT_ENTRY_TO_ALLOC : Z.
Hypothesis FIRST_range : 0 < FIRST_LDT_ENTRY_TO_ALLOC <= LDT_SIZE.

(* A proof depends on the boundary's range only where it says so. *)
Local Set Default Proof Using "Type".

(** The search loop of [SELECTOR_AllocArray]:
    [for (i = FIRST_LDT_ENTRY_TO_ALLOC; i < LDT_SIZE; i++)], one unit of
    [n] per iteration; the result is [(i, size)] when the loop is left. *)
Fixpoint find_free_run (n : nat) (st : ldt) (count i size : Z) : Z * Z :=
  match n with
  | O => (i, size)
  | S n' =>
      if i <? LDT_SIZE then
        if allocated st i then find_free_run n' st count (i + 1) 0
        else if size + 1 >=? count then (i, size + 1)
        else find_free_run n' st count (i + 1) (size + 1)
      else (i, size)
  end.

(** [for (i = 0; i < count; i++) flags[sel + i] |= WINE_LDT_FLAGS_ALLOCATED],
    also the marking loop of [SELECTOR_ReallocBlock], which starts at
    [oldcount]. *)
Fixpoint mark_allocated (n : nat) (st : ldt) (sel i : Z) : ldt :=
  match n with
  | O => st
  | S n' =>
      mark_allocated n'
        (set_flags_at st (sel + i)
           (Z.lor (wine_ldt_copy.flags st (sel + i)) WINE_LDT_FLAGS_ALLOCATED))
        sel (i + 1)
  end.

(** Allocate a selector array without setting the LDT entries *)
Definition SELECTOR_AllocArray (st : ldt) (count : Z) : Z * ldt :=
  if count =? 0 then (0, st)
  else
    let '(i, size) :=
      find_free_run (Z.to_nat (LDT_SIZE - FIRST_LDT_ENTRY_TO_ALLOC)) st count
                    FIRST_LDT_ENTRY_TO_ALLOC 0 in
    if i =? LDT_SIZE then (0, st)
    else
      let sel := WORD (i - size + 1) in
      (WORD (Z.lor (Z.shiftl sel __AHSHIFT) 7),
       mark_allocated (Z.to_nat count) st sel 0).

(** FreeSelector (KERNEL.176).  The i386-only resetting of %fs and %gs acts
    on the processor, not on the table, and is left out. *)
Definition FreeSelector16 (st : ldt) (sel : Z) : Z * ldt :=
  if IS_SELECTOR_FREE st sel then (sel, st)  (* error *)
  else
    let st1 := wine_ldt_set_entry st sel zero_entry in
    let index := Z.shiftr sel __AHSHIFT in
    (0, set_flags_at st1 index
          (Z.land (wine_ldt_copy.flags st1 index)
                  (Z.lnot WINE_LDT_FLAGS_ALLOCATED))).

(** The loop of [SELECTOR_SetEntries], [count - i] iterations left. *)
Fixpoint set_entries_loop (n : nat) (st : ldt) (sel i : Z) (entry : LDT_ENTRY)
  : ldt :=
  match n with
  | O => st
  | S n' =>
      let st1 :=
        wine_ldt_set_entry st (WORD (sel + Z.shiftl i __AHSHIFT)) entry in
      let entry1 :=
        wine_ldt_set_base entry (wine_ldt_get_base entry + 0x10000) in
      let entry2 :=
        wine_ldt_set_limit entry1 (wine_ldt_get_limit entry1 - 0x10000) in
      set_entries_loop n' st1 sel (i + 1) entry2
  end.

(** The entry [SELECTOR_SetEntries] starts its loop with. *)
Definition first_entry (base size flags : Z) : LDT_ENTRY :=
  let entry :=
    wine_ldt_set_flags
      (wine_ldt_set_limit (wine_ldt_set_base zero_entry base) (size - 1))
      flags in
  (* Make sure base and limit are not 0 together if the size is not 0 *)
  if (base =? 0) && (size =? 1) then wine_ldt_set_limit entry 1 else entry.

(** [count = (size + 0xffff) / 0x10000], computed on DWORDs and stored in a
    WORD. *)
Definition block_count (size : Z) : Z := WORD (DWORD (size + 0xffff) / 0x10000).

(** Set the LDT entries for an array of selectors. *)
Definition SELECTOR_SetEntries (st : ldt) (sel base size flags : Z) : ldt :=
  set_entries_loop (Z.to_nat (block_count size)) st sel 0
                   (first_entry base size flags).

(** Allocate selectors for a block of linear memory. *)
Definition SELECTOR_AllocBlock (st : ldt) (base size flags : Z) : Z * ldt :=
  if size =? 0 then (0, st)
  else
    let count := block_count size in
    let '(sel, st1) := SELECTOR_AllocArray st count in
    if sel =? 0 then (sel, st1)
    else (sel, SELECTOR_SetEntries st1 sel base size flags).

(** [for (i = 0; i < count; i++) FreeSelector16( sel + (i << __AHSHIFT) )] *)
Fixpoint free_selectors (n : nat) (st : ldt) (sel i : Z) : ldt :=
  match n with
  | O => st
  | S n' =>
      free_selectors n'
        (snd (FreeSelector16 st (WORD (sel + Z.shiftl i __AHSHIFT))))
        sel (i + 1)
  end.

(** Free a block of selectors. *)
Definition SELECTOR_FreeBlock (st : ldt) (sel : Z) : ldt :=
  let count := get_sel_count st sel in
  free_selectors (Z.to_nat count) st sel 0.

(** The check loop of [SELECTOR_ReallocBlock]:
    [for (i = oldcount; i < newcount; i++) if (flags[index+i] & ALLOCATED) break;]
    with [newcount - i] iterations left; the result is the final [i]. *)
Fixpoint next_allocated (n : nat) (st : ldt) (index i : Z) : Z :=
  match n with
  | O => i
  | S n' =>
      if allocated st (index + i) then i
      else next_allocated n' st index (i + 1)
  end.

(** Change the size of a block of selectors. *)
Definition SELECTOR_ReallocBlock (st : ldt) (sel base size : Z) : Z * ldt :=
  let size := if size =? 0 then 1 else size in
  let oldcount := get_sel_count st sel in
  let newcount := WORD (Z.shiftr (DWORD (size + 0xffff)) 16) in
  let entry := wine_ldt_get_entry st sel in
  let '(sel1, st1) :=
    if oldcount <? newcount then  (* We need to add selectors *)
      let index := Z.shiftr sel __AHSHIFT in
      (* Check if the next selectors are free *)
      let i :=
        if index + newcount >? LDT_SIZE then oldcount
        else next_allocated (Z.to_nat (newcount - oldcount)) st index oldcount in
      if i <? newcount then  (* they are not free *)
        SELECTOR_AllocArray (SELECTOR_FreeBlock st sel) newcount
      else  (* mark the selectors as allocated *)
        (sel, mark_allocated (Z.to_nat (newcount - oldcount)) st index oldcount)
    else if oldcount >? newcount then  (* We need to remove selectors *)
      (sel, SELECTOR_FreeBlock st (WORD (sel + Z.shiftl newcount __AHSHIFT)))
    else (sel, st) in
  if sel1 =? 0 then (sel1, st1)
  else (sel1,
        SELECTOR_SetEntries st1 sel1 base size (wine_ldt_get_flags entry)).

(** AllocCStoDSAlias (KERNEL.170) *)
Definition AllocCStoDSAlias16 (st : ldt) (sel : Z) : Z * ldt :=
  let '(newsel, st1) := SELECTOR_AllocArray st 1 in
  if newsel =? 0 then (0, st1)
  else
    let entry := wine_ldt_get_entry st1 sel in
    let entry := set_Bits_Type entry WINE_LDT_FLAGS_DATA in
    (newsel, wine_ldt_set_entry st1 newsel entry).

(** AllocDStoCSAlias (KERNEL.171) *)
Definition AllocDStoCSAlias16 (st : ldt) (sel : Z) : Z * ldt :=
  let '(newsel, st1) := SELECTOR_AllocArray st 1 in
  if newsel =? 0 then (0, st1)
  else
    let entry := wine_ldt_get_entry st1 sel in
    let entry := set_Bits_Type entry WINE_LDT_FLAGS_CODE in
    (newsel, wine_ldt_set_entry st1 newsel entry).

(** GetSelectorLimit (KERNEL.188) *)
Definition GetSelectorLimit16 (st : ldt) (sel : Z) : Z :=
  wine_ldt_copy.limit st (Z.shiftr sel __AHSHIFT).

(** SetSelectorLimit (KERNEL.189) *)
Definition SetSelectorLimit16 (st : ldt) (sel limit : Z) : Z * ldt :=
  let entry := wine_ldt_get_entry st sel in
  let entry := wine_ldt_set_limit entry limit in
  (sel, wine_ldt_set_entry st sel entry).

(** IsBadCodePtr16 (KERNEL.336) *)
Definition IsBadCodePtr16 (st : ldt) (lpfn : Z) : bool :=
  let sel := SELECTOROF lpfn in
  if sel =? 0 then true
  else if IS_SELECTOR_FREE st sel then true
  else
    let entry := wine_ldt_get_entry st sel in
    (* check for code segment, ignoring conforming, read-only and accessed bits *)
    if negb (Z.land (Z.lxor (Bits_Type entry) WINE_LDT_FLAGS_CODE) 0x18 =? 0)
    then true
    else if OFFSETOF lpfn >? wine_ldt_get_limit entry then true
    else false.

(** IsBadHugeReadPtr16 (KERNEL.346) *)
Definition IsBadHugeReadPtr16 (st : ldt) (ptr size : Z) : bool :=
  let sel := SELECTOROF ptr in
  if sel =? 0 then true
  else if IS_SELECTOR_FREE st sel then true
  else
    let entry := wine_ldt_get_entry st sel in
    (* check for data or readable code segment *)
    if Z.land (Bits_Type entry) 0x10 =? 0 then true  (* system descriptor *)
    else if Z.land (Bits_Type entry) 0x0a =? 0x08 then true  (* non-readable code segment *)
    else if negb (size =? 0)
            && (DWORD (OFFSETOF ptr + size - 1) >? wine_ldt_get_limit entry)
    then true
    else false.

(** IsBadHugeWritePtr16 (KERNEL.347) *)
Definition IsBadHugeWritePtr16 (st : ldt) (ptr size : Z) : bool :=
  let sel := SELECTOROF ptr in
  if sel =? 0 then true
  else if IS_SELECTOR_FREE st sel then true
  else
    let entry := wine_ldt_get_entry st sel in
    (* check for writeable data segment, ignoring expand-down and accessed flags *)
    if negb (Z.land (Z.lxor (Bits_Type entry) WINE_LDT_FLAGS_DATA) (Z.lnot 5) =? 0)
    then true
    else if negb (size =? 0)
            && (DWORD (OFFSETOF ptr + size - 1) >? wine_ldt_get_limit entry)
    then true
    else false.

(** Linear memory, one byte per address. *)
Definition memory : Type := Z -> Z.

(** Modelled from the spec: [memcpy( dst, src, n )] is the C library's and
    is not among the sources.  C defines it for a source and a destination
    range that do not overlap: the destination then holds the bytes of the
    source and no other byte changes.  The model reads the memory as it was
    before the call, so it also gives a value on overlapping ranges, where C
    defines none; what is stated about copied bytes is stated for ranges
    that are [separate]. *)

Definition memcpy (mem : memory) (dst src n : Z) : memory :=
  fun a => if (dst <=? a) && (a <? dst + n) then mem (src + (a - dst))
           else mem a.

(** The clamping of [count] shared by [MemoryRead16] and [MemoryWrite16]:
    [if (offset + count > limit + 1) count = limit + 1 - offset;] on
    DWORDs. *)
Definition clamp_count (lim offset count : Z) : Z :=
  if DWORD (offset + count) >? DWORD (lim + 1) then DWORD (lim + 1 - offset)
  else count.

(** MemoryRead (TOOLHELP.78): the bytes copied and the memory after the
    copy into [buffer]. *)
Definition MemoryRead16 (st : ldt) (mem : memory) (sel offset buffer count : Z)
  : Z * memory :=
  let index := Z.shiftr sel __AHSHIFT in
  if negb (allocated st index) then (0, mem)
  else if offset >? wine_ldt_copy.limit st index then (0, mem)
  else
    let count := clamp_count (wine_ldt_copy.limit st index) offset count in
    (count,
     memcpy mem buffer (DWORD (wine_ldt_copy.base st index + offset)) count).

(** MemoryWrite (TOOLHELP.79) *)
Definition MemoryWrite16 (st : ldt) (mem : memory) (sel offset buffer count : Z)
  : Z * memory :=
  let index := Z.shiftr sel __AHSHIFT in
  if negb (allocated st index) then (0, mem)
  else if offset >? wine_ldt_copy.limit st index then (0, mem)
  else
    let count := clamp_count (wine_ldt_copy.limit st index) offset count in
    (count,
     memcpy mem (DWORD (wine_ldt_copy.base st index + offset)) buffer count).

(** MapSL (KERNEL32.523): maps fixed segmented pointer to linear. *)
Definition MapSL (st : ldt) (sptr : Z) : Z :=
  DWORD (wine_ldt_copy.base st (Z.shiftr (SELECTOROF sptr) __AHSHIFT)
         + OFFSETOF sptr).

(** MapLS (KERNEL32.522): maps linear pointer to segmented. *)
Definition MapLS (st : ldt) (ptr : Z) : Z * ldt :=
  if HIWORD ptr =? 0 then (ptr, st)
  else
    let '(sel, st1) := SELECTOR_AllocBlock st ptr 0x10000 WINE_LDT_FLAGS_DATA in
    (PTR_SEG_OFF_TO_SEGPTR sel 0, st1).

(** UnMapLS (KERNEL32.700): free mapped selector. *)
Definition UnMapLS (st : ldt) (sptr : Z) : ldt :=
  if negb (SELECTOROF sptr =? 0) then snd (FreeSelector16 st (SELECTOROF sptr))
  else st.

(** ** The remaining selector functions *)

(** The loop of [AllocSelectorArray16]:
    [for (i = 0; i < count; i++) wine_ldt_set_entry( sel + (i << __AHSHIFT), &entry )] *)
Fixpoint set_same_entry (n : nat) (st : ldt) (sel i : Z) (entry : LDT_ENTRY)
  : ldt :=
  match n with
  | O => st
  | S n' =>
      set_same_entry n'
        (wine_ldt_set_entry st (WORD (sel + Z.shiftl i __AHSHIFT)) entry)
        sel (i + 1) entry
  end.

(** The entry [AllocSelectorArray16] gives every new selector. *)
Definition array_entry : LDT_ENTRY :=
  wine_ldt_set_flags
    (wine_ldt_set_limit (wine_ldt_set_base zero_entry 0) 1)  (* avoid 0 base and limit *)
    WINE_LDT_FLAGS_DATA.

(** AllocSelectorArray (KERNEL.206) *)
Definition AllocSelectorArray16 (st : ldt) (count : Z) : Z * ldt :=
  let '(sel, st1) := SELECTOR_AllocArray st count in
  if sel =? 0 then (sel, st1)
  else (sel, set_same_entry (Z.to_nat count) st1 sel 0 array_entry).

(** The copy loop of [AllocSelector16]. *)
Fixpoint copy_entries (n : nat) (st : ldt) (sel newsel i : Z) : ldt :=
  match n with
  | O => st
  | S n' =>
      let entry := wine_ldt_get_entry st (WORD (sel + Z.shiftl i __AHSHIFT)) in
      copy_entries n'
        (wine_ldt_set_entry st (WORD (newsel + Z.shiftl i __AHSHIFT)) entry)
        sel newsel (i + 1)
  end.

(** AllocSelector (KERNEL.175) *)
Definition AllocSelector16 (st : ldt) (sel : Z) : Z * ldt :=
  let count := if negb (sel =? 0) then get_sel_count st sel else 1 in
  let '(newsel, st1) := SELECTOR_AllocArray st count in
  if newsel =? 0 then (0, st1)
  else if sel =? 0 then (newsel, st1)  (* nothing to copy *)
  else (newsel, copy_entries (Z.to_nat count) st1 sel newsel 0).

(** PrestoChangoSelector (KERNEL.177) *)
Definition PrestoChangoSelector16 (st : ldt) (selSrc selDst : Z) : Z * ldt :=
  let entry := wine_ldt_get_entry st selSrc in
  (* toggle the executable bit *)
  let entry :=
    set_Bits_Type entry
      (Z.lxor (Bits_Type entry)
              (Z.lxor WINE_LDT_FLAGS_CODE WINE_LDT_FLAGS_DATA)) in
  (selDst, wine_ldt_set_entry st selDst entry).

(** LongPtrAdd (KERNEL.180) *)
Definition LongPtrAdd16 (st : ldt) (ptr add : Z) : ldt :=
  let entry := wine_ldt_get_entry st (SELECTOROF ptr) in
  let entry := wine_ldt_set_base entry (wine_ldt_get_base entry + add) in
  wine_ldt_set_entry st (SELECTOROF ptr) entry.

(** IsBadReadPtr16 (KERNEL.334); [size] is a UINT16. *)
Definition IsBadReadPtr16 (st : ldt) (ptr size : Z) : bool :=
  IsBadHugeReadPtr16 st ptr size.

(** IsBadWritePtr16 (KERNEL.335); [size] is a UINT16. *)
Definition IsBadWritePtr16 (st : ldt) (ptr size : Z) : bool :=
  IsBadHugeWritePtr16 st ptr size.

(** IsBadFlatReadWritePtr16 (KERNEL.627) *)
Definition IsBadFlatReadWritePtr16 (st : ldt) (ptr size bWrite : Z) : bool :=
  if negb (bWrite =? 0) then IsBadHugeWritePtr16 st ptr size
  else IsBadHugeReadPtr16 st ptr size.

(** The registers of [CONTEXT86] that the SMapLS family reads and writes. *)
Record CONTEXT86 : Type := mk_context
  { Eax : Z;
    Edx : Z;
    Ebp : Z }.

(** The DWORDs the SMapLS family reads and writes through
    [*(DWORD * )(context->Ebp + argoff)], by address. *)
Definition dwords : Type := Z -> Z.

(** SMapLS (KERNEL32.592) *)
Definition SMapLS (st : ldt) (context : CONTEXT86) : CONTEXT86 * ldt :=
  if negb (HIWORD (Eax context) =? 0) then
    let '(p, st1) := MapLS st (Eax context) in
    (mk_context p p (Ebp context), st1)
  else (mk_context (Eax context) 0 (Ebp context), st).

(** SUnMapLS (KERNEL32.602) *)
Definition SUnMapLS (st : ldt) (context : CONTEXT86) : ldt :=
  if negb (HIWORD (Eax context) =? 0) then UnMapLS st (Eax context) else st.

(** x_SMapLS_IP_EBP_x: maps the linear pointer at [EBP + argoff] and stores
    the segmented pointer there. *)
Definition x_SMapLS_IP_EBP_x (st : ldt) (stack : dwords) (context : CONTEXT86)
           (argoff : Z) : CONTEXT86 * dwords * ldt :=
  let addr := DWORD (Ebp context + argoff) in
  let val := stack addr in
  if val <? 0x10000 then
    (mk_context val (Edx context) (Ebp context), upd stack addr 0, st)
  else
    let '(ptr, st1) := MapLS st val in
    (mk_context ptr (Edx context) (Ebp context), upd stack addr ptr, st1).

(** x_SUnMapLS_IP_EBP_x *)
Definition x_SUnMapLS_IP_EBP_x (st : ldt) (stack : dwords)
           (context : CONTEXT86) (argoff : Z) : dwords * ldt :=
  let addr := DWORD (Ebp context + argoff) in
  if negb (stack addr =? 0) then (upd stack addr 0, UnMapLS st (stack addr))
  else (stack, st).

(** ** Notions used in the statements *)

(** Slot [j] lies in the run of [n] slots that starts at [idx]. *)
Definition in_run (idx n j : Z) : bool := (idx <=? j) && (j <? idx + n).

(** Some slot of the run of [count] slots that starts at [s] is in use. *)
Definition run_blocked (st : ldt) (s count : Z) : Prop :=
  exists j, s <= j < s + count /\ allocated st j = true.

(** The slot the [k]-th call of a freeing or entry-setting loop acts on. *)
Definition loop_slot (sel k : Z) : Z :=
  Z.shiftr (WORD (sel + Z.shiftl k __AHSHIFT)) __AHSHIFT.

(** The flags [SELECTOR_SetEntries] leaves in an allocated slot. *)
Definition entry_flags (flags : Z) : Z :=
  Z.lor (wine_ldt_get_flags (wine_ldt_set_flags zero_entry flags))
        WINE_LDT_FLAGS_ALLOCATED.

(** The limit the block sizer starts from: [size - 1], or 1 for a one-byte
    block at the null base. *)
Definition block_limit (base size : Z) : Z :=
  if (base =? 0) && (size =? 1) then 1 else size - 1.

(** The sizes the block sizer is probed with and the slots each needs. *)
Definition probe_sizes : list (Z * Z) :=
  (1, 1) :: (0xFFFF, 1) :: (0x10000, 1) :: (0x10001, 2) :: (0x20000, 2) :: nil.

(** The common shape of [AllocCStoDSAlias16] and [AllocDStoCSAlias16]: the
    two differ in the type they store. *)
Definition alias_with (t : Z) (st : ldt) (sel : Z) : Z * ldt :=
  let '(newsel, st1) := SELECTOR_AllocArray st 1 in
  if newsel =? 0 then (0, st1)
  else
    let entry := wine_ldt_get_entry st1 sel in
    let entry := set_Bits_Type entry t in
    (newsel, wine_ldt_set_entry st1 newsel entry).

(** What an alias call that returned [r] for the source [sel] has
    achieved, [t] being the segment type the function stores. *)
Definition alias_result (t : Z) (st : ldt) (sel : Z) (r : Z * ldt) : Prop :=
  let src := Z.shiftr sel __AHSHIFT in
  let new := Z.shiftr (fst r) __AHSHIFT in
  let st' := snd r in
  (* a fresh slot, now in use *)
  allocated st new = false /\ allocated st' new = true /\
  (* base and limit are the source's *)
  wine_ldt_copy.base st' new = wine_ldt_copy.base st src /\
  wine_ldt_copy.limit st' new = wine_ldt_copy.limit st src /\
  (* the type is the stored one, whatever the source's type was *)
  Z.land (wine_ldt_copy.flags st' new) 0x1f = t /\
  (* the 32-bit flag is the source's *)
  Z.testbit (wine_ldt_copy.flags st' new) 6
  = Z.testbit (wine_ldt_copy.flags st src) 6 /\
  (* the source slot is untouched, also after the alias is freed *)
  wine_ldt_copy.flags st' src = wine_ldt_copy.flags st src /\
  allocated (snd (FreeSelector16 st' (fst r))) src = allocated st src.

(** The type field of a selector's descriptor, [entry.HighWord.Bits.Type]
    after [wine_ldt_get_entry].  Bit 4 is set for code and data segments,
    bit 3 tells code from data, bit 1 is readable (code) or writable
    (data). *)
Definition descriptor_type (st : ldt) (sel : Z) : Z :=
  Bits_Type (wine_ldt_get_entry st sel).

(** The ranges of [n] bytes at [a] and at [b] do not overlap. *)
Definition separate (a b n : Z) : Prop := a + n <= b \/ b + n <= a.

(** Two tables with the same allocation bits that agree on every slot in
    use. *)
Definition same_in_use (st st' : ldt) : Prop :=
  forall j,
    allocated st' j = allocated st j /\
    (allocated st j = true ->
     wine_ldt_copy.base st' j = wine_ldt_copy.base st j /\
     wine_ldt_copy.limit st' j = wine_ldt_copy.limit st j /\
     wine_ldt_copy.flags st' j = wine_ldt_copy.flags st j).

(** ** Example tables *)

(** The empty table after one block of 0x100 bytes at 0x500000 was sized. *)
Definition one_block_table : ldt :=
  snd (SELECTOR_AllocBlock ldt_empty 0x500000 0x100 WINE_LDT_FLAGS_DATA).

(** The three-window block of 0x20001 bytes, sized in the empty table. *)
Definition three_windows : Z * ldt :=
  SELECTOR_AllocBlock ldt_empty 0x500000 0x20001 WINE_LDT_FLAGS_DATA.

(** The empty table after the 64K at 0x500000 got a selector. *)
Definition window_64k_table : ldt :=
  snd (SELECTOR_AllocBlock ldt_empty 0x500000 0x10000 WINE_LDT_FLAGS_DATA).

(** A memory whose bytes from 0x900000 on are 0xAA, and zero below. *)
Definition mem_pattern : memory := fun a => if 0x900000 <=? a then 0xAA else 0.

(** A table in which every slot is a flat data segment of 4G. *)
Definition ldt_flat : ldt :=
  wine_ldt_copy.mk (fun _ => 0) (fun _ => 0xFFFFFFFF)
                   (fun _ => Z.lor WINE_LDT_FLAGS_DATA WINE_LDT_FLAGS_ALLOCATED).

(** A stack whose DWORD at 0x1008 holds the linear pointer 0x600000. *)
Definition stack_with_pointer : dwords :=
  fun a => if a =? 0x1008 then 0x600000 else 0.

(** ** Bit-level facts about the flags byte *)

Lemma land_single_bit (f k : Z) :
  0 <= k -> Z.land f (2 ^ k) = if Z.testbit f k then 2 ^ k else 0.
Proof.
  intros Hk. apply Z.bits_inj'. intros n Hn.
  rewrite Z.land_spec, Z.pow2_bits_eqb by assumption.
  destruct (Z.eqb_spec k n) as [->|Hne].
  - rewrite andb_true_r. destruct (Z.testbit f n) eqn:E.
    + now rewrite Z.pow2_bits_true.
    + now rewrite Z.bits_0.
  - rewrite andb_false_r. destruct (Z.testbit f k).
    + rewrite Z.pow2_bits_false; auto.
    + now rewrite Z.bits_0.
Qed.

Lemma testbit_nonzero (x n : Z) : Z.testbit x n = true -> x <> 0.
Proof. intros H ->. rewrite Z.bits_0 in H. discriminate. Qed.

Lemma alloc_bit_testbit (f : Z) :
  negb (Z.land f WINE_LDT_FLAGS_ALLOCATED =? 0) = Z.testbit f 7.
Proof.
  unfold WINE_LDT_FLAGS_ALLOCATED. change 0x80 with (2 ^ 7).
  rewrite land_single_bit by lia. now destruct (Z.testbit f 7).
Qed.

Lemma allocated_testbit (st : ldt) (i : Z) :
  allocated st i = Z.testbit (wine_ldt_copy.flags st i) 7.
Proof. apply alloc_bit_testbit. Qed.

Lemma type_field_bit7 (t : Z) (big : bool) :
  Z.testbit (Z.lor (Z.land t 0x1f) (if big then WINE_LDT_FLAGS_32BIT else 0)) 7
  = false.
Proof.
  rewrite Z.lor_spec, Z.land_spec.
  replace (Z.testbit 0x1f 7) with false by reflexivity.
  rewrite andb_false_r. now destruct big.
Qed.

(** ** Array stores *)

Lemma upd_same (a : Z -> Z) (i v : Z) : upd a i v i = v.
Proof. unfold upd. now rewrite Z.eqb_refl. Qed.

Lemma upd_other (a : Z -> Z) (i j v : Z) : j <> i -> upd a i v j = a j.
Proof. unfold upd. intros H. now destruct (Z.eqb_spec j i). Qed.

(** Selectors built on slot [idx]: shifting by [__AHSHIFT] recovers the
    slot whatever the three low bits hold. *)
Lemma sel_index (idx low k : Z) :
  0 <= low < 8 -> 0 <= idx + k < LDT_SIZE ->
  Z.shiftr (WORD (idx * 8 + low + Z.shiftl k __AHSHIFT)) __AHSHIFT = idx + k.
Proof.
  unfold WORD, LDT_SIZE, __AHSHIFT. intros Hl Hk.
  rewrite Z.shiftl_mul_pow2, Z.shiftr_div_pow2 by lia.
  change (2 ^ 3) with 8.
  rewrite Z.mod_small by lia.
  replace (idx * 8 + low + k * 8) with (low + (idx + k) * 8) by lia.
  rewrite Z.div_add by lia. rewrite Z.div_small by lia. lia.
Qed.

Lemma alloc_sel_value (idx : Z) :
  0 <= idx < LDT_SIZE ->
  WORD (Z.lor (Z.shiftl (WORD idx) __AHSHIFT) 7) = idx * 8 + 7.
Proof.
  unfold WORD, LDT_SIZE, __AHSHIFT. intros H.
  rewrite (Z.mod_small idx) by lia.
  rewrite Z.shiftl_mul_pow2 by lia. change (2 ^ 3) with 8.
  assert (L : Z.land (idx * 8) 7 = 0).
  { change 7 with (Z.ones 3). rewrite Z.land_ones by lia.
    change (2 ^ 3) with 8. apply Z.mod_mul. lia. }
  assert (E : Z.lor (idx * 8) 7 = idx * 8 + 7).
  { rewrite <- Z.lxor_lor by exact L. symmetry.
    now apply Z.add_nocarry_lxor. }
  rewrite E. apply Z.mod_small. lia.
Qed.

(** ** The allocator *)

Lemma in_run_spec (idx n j : Z) :
  reflect (idx <= j < idx + n) (in_run idx n j).
Proof.
  unfold in_run.
  destruct (idx <=? j) eqn:E1, (j <? idx + n) eqn:E2; constructor; lia.
Qed.

Lemma find_free_run_spec (n : nat) (st : ldt) (count : Z) :
  forall i size,
    0 <= size < count ->
    Z.of_nat n = LDT_SIZE - i ->
    (forall j, i - size <= j < i -> allocated st j = false) ->
    let r := find_free_run n st count i size in
    fst r = LDT_SIZE \/
    (fst r < LDT_SIZE /\ snd r = count /\ i - size <= fst r - snd r + 1 /\
     forall j, fst r - snd r + 1 <= j <= fst r -> allocated st j = false).
Proof.
  induction n as [|n IH]; intros i size Hs Hn Hfree; simpl.
  - left. lia.
  - destruct (Z.ltb_spec i LDT_SIZE) as [Hi|Hi]; [|lia].
    destruct (allocated st i) eqn:Ha.
    + assert (H0 : 0 <= 0 < count) by lia.
      assert (Hn' : Z.of_nat n = LDT_SIZE - (i + 1)) by lia.
      assert (Hf' : forall j, i + 1 - 0 <= j < i + 1 -> allocated st j = false)
        by (intros j Hj; lia).
      destruct (IH (i + 1) 0 H0 Hn' Hf') as [IH'|(H1 & H2 & H3 & H4)].
      * now left.
      * right. repeat split; auto; lia.
    + destruct (Z.geb_spec (size + 1) count) as [Hc|Hc]; simpl.
      * right. repeat split; try lia.
        intros j Hj. destruct (Z.eq_dec j i) as [->|Hne]; auto.
        apply Hfree. lia.
      * assert (H0 : 0 <= size + 1 < count) by lia.
        assert (Hn' : Z.of_nat n = LDT_SIZE - (i + 1)) by lia.
        assert (Hf' : forall j, i + 1 - (size + 1) <= j < i + 1 ->
                                allocated st j = false).
        { intros j Hj. destruct (Z.eq_dec j i) as [->|Hne]; auto.
          apply Hfree. lia. }
        destruct (IH (i + 1) (size + 1) H0 Hn' Hf')
          as [IH'|(H1 & H2 & H3 & H4)].
        -- now left.
        -- right. repeat split; auto; lia.
Qed.

Lemma mark_allocated_spec (n : nat) (sel : Z) :
  forall st i,
    let st' := mark_allocated n st sel i in
    wine_ldt_copy.base st' = wine_ldt_copy.base st /\
    wine_ldt_copy.limit st' = wine_ldt_copy.limit st /\
    forall j, wine_ldt_copy.flags st' j =
              if in_run (sel + i) (Z.of_nat n) j
              then Z.lor (wine_ldt_copy.flags st j) WINE_LDT_FLAGS_ALLOCATED
              else wine_ldt_copy.flags st j.
Proof.
  induction n as [|n IH]; intros st i; cbn zeta.
  - repeat split. intros j.
    destruct (in_run_spec (sel + i) (Z.of_nat 0) j); auto; lia.
  - cbn [mark_allocated].
    destruct (IH (set_flags_at st (sel + i)
                 (Z.lor (wine_ldt_copy.flags st (sel + i))
                        WINE_LDT_FLAGS_ALLOCATED)) (i + 1)) as (Hb & Hl & Hf).
    repeat split; [now rewrite Hb | now rewrite Hl |].
    intros j. rewrite Hf. unfold set_flags_at; cbn [wine_ldt_copy.flags].
    unfold upd.
    destruct (Z.eqb_spec j (sel + i)) as [Heq|Hne];
      destruct (in_run_spec (sel + (i + 1)) (Z.of_nat n) j),
        (in_run_spec (sel + i) (Z.of_nat (S n)) j);
      try lia; try (rewrite Heq); reflexivity.
Qed.

Lemma mark_allocated_allocated (n : nat) (st : ldt) (sel i j : Z) :
  allocated (mark_allocated n st sel i) j =
  allocated st j || in_run (sel + i) (Z.of_nat n) j.
Proof.
  rewrite !allocated_testbit.
  destruct (mark_allocated_spec n sel st i) as (_ & _ & Hf). rewrite Hf.
  destruct (in_run (sel + i) (Z.of_nat n) j).
  - rewrite Z.lor_spec. replace (Z.testbit WINE_LDT_FLAGS_ALLOCATED 7) with true
      by reflexivity. now rewrite !orb_true_r.
  - now rewrite orb_false_r.
Qed.

(** What a successful [SELECTOR_AllocArray] has done: it found a run of
    [count] free slots at or above the reserved boundary and marked it. *)
Lemma SELECTOR_AllocArray_success (st : ldt) (count : Z) :
  0 <= count ->
  fst (SELECTOR_AllocArray st count) <> 0 ->
  exists idx,
    FIRST_LDT_ENTRY_TO_ALLOC <= idx /\ idx + count <= LDT_SIZE /\ 0 < count /\
    fst (SELECTOR_AllocArray st count) = idx * 8 + 7 /\
    (forall j, in_run idx count j = true -> allocated st j = false) /\
    snd (SELECTOR_AllocArray st count)
    = mark_allocated (Z.to_nat count) st idx 0.
Proof using FIRST_range.
  intros Hcount. unfold SELECTOR_AllocArray.
  destruct (Z.eqb_spec count 0) as [->|Hc0]; [simpl; congruence|].
  pose proof (find_free_run_spec
                (Z.to_nat (LDT_SIZE - FIRST_LDT_ENTRY_TO_ALLOC)) st count
                FIRST_LDT_ENTRY_TO_ALLOC 0) as Hspec.
  destruct (find_free_run _ st count FIRST_LDT_ENTRY_TO_ALLOC 0) as [i size].
  destruct (Z.eqb_spec i LDT_SIZE) as [->|Hi]; [simpl; congruence|].
  simpl fst; simpl snd. intros Hsel.
  assert (H0 : 0 <= 0 < count) by lia.
  assert (Hn : Z.of_nat (Z.to_nat (LDT_SIZE - FIRST_LDT_ENTRY_TO_ALLOC))
               = LDT_SIZE - FIRST_LDT_ENTRY_TO_ALLOC) by lia.
  assert (Hf : forall j, FIRST_LDT_ENTRY_TO_ALLOC - 0 <= j
                         < FIRST_LDT_ENTRY_TO_ALLOC -> allocated st j = false)
    by (intros j Hj; lia).
  destruct (Hspec H0 Hn Hf) as [H|(H1 & H2 & H3 & H4)];
    cbn [fst snd] in *; [contradiction|].
  subst size. exists (i - count + 1).
  assert (Hr : 0 <= i - count + 1 < LDT_SIZE) by lia.
  assert (Hw : WORD (i - count + 1) = i - count + 1)
    by (unfold WORD; apply Z.mod_small; unfold LDT_SIZE in *; lia).
  rewrite Hw.
  repeat split; try lia.
  - rewrite <- Hw at 1. apply alloc_sel_value. lia.
  - intros j Hj. destruct (in_run_spec (i - count + 1) count j);
      [|discriminate]. apply H4. lia.
Qed.

Lemma alloc_sel_nonzero (x : Z) : WORD (Z.lor x 7) <> 0.
Proof.
  apply (testbit_nonzero _ 0). unfold WORD. change 0x10000 with (2 ^ 16).
  rewrite Z.mod_pow2_bits_low, Z.lor_spec by lia.
  replace (Z.testbit 7 0) with true by reflexivity. apply orb_true_r.
Qed.

(** A failed [SELECTOR_AllocArray] has not touched the table. *)
Lemma SELECTOR_AllocArray_null (st : ldt) (count : Z) :
  fst (SELECTOR_AllocArray st count) = 0 ->
  snd (SELECTOR_AllocArray st count) = st.
Proof.
  unfold SELECTOR_AllocArray.
  destruct (count =? 0); [reflexivity|].
  destruct (find_free_run _ st count FIRST_LDT_ENTRY_TO_ALLOC 0) as [i size].
  destruct (i =? LDT_SIZE); [reflexivity|].
  cbn [fst snd]. intros H. now apply alloc_sel_nonzero in H.
Qed.

(** ** Freeing *)

Lemma FreeSelector16_flags (st : ldt) (sel j : Z) :
  wine_ldt_copy.flags (snd (FreeSelector16 st sel)) j =
  if (j =? Z.shiftr sel __AHSHIFT) && allocated st j then 0
  else wine_ldt_copy.flags st j.
Proof.
  unfold FreeSelector16, IS_SELECTOR_FREE.
  destruct (Z.eqb_spec j (Z.shiftr sel __AHSHIFT)) as [->|Hne].
  - destruct (allocated st (Z.shiftr sel __AHSHIFT)); cbn [negb snd andb];
      [|reflexivity].
    unfold set_flags_at, wine_ldt_set_entry; cbn [wine_ldt_copy.flags].
    rewrite !upd_same. unfold wine_ldt_get_flags, zero_entry;
      cbn [Bits_Type Bits_Default_Big].
    rewrite Z.lor_0_l, <- Z.land_assoc.
    now rewrite Z.land_lnot_diag, Z.land_0_r.
  - cbn [andb].
    destruct (allocated st (Z.shiftr sel __AHSHIFT)); cbn [negb snd];
      [|reflexivity].
    unfold set_flags_at, wine_ldt_set_entry; cbn [wine_ldt_copy.flags].
    now rewrite !upd_other by assumption.
Qed.

Lemma FreeSelector16_allocated (st : ldt) (sel j : Z) :
  allocated (snd (FreeSelector16 st sel)) j =
  allocated st j && negb (j =? Z.shiftr sel __AHSHIFT).
Proof.
  unfold allocated at 1. rewrite FreeSelector16_flags.
  destruct (j =? Z.shiftr sel __AHSHIFT); cbn [andb negb].
  - destruct (allocated st j) eqn:E; [reflexivity|].
    rewrite andb_false_l. exact E.
  - now rewrite andb_true_r.
Qed.

Lemma free_selectors_mono (n : nat) (sel j : Z) :
  forall st i,
    allocated st j = false -> allocated (free_selectors n st sel i) j = false.
Proof.
  induction n as [|n IH]; intros st i H; cbn [free_selectors]; auto.
  apply IH. rewrite FreeSelector16_allocated, H. reflexivity.
Qed.

Lemma free_selectors_frees (n : nat) (sel : Z) :
  forall st i k,
    i <= k < i + Z.of_nat n ->
    allocated (free_selectors n st sel i) (loop_slot sel k) = false.
Proof.
  induction n as [|n IH]; intros st i k Hk; cbn [free_selectors]; [lia|].
  destruct (Z.eq_dec k i) as [->|Hne].
  - apply free_selectors_mono. rewrite FreeSelector16_allocated.
    unfold loop_slot. rewrite Z.eqb_refl. apply andb_false_r.
  - apply IH. lia.
Qed.

Lemma free_selectors_other (n : nat) (sel j : Z) :
  forall st i,
    (forall k, i <= k < i + Z.of_nat n -> loop_slot sel k <> j) ->
    allocated (free_selectors n st sel i) j = allocated st j.
Proof.
  induction n as [|n IH]; intros st i H; cbn [free_selectors]; auto.
  rewrite IH by (intros k Hk; apply H; lia).
  rewrite FreeSelector16_allocated.
  assert (Hj : loop_slot sel i <> j) by (apply H; lia).
  unfold loop_slot in Hj.
  destruct (Z.eqb_spec j (Z.shiftr (WORD (sel + Z.shiftl i __AHSHIFT)) __AHSHIFT));
    [congruence|]. apply andb_true_r.
Qed.

Lemma loop_slot_index (idx low k : Z) :
  0 <= low < 8 -> 0 <= idx + k < LDT_SIZE ->
  loop_slot (idx * 8 + low) k = idx + k.
Proof. apply sel_index. Qed.

Lemma sel_slot (idx : Z) :
  0 <= idx < LDT_SIZE -> Z.shiftr (idx * 8 + 7) __AHSHIFT = idx.
Proof.
  intros H. pose proof (sel_index idx 7 0 ltac:(lia) ltac:(lia)) as E.
  rewrite Z.shiftl_0_l, !Z.add_0_r in E.
  unfold WORD in E. rewrite Z.mod_small in E by (unfold LDT_SIZE in *; lia).
  exact E.
Qed.

(** ** Allocation followed by release *)

(** C7.  For every count > 0 and every table in which
    [SELECTOR_AllocArray] succeeds, running the freeing loop of
    [SELECTOR_FreeBlock] ([FreeSelector16] on each selector of the run) on
    the returned selector for the same count leaves the allocation bit of
    every slot as it was before the two calls. *)
Theorem alloc_free_restores_allocation_bits (st : ldt) (count : Z) :
  0 < count ->
  fst (SELECTOR_AllocArray st count) <> 0 ->
  forall j,
    allocated
      (free_selectors (Z.to_nat count) (snd (SELECTOR_AllocArray st count))
                      (fst (SELECTOR_AllocArray st count)) 0) j
    = allocated st j.
Proof using FIRST_range.
  intros Hc Hok j.
  destruct (SELECTOR_AllocArray_success st count) as
    (idx & Hlo & Hhi & _ & Hsel & Hfree & Hst); [lia|assumption|].
  rewrite Hsel, Hst.
  assert (Hidx : 0 <= idx) by lia.
  destruct (in_run_spec idx count j) as [Hin|Hout].
  - replace j with (loop_slot (idx * 8 + 7) (j - idx)).
    2:{ rewrite loop_slot_index by lia. lia. }
    rewrite free_selectors_frees by lia.
    rewrite loop_slot_index by lia. symmetry. apply Hfree.
    destruct (in_run_spec idx count (idx + (j - idx))); auto; lia.
  - rewrite free_selectors_other.
    + rewrite mark_allocated_allocated.
      destruct (in_run_spec (idx + 0) (Z.of_nat (Z.to_nat count)) j);
        [lia|apply orb_false_r].
    + intros k Hk. rewrite loop_slot_index by lia. lia.
Qed.

(** ** The windowing loop *)

Lemma DWORD_add_l (a b : Z) : DWORD (DWORD a + b) = DWORD (a + b).
Proof. unfold DWORD. apply Z.add_mod_idemp_l. lia. Qed.

Lemma DWORD_sub_l (a b : Z) : DWORD (DWORD a - b) = DWORD (a - b).
Proof. unfold DWORD. apply Zminus_mod_idemp_l. Qed.

Lemma DWORD_small (a : Z) : is_DWORD a -> DWORD a = a.
Proof. unfold is_DWORD, DWORD. intros H. now apply Z.mod_small. Qed.

(** After the loop of [SELECTOR_SetEntries] has run [n] times from window
    [i] on the selector of slot [idx], window [k] holds the base advanced by
    [k] times 64K and the limit lowered by as much, both modulo 2^32; the
    flags take the entry's flags and keep the allocation bit; all other
    slots are as before. *)
Lemma set_entries_loop_spec (idx low : Z) (n : nat) :
  0 <= low < 8 ->
  forall st i e b l,
    0 <= idx + i -> idx + i + Z.of_nat n <= LDT_SIZE ->
    ent_base e = DWORD b -> ent_limit e = DWORD l ->
    let st' := set_entries_loop n st (idx * 8 + low) i e in
    forall j,
      wine_ldt_copy.base st' j =
        (if in_run (idx + i) (Z.of_nat n) j
         then DWORD (b + (j - (idx + i)) * 0x10000)
         else wine_ldt_copy.base st j) /\
      wine_ldt_copy.limit st' j =
        (if in_run (idx + i) (Z.of_nat n) j
         then DWORD (l - (j - (idx + i)) * 0x10000)
         else wine_ldt_copy.limit st j) /\
      wine_ldt_copy.flags st' j =
        (if in_run (idx + i) (Z.of_nat n) j
         then Z.lor (wine_ldt_get_flags e)
                    (Z.land (wine_ldt_copy.flags st j) WINE_LDT_FLAGS_ALLOCATED)
         else wine_ldt_copy.flags st j).
Proof.
  clear FIRST_range.
  intros Hlow. induction n as [|n IH]; intros st i e b l H0 Hn Hb Hl; cbn zeta.
  - intros j. cbn [set_entries_loop].
    destruct (in_run_spec (idx + i) (Z.of_nat 0) j); [lia|auto].
  - intros j. cbn [set_entries_loop].
    set (st1 := wine_ldt_set_entry st _ e).
    set (e2 := wine_ldt_set_limit _ _).
    assert (Hb2 : ent_base e2 = DWORD (b + 0x10000)).
    { unfold e2, wine_ldt_set_limit, wine_ldt_set_base, wine_ldt_get_base.
      cbn [ent_base]. rewrite Hb. apply DWORD_add_l. }
    assert (Hl2 : ent_limit e2 = DWORD (l - 0x10000)).
    { unfold e2, wine_ldt_set_limit, wine_ldt_set_base, wine_ldt_get_limit.
      cbn [ent_limit]. rewrite Hl. apply DWORD_sub_l. }
    assert (Hf2 : wine_ldt_get_flags e2 = wine_ldt_get_flags e) by reflexivity.
    destruct (IH st1 (i + 1) e2 (b + 0x10000) (l - 0x10000)) with (j := j)
      as (Ibase & Ilimit & Iflags); try lia; try assumption.
    rewrite Ibase, Ilimit, Iflags, Hf2. clear Ibase Ilimit Iflags.
    assert (Hslot : Z.shiftr (WORD (idx * 8 + low + Z.shiftl i __AHSHIFT))
                             __AHSHIFT = idx + i)
      by (apply sel_index; [assumption|lia]).
    unfold st1, wine_ldt_set_entry.
    cbn [wine_ldt_copy.base wine_ldt_copy.limit wine_ldt_copy.flags].
    rewrite Hslot. unfold wine_ldt_get_base, wine_ldt_get_limit.
    destruct (in_run_spec (idx + (i + 1)) (Z.of_nat n) j),
      (in_run_spec (idx + i) (Z.of_nat (S n)) j); try lia.
    + rewrite upd_other by lia. repeat split; f_equal; lia.
    + assert (j = idx + i) by lia. subst j. rewrite !upd_same.
      rewrite Hb, Hl. repeat split; f_equal; lia.
    + now rewrite !upd_other by lia.
Qed.

(** ** The block sizer *)

(** A non-zero window count is the exact quotient: the DWORD sum has not
    wrapped and the quotient fits the WORD it is stored in. *)
Lemma block_count_exact (size : Z) :
  is_DWORD size -> block_count size <> 0 ->
  0 < size /\ block_count size = (size + 0xffff) / 0x10000 /\
  (block_count size - 1) * 0x10000 < size <= block_count size * 0x10000.
Proof.
  unfold is_DWORD, block_count, WORD, DWORD. intros Hs Hc.
  destruct (Z.lt_ge_cases (size + 0xffff) 0x100000000) as [Hlt|Hge].
  - rewrite (Z.mod_small (size + 0xffff)) in * by lia.
    assert (Hq : 0 <= (size + 0xffff) / 0x10000 < 0x10000)
      by (split; [apply Z.div_pos; lia | apply Z.div_lt_upper_bound; lia]).
    rewrite Z.mod_small in * by assumption.
    assert (0 < size).
    { destruct (Z.eq_dec size 0) as [->|]; [|lia]. now vm_compute in Hc. }
    repeat split; try lia;
      pose proof (Z.div_mod (size + 0xffff) 0x10000 ltac:(lia));
      pose proof (Z.mod_pos_bound (size + 0xffff) 0x10000 ltac:(lia)); lia.
  - exfalso. apply Hc.
    replace ((size + 0xffff) mod 0x100000000)
      with (size + 0xffff - 0x100000000).
    2:{ apply Z.mod_unique with 1; lia. }
    rewrite Z.div_small by lia. reflexivity.
Qed.

Lemma land_lor_allocated (f : Z) :
  Z.land (Z.lor f WINE_LDT_FLAGS_ALLOCATED) WINE_LDT_FLAGS_ALLOCATED
  = WINE_LDT_FLAGS_ALLOCATED.
Proof.
  apply Z.bits_inj'. intros n _. rewrite Z.land_spec, Z.lor_spec.
  now destruct (Z.testbit f n), (Z.testbit WINE_LDT_FLAGS_ALLOCATED n).
Qed.

(** What a successful [SELECTOR_AllocBlock] has done. *)
Lemma SELECTOR_AllocBlock_success (st : ldt) (base size flags : Z) :
  is_DWORD size ->
  fst (SELECTOR_AllocBlock st base size flags) <> 0 ->
  let count := block_count size in
  let st' := snd (SELECTOR_AllocBlock st base size flags) in
  exists idx,
    FIRST_LDT_ENTRY_TO_ALLOC <= idx /\ idx + count <= LDT_SIZE /\
    0 < count /\
    fst (SELECTOR_AllocBlock st base size flags) = idx * 8 + 7 /\
    (forall j, in_run idx count j = true -> allocated st j = false) /\
    forall j,
      wine_ldt_copy.base st' j =
        (if in_run idx count j then DWORD (base + (j - idx) * 0x10000)
         else wine_ldt_copy.base st j) /\
      wine_ldt_copy.limit st' j =
        (if in_run idx count j
         then DWORD (ent_limit (first_entry base size flags)
                     - (j - idx) * 0x10000)
         else wine_ldt_copy.limit st j) /\
      wine_ldt_copy.flags st' j =
        (if in_run idx count j then entry_flags flags
         else wine_ldt_copy.flags st j).
Proof using FIRST_range.
  intros Hsz. unfold SELECTOR_AllocBlock.
  destruct (size =? 0); [cbn [fst]; congruence|].
  pose proof (SELECTOR_AllocArray_success st (block_count size)) as Harr.
  pose proof (SELECTOR_AllocArray_null st (block_count size)) as Hnull.
  destruct (SELECTOR_AllocArray st (block_count size)) as [sel st1].
  cbn [fst snd] in *.
  destruct (Z.eqb_spec sel 0) as [->|Hsel]; cbn [fst snd]; [congruence|].
  intros _.
  destruct Harr as (idx & Hlo & Hhi & Hpos & Hs & Hfree & Hst1);
    [unfold block_count, WORD; apply Z.mod_pos_bound; lia | assumption |].
  exists idx. repeat split; try assumption.
  all: subst sel st1; unfold SELECTOR_SetEntries.
  all: assert (Hb : ent_base (first_entry base size flags) = DWORD base)
    by (unfold first_entry; now destruct ((base =? 0) && (size =? 1))).
  all: assert (Hl : ent_limit (first_entry base size flags)
                    = DWORD (ent_limit (first_entry base size flags)))
    by (unfold first_entry; destruct ((base =? 0) && (size =? 1));
        cbn [ent_limit wine_ldt_set_limit wine_ldt_set_flags];
        unfold DWORD; now rewrite Z.mod_mod by lia).
  all: destruct (set_entries_loop_spec idx 7 (Z.to_nat (block_count size))
                   ltac:(lia)
                   (mark_allocated (Z.to_nat (block_count size)) st idx 0)
                   0 (first_entry base size flags) base
                   (ent_limit (first_entry base size flags))
                   ltac:(lia) ltac:(lia) Hb Hl j) as (Ibase & Ilimit & Iflags).
  all: destruct (mark_allocated_spec (Z.to_nat (block_count size)) idx st 0)
    as (Mb & Ml & Mf).
  - rewrite Ibase, Mb. rewrite Z.add_0_r, Z2Nat.id by lia. reflexivity.
  - rewrite Ilimit, Ml. rewrite Z.add_0_r, Z2Nat.id by lia. reflexivity.
  - rewrite Iflags, Mf. rewrite Z.add_0_r, Z2Nat.id by lia.
    destruct (in_run idx (block_count size) j); [|reflexivity].
    rewrite land_lor_allocated. unfold entry_flags. f_equal.
    unfold first_entry. now destruct ((base =? 0) && (size =? 1)).
Qed.

Lemma first_entry_limit (base size flags : Z) :
  is_DWORD size -> 0 < size ->
  ent_limit (first_entry base size flags) = block_limit base size.
Proof.
  unfold is_DWORD, first_entry, block_limit. intros Hs Hpos.
  destruct ((base =? 0) && (size =? 1));
    cbn [ent_limit wine_ldt_set_limit wine_ldt_set_flags];
    unfold DWORD; apply Z.mod_small; lia.
Qed.

(** Window [i] of a freshly sized block sits in slot [idx + i], is
    allocated, and its limit is what is left of the block from that
    window's base on, minus one. *)
Lemma alloc_block_window (st : ldt) (base size flags : Z) :
  is_DWORD size ->
  fst (SELECTOR_AllocBlock st base size flags) <> 0 ->
  let sel := fst (SELECTOR_AllocBlock st base size flags) in
  let st' := snd (SELECTOR_AllocBlock st base size flags) in
  let count := block_count size in
  0 < count /\ Z.shiftr sel __AHSHIFT + count <= LDT_SIZE /\
  forall i, 0 <= i < count ->
    loop_slot sel i = Z.shiftr sel __AHSHIFT + i /\
    allocated st (Z.shiftr sel __AHSHIFT + i) = false /\
    allocated st' (Z.shiftr sel __AHSHIFT + i) = true /\
    wine_ldt_copy.limit st' (Z.shiftr sel __AHSHIFT + i)
    = block_limit base size - i * 0x10000.
Proof using FIRST_range.
  intros Hsz Hok. cbn zeta.
  destruct (SELECTOR_AllocBlock_success st base size flags Hsz Hok)
    as (idx & Hlo & Hhi & Hpos & Hsel & Hfree & Hst).
  destruct (block_count_exact size Hsz ltac:(lia)) as (Hs0 & Hq & Hbnd).
  rewrite Hsel.
  assert (Hidx : Z.shiftr (idx * 8 + 7) __AHSHIFT = idx)
    by (apply sel_slot; lia).
  rewrite Hidx. split; [assumption|]. split; [assumption|].
  intros i Hi.
  assert (Hrun : in_run idx (block_count size) (idx + i) = true)
    by (destruct (in_run_spec idx (block_count size) (idx + i)); auto; lia).
  destruct (Hst (idx + i)) as (_ & Hlim & Hfl). rewrite Hrun in Hlim, Hfl.
  repeat split.
  - apply loop_slot_index; lia.
  - now apply Hfree.
  - rewrite allocated_testbit, Hfl. unfold entry_flags.
    rewrite Z.lor_spec. replace (Z.testbit WINE_LDT_FLAGS_ALLOCATED 7)
      with true by reflexivity. apply orb_true_r.
  - rewrite Hlim, first_entry_limit by assumption.
    replace (idx + i - idx) with i by lia.
    apply DWORD_small. unfold is_DWORD, block_limit in *.
    destruct (Z.eqb_spec base 0), (Z.eqb_spec size 1); cbn [andb]; lia.
Qed.

Lemma alloc_block_allocation_bits (st : ldt) (base size flags : Z) :
  is_DWORD size ->
  fst (SELECTOR_AllocBlock st base size flags) <> 0 ->
  forall j,
    allocated (snd (SELECTOR_AllocBlock st base size flags)) j
    = allocated st j
      || in_run (Z.shiftr (fst (SELECTOR_AllocBlock st base size flags))
                          __AHSHIFT) (block_count size) j.
Proof using FIRST_range.
  intros Hsz Hok j.
  destruct (SELECTOR_AllocBlock_success st base size flags Hsz Hok)
    as (idx & Hlo & Hhi & Hpos & Hsel & _ & Hst).
  rewrite Hsel, sel_slot by lia.
  destruct (Hst j) as (_ & _ & Hfl).
  rewrite (allocated_testbit _ j), Hfl.
  destruct (in_run idx (block_count size) j).
  - unfold entry_flags. rewrite Z.lor_spec.
    replace (Z.testbit WINE_LDT_FLAGS_ALLOCATED 7) with true by reflexivity.
    now rewrite !orb_true_r.
  - now rewrite orb_false_r, allocated_testbit.
Qed.

(** C1, as the code has it.  The windows of a multi-slot block sit in
    consecutive slots and are allocated; window [i] has limit
    [size - 1 - i * 0x10000], the distance from its base to the last byte
    of the block.  So every window but the last has a limit above [0xFFFF]
    (it is not saturated) and the last one has [(size - 1) mod 0x10000].
    For size [0x20001] the three lookups give [0x20000], [0x10000], [0]. *)
Theorem multi_slot_block_limits (st : ldt) (base size flags : Z) :
  is_DWORD size -> 0x10000 < size ->
  fst (SELECTOR_AllocBlock st base size flags) <> 0 ->
  let sel := fst (SELECTOR_AllocBlock st base size flags) in
  let st' := snd (SELECTOR_AllocBlock st base size flags) in
  let count := block_count size in
  let window i := WORD (sel + Z.shiftl i __AHSHIFT) in
  1 < count /\
  (forall i, 0 <= i < count ->
     Z.shiftr (window i) __AHSHIFT = Z.shiftr sel __AHSHIFT + i /\
     allocated st' (Z.shiftr (window i) __AHSHIFT) = true /\
     GetSelectorLimit16 st' (window i) = size - 1 - i * 0x10000) /\
  (forall i, 0 <= i < count - 1 -> 0xFFFF < GetSelectorLimit16 st' (window i)) /\
  GetSelectorLimit16 st' (window (count - 1)) = (size - 1) mod 0x10000 /\
  (size = 0x20001 ->
   GetSelectorLimit16 st' (window 0) = 0x20000 /\
   GetSelectorLimit16 st' (window 1) = 0x10000 /\
   GetSelectorLimit16 st' (window 2) = 0).
Proof using FIRST_range.
  intros Hsz Hbig Hok. cbn zeta.
  destruct (alloc_block_window st base size flags Hsz Hok) as (Hpos & Hhi & Hw).
  destruct (block_count_exact size Hsz ltac:(lia)) as (Hs0 & Hq & Hbnd).
  assert (Hlim : forall i, 0 <= i < block_count size ->
            GetSelectorLimit16 (snd (SELECTOR_AllocBlock st base size flags))
              (WORD (fst (SELECTOR_AllocBlock st base size flags)
                     + Z.shiftl i __AHSHIFT))
            = size - 1 - i * 0x10000).
  { intros i Hi. destruct (Hw i Hi) as (Hslot & _ & _ & Hl).
    unfold GetSelectorLimit16. fold (loop_slot
      (fst (SELECTOR_AllocBlock st base size flags)) i).
    rewrite Hslot, Hl. unfold block_limit.
    destruct (Z.eqb_spec size 1); [lia|]. now rewrite andb_false_r. }
  split; [lia|]. split; [|split; [|split]].
  - intros i Hi. destruct (Hw i Hi) as (Hslot & _ & Ha & _).
    unfold loop_slot in Hslot. rewrite Hslot. auto.
  - intros i Hi. rewrite Hlim by lia. lia.
  - rewrite Hlim by lia.
    apply Z.mod_unique with (block_count size - 1); lia.
  - intros ->. replace (block_count 0x20001) with 3 in Hlim by reflexivity.
    rewrite !Hlim by lia. repeat split.
Qed.

(** [(limit >> 16) + 1] computed from the limit of window [i]. *)
Lemma count_from_window_limit (base size i : Z) :
  is_DWORD size -> 0 < block_count size -> 0 <= i < block_count size ->
  WORD (Z.shiftr (block_limit base size - i * 0x10000) 16 + 1)
  = block_count size - i.
Proof.
  intros Hsz Hpos Hi.
  destruct (block_count_exact size Hsz ltac:(lia)) as (Hs0 & Hq & Hbnd).
  rewrite Z.shiftr_div_pow2 by lia. change (2 ^ 16) with 0x10000.
  replace (block_limit base size - i * 0x10000)
    with (block_limit base size + (- i) * 0x10000) by lia.
  rewrite Z.div_add by lia.
  assert (Hd : block_limit base size / 0x10000 = block_count size - 1).
  { symmetry. apply Z.div_unique with
      (block_limit base size - (block_count size - 1) * 0x10000); [|lia].
    unfold block_limit.
    destruct (Z.eqb_spec base 0), (Z.eqb_spec size 1); cbn [andb]; lia. }
  rewrite Hd.
  replace (block_count size - 1 + - i + 1) with (block_count size - i) by lia.
  unfold WORD. apply Z.mod_small.
  assert (block_count size < 0x10000)
    by (unfold block_count, WORD; apply Z.mod_pos_bound; lia).
  lia.
Qed.

Lemma sel_decompose (sel : Z) :
  is_WORD sel ->
  sel = Z.shiftr sel __AHSHIFT * 8 + sel mod 8 /\
  0 <= sel mod 8 < 8 /\ 0 <= Z.shiftr sel __AHSHIFT.
Proof.
  unfold is_WORD, __AHSHIFT. intros H.
  rewrite Z.shiftr_div_pow2 by lia. change (2 ^ 3) with 8.
  pose proof (Z.div_mod sel 8 ltac:(lia)).
  pose proof (Z.mod_pos_bound sel 8 ltac:(lia)).
  assert (0 <= sel / 8) by (apply Z.div_pos; lia).
  repeat split; lia.
Qed.

(** The windows [SELECTOR_SetEntries] writes for a selector whose
    [count] slots lie within the table: window [i] goes to the [i]-th slot
    after the selector's, with the limit lowered by [i] times 64K. *)
Lemma SELECTOR_SetEntries_window (st : ldt) (sel base size flags : Z) :
  is_WORD sel -> is_DWORD size -> 0 < block_count size ->
  Z.shiftr sel __AHSHIFT + block_count size <= LDT_SIZE ->
  forall i, 0 <= i < block_count size ->
    loop_slot sel i = Z.shiftr sel __AHSHIFT + i /\
    wine_ldt_copy.limit (SELECTOR_SetEntries st sel base size flags)
                        (Z.shiftr sel __AHSHIFT + i)
    = block_limit base size - i * 0x10000.
Proof.
  clear FIRST_range.
  intros Hsel Hsz Hpos Hcap i Hi.
  destruct (sel_decompose sel Hsel) as (Hd & Hlow & Hidx).
  destruct (block_count_exact size Hsz ltac:(lia)) as (Hs0 & Hq & Hbnd).
  set (idx := Z.shiftr sel __AHSHIFT) in *.
  split.
  - rewrite Hd. apply loop_slot_index; lia.
  - unfold SELECTOR_SetEntries. rewrite Hd at 1.
    assert (Hb : ent_base (first_entry base size flags) = DWORD base)
      by (unfold first_entry; now destruct ((base =? 0) && (size =? 1))).
    assert (Hl : ent_limit (first_entry base size flags)
                 = DWORD (block_limit base size)).
    { rewrite first_entry_limit by assumption. symmetry. apply DWORD_small.
      unfold is_DWORD, block_limit in *.
      destruct (Z.eqb_spec base 0), (Z.eqb_spec size 1); cbn [andb]; lia. }
    destruct (set_entries_loop_spec idx (sel mod 8)
                (Z.to_nat (block_count size)) Hlow st 0
                (first_entry base size flags) base (block_limit base size)
                ltac:(lia) ltac:(lia) Hb Hl (idx + i)) as (_ & Ilimit & _).
    rewrite Ilimit.
    destruct (in_run_spec (idx + 0) (Z.of_nat (Z.to_nat (block_count size)))
                (idx + i)); [|lia].
    replace (idx + i - (idx + 0)) with i by lia.
    apply DWORD_small. unfold is_DWORD, block_limit in *.
    destruct (Z.eqb_spec base 0), (Z.eqb_spec size 1); cbn [andb]; lia.
Qed.

(** [(limit >> 16) + 1] in the slots of a freshly sized block. *)
Lemma alloc_block_sel_count (st : ldt) (base size flags : Z) :
  is_DWORD size ->
  fst (SELECTOR_AllocBlock st base size flags) <> 0 ->
  let sel := fst (SELECTOR_AllocBlock st base size flags) in
  let st' := snd (SELECTOR_AllocBlock st base size flags) in
  let count := block_count size in
  get_sel_count st' sel = count /\
  forall i, 0 <= i < count ->
    get_sel_count st' (WORD (sel + Z.shiftl i __AHSHIFT)) = count - i.
Proof using FIRST_range.
  intros Hsz Hok. cbn zeta.
  destruct (alloc_block_window st base size flags Hsz Hok) as (Hpos & Hhi & Hw).
  split.
  - destruct (Hw 0 ltac:(lia)) as (_ & _ & _ & Hl).
    unfold get_sel_count. rewrite Z.add_0_r in Hl. rewrite Hl.
    rewrite count_from_window_limit by (try assumption; lia). lia.
  - intros i Hi. destruct (Hw i Hi) as (Hslot & _ & _ & Hl).
    unfold get_sel_count.
    fold (loop_slot (fst (SELECTOR_AllocBlock st base size flags)) i).
    rewrite Hslot, Hl. now apply count_from_window_limit.
Qed.

(** C8, as the code has it.  Once [SELECTOR_SetEntries] has written the
    [count] windows of a block that lies within the table,
    [(limit >> 16) + 1] read from the block's first slot is [count], and
    read from slot [i] it is [count - i], the number of slots from that
    slot to the end of the block. *)
Theorem slot_count_from_limit (st : ldt) (sel base size flags : Z) :
  is_WORD sel -> is_DWORD size ->
  let count := block_count size in
  let st' := SELECTOR_SetEntries st sel base size flags in
  0 < count -> Z.shiftr sel __AHSHIFT + count <= LDT_SIZE ->
  get_sel_count st' sel = count /\
  forall i, 0 <= i < count ->
    get_sel_count st' (WORD (sel + Z.shiftl i __AHSHIFT)) = count - i.
Proof.
  clear FIRST_range.
  intros Hsel Hsz. cbn zeta. intros Hpos Hcap.
  pose proof (SELECTOR_SetEntries_window st sel base size flags
                Hsel Hsz Hpos Hcap) as Hw.
  split.
  - destruct (Hw 0 ltac:(lia)) as (_ & Hl).
    unfold get_sel_count. rewrite Z.add_0_r in Hl. rewrite Hl.
    rewrite count_from_window_limit by (try assumption; lia). lia.
  - intros i Hi. destruct (Hw i Hi) as (Hslot & Hl).
    unfold get_sel_count. fold (loop_slot sel i).
    rewrite Hslot, Hl. now apply count_from_window_limit.
Qed.

(** Sizing a block and freeing it with [SELECTOR_FreeBlock], which takes
    the slot count from the first limit, also restores every allocation
    bit. *)
Lemma alloc_block_free_block_restores (st : ldt) (base size flags : Z) :
  is_DWORD size ->
  fst (SELECTOR_AllocBlock st base size flags) <> 0 ->
  forall j,
    allocated (SELECTOR_FreeBlock
                 (snd (SELECTOR_AllocBlock st base size flags))
                 (fst (SELECTOR_AllocBlock st base size flags))) j
    = allocated st j.
Proof using FIRST_range.
  intros Hsz Hok j. unfold SELECTOR_FreeBlock.
  destruct (alloc_block_sel_count st base size flags Hsz Hok) as (-> & _).
  destruct (alloc_block_window st base size flags Hsz Hok) as (Hpos & Hhi & Hw).
  set (sel := fst (SELECTOR_AllocBlock st base size flags)) in *.
  set (st' := snd (SELECTOR_AllocBlock st base size flags)) in *.
  assert (Hidx : 0 <= Z.shiftr sel __AHSHIFT).
  { destruct (SELECTOR_AllocBlock_success st base size flags Hsz Hok)
      as (idx & Hlo & _ & _ & Hsel & _).
    unfold sel. rewrite Hsel. apply Z.shiftr_nonneg. lia. }
  destruct (in_run_spec (Z.shiftr sel __AHSHIFT) (block_count size) j)
    as [Hin|Hout].
  - destruct (Hw (j - Z.shiftr sel __AHSHIFT) ltac:(lia))
      as (Hslot & Hfree & _).
    replace (Z.shiftr sel __AHSHIFT + (j - Z.shiftr sel __AHSHIFT)) with j
      in * by lia.
    rewrite <- Hslot at 1. rewrite free_selectors_frees by lia.
    now rewrite Hfree.
  - rewrite free_selectors_other.
    + unfold st', sel. rewrite alloc_block_allocation_bits by assumption.
      fold sel.
      destruct (in_run_spec (Z.shiftr sel __AHSHIFT) (block_count size) j);
        [contradiction|apply orb_false_r].
    + intros k Hk. destruct (Hw k ltac:(lia)) as (Hslot & _).
      rewrite Hslot. lia.
Qed.

(** C2, as the code has it.  Size 0 gives the null selector and leaves the
    table alone.  For the sizes 1, 0xFFFF, 0x10000, 0x10001, 0x20000 a
    successful [SELECTOR_AllocBlock] turns exactly 1, 1, 1, 2, 2 free
    slots into allocated ones, and the last window's limit is
    [(size - 1) mod 0x10000], with no exception when that remainder is 0;
    only a one-byte block at the null base gets limit 1. *)
Theorem alloc_block_probe_sizes (st : ldt) (base flags : Z) :
  SELECTOR_AllocBlock st base 0 flags = (0, st) /\
  forall size n,
    In (size, n) probe_sizes ->
    fst (SELECTOR_AllocBlock st base size flags) <> 0 ->
    let sel := fst (SELECTOR_AllocBlock st base size flags) in
    let st' := snd (SELECTOR_AllocBlock st base size flags) in
    block_count size = n /\
    (forall j, in_run (Z.shiftr sel __AHSHIFT) n j = true ->
               allocated st j = false) /\
    (forall j, allocated st' j
               = allocated st j || in_run (Z.shiftr sel __AHSHIFT) n j) /\
    GetSelectorLimit16 st' (WORD (sel + Z.shiftl (n - 1) __AHSHIFT))
    = if (base =? 0) && (size =? 1) then 1 else (size - 1) mod 0x10000.
Proof using FIRST_range.
  split; [reflexivity|].
  intros size n Hin Hok. cbn zeta.
  assert (Hsz : is_DWORD size /\ block_count size = n /\
                (size - 1) mod 0x10000 = size - 1 - (n - 1) * 0x10000).
  { unfold probe_sizes in Hin. cbn [In] in Hin.
    repeat (destruct Hin as [Hin|Hin];
            [injection Hin as <- <-; unfold is_DWORD;
             repeat split; try lia; reflexivity|]).
    contradiction. }
  destruct Hsz as (Hsz & Hn & Hmod).
  destruct (alloc_block_window st base size flags Hsz Hok) as (Hpos & Hhi & Hw).
  rewrite Hn in *. split; [reflexivity|]. split; [|split].
  - intros j Hj.
    destruct (in_run_spec
                (Z.shiftr (fst (SELECTOR_AllocBlock st base size flags))
                          __AHSHIFT) n j) as [Hr|]; [|discriminate].
    destruct (Hw (j - Z.shiftr (fst (SELECTOR_AllocBlock st base size flags))
                               __AHSHIFT) ltac:(lia)) as (_ & Hf & _).
    rewrite <- Hf. f_equal. lia.
  - intros j. rewrite alloc_block_allocation_bits by assumption.
    now rewrite Hn.
  - destruct (Hw (n - 1) ltac:(lia)) as (Hslot & _ & _ & Hl).
    unfold GetSelectorLimit16.
    fold (loop_slot (fst (SELECTOR_AllocBlock st base size flags)) (n - 1)).
    rewrite Hslot, Hl, Hmod. unfold block_limit.
    destruct (Z.eqb_spec base 0), (Z.eqb_spec size 1); cbn [andb]; try lia.
    subst size. replace n with 1 by (vm_compute in Hn; congruence). lia.
Qed.

(** ** The block resizer *)


(** Writing an entry never changes an allocation bit: the entry's flags
    hold the five type bits and the 32-bit flag only. *)
Lemma wine_ldt_set_entry_allocated (st : ldt) (sel : Z) (e : LDT_ENTRY) (j : Z) :
  Z.testbit (wine_ldt_get_flags e) 7 = false ->
  allocated (wine_ldt_set_entry st sel e) j = allocated st j.
Proof.
  intros He. rewrite !allocated_testbit.
  unfold wine_ldt_set_entry; cbn [wine_ldt_copy.flags]. unfold upd.
  destruct (Z.eqb_spec j (Z.shiftr sel __AHSHIFT)) as [->|]; [|reflexivity].
  rewrite Z.lor_spec, He, Z.land_spec.
  replace (Z.testbit WINE_LDT_FLAGS_ALLOCATED 7) with true by reflexivity.
  now rewrite andb_true_r.
Qed.

Lemma set_entries_loop_allocated (n : nat) (sel j : Z) :
  forall st i e,
    Z.testbit (wine_ldt_get_flags e) 7 = false ->
    allocated (set_entries_loop n st sel i e) j = allocated st j.
Proof.
  induction n as [|n IH]; intros st i e He; cbn [set_entries_loop]; auto.
  rewrite IH by exact He. now apply wine_ldt_set_entry_allocated.
Qed.

Lemma SELECTOR_SetEntries_allocated (st : ldt) (sel base size flags j : Z) :
  allocated (SELECTOR_SetEntries st sel base size flags) j = allocated st j.
Proof.
  unfold SELECTOR_SetEntries. apply set_entries_loop_allocated.
  unfold first_entry.
  destruct ((base =? 0) && (size =? 1)); apply type_field_bit7.
Qed.


(** ** Aliases *)

Lemma AllocCStoDSAlias16_shape (st : ldt) (sel : Z) :
  AllocCStoDSAlias16 st sel = alias_with WINE_LDT_FLAGS_DATA st sel.
Proof. reflexivity. Qed.

Lemma AllocDStoCSAlias16_shape (st : ldt) (sel : Z) :
  AllocDStoCSAlias16 st sel = alias_with WINE_LDT_FLAGS_CODE st sel.
Proof. reflexivity. Qed.

Lemma big_flag_value (f : Z) :
  (if negb (Z.land f WINE_LDT_FLAGS_32BIT =? 0) then WINE_LDT_FLAGS_32BIT
   else 0) = Z.land f WINE_LDT_FLAGS_32BIT.
Proof.
  unfold WINE_LDT_FLAGS_32BIT. change 0x40 with (2 ^ 6).
  rewrite land_single_bit by lia. now destruct (Z.testbit f 6).
Qed.

(** What a successful alias call has done, for a source slot that is in
    use.  [t] is the type the function stores. *)
Lemma alias_with_spec (t : Z) (st : ldt) (sel : Z) :
  ldt_wf st ->
  allocated st (Z.shiftr sel __AHSHIFT) = true ->
  fst (alias_with t st sel) <> 0 ->
  let src := Z.shiftr sel __AHSHIFT in
  let new := Z.shiftr (fst (alias_with t st sel)) __AHSHIFT in
  let st' := snd (alias_with t st sel) in
  FIRST_LDT_ENTRY_TO_ALLOC <= new < LDT_SIZE /\
  fst (alias_with t st sel) = new * 8 + 7 /\
  allocated st new = false /\ new <> src /\
  wine_ldt_copy.base st' new = wine_ldt_copy.base st src /\
  wine_ldt_copy.limit st' new = wine_ldt_copy.limit st src /\
  wine_ldt_copy.flags st' new
  = Z.lor (Z.lor (Z.land t 0x1f)
                 (Z.land (wine_ldt_copy.flags st src) WINE_LDT_FLAGS_32BIT))
          WINE_LDT_FLAGS_ALLOCATED /\
  forall j, j <> new ->
    wine_ldt_copy.base st' j = wine_ldt_copy.base st j /\
    wine_ldt_copy.limit st' j = wine_ldt_copy.limit st j /\
    wine_ldt_copy.flags st' j = wine_ldt_copy.flags st j.
Proof using FIRST_range.
  intros Hwf Hsrc. unfold alias_with.
  pose proof (SELECTOR_AllocArray_success st 1 ltac:(lia)) as Harr.
  destruct (SELECTOR_AllocArray st 1) as [newsel st1]. cbn [fst snd] in Harr.
  destruct (Z.eqb_spec newsel 0) as [->|Hnz]; cbn [fst snd]; [congruence|].
  intros _.
  destruct (Harr Hnz) as (idx & Hlo & Hhi & _ & Hsel & Hfree & Hst1).
  subst newsel. rewrite sel_slot by lia.
  assert (Hidx : allocated st idx = false).
  { apply Hfree. destruct (in_run_spec idx 1 idx); auto; lia. }
  assert (Hne : idx <> Z.shiftr sel __AHSHIFT) by congruence.
  destruct (mark_allocated_spec (Z.to_nat 1) idx st 0) as (Mb & Ml & Mf).
  rewrite <- Hst1 in Mb, Ml, Mf.
  assert (Mfsrc : wine_ldt_copy.flags st1 (Z.shiftr sel __AHSHIFT)
                  = wine_ldt_copy.flags st (Z.shiftr sel __AHSHIFT)).
  { rewrite Mf. destruct (in_run_spec (idx + 0) (Z.of_nat (Z.to_nat 1))
                            (Z.shiftr sel __AHSHIFT)); [lia|reflexivity]. }
  assert (Mfnew : wine_ldt_copy.flags st1 idx
                  = Z.lor (wine_ldt_copy.flags st idx) WINE_LDT_FLAGS_ALLOCATED).
  { rewrite Mf. destruct (in_run_spec (idx + 0) (Z.of_nat (Z.to_nat 1)) idx);
      [reflexivity|lia]. }
  destruct (Hwf (Z.shiftr sel __AHSHIFT)) as (Wb & Wl & _).
  unfold wine_ldt_set_entry, wine_ldt_get_entry, set_Bits_Type,
    wine_ldt_set_flags, wine_ldt_set_limit, wine_ldt_set_base,
    wine_ldt_get_base, wine_ldt_get_limit, wine_ldt_get_flags.
  cbn [wine_ldt_copy.base wine_ldt_copy.limit wine_ldt_copy.flags
       ent_base ent_limit Bits_Type Bits_Default_Big].
  rewrite sel_slot by lia.
  repeat split; try lia; try assumption.
  - rewrite upd_same, Mb. now apply DWORD_small.
  - rewrite upd_same, Ml. now apply DWORD_small.
  - rewrite upd_same, Mfsrc, Mfnew, land_lor_allocated, big_flag_value.
    reflexivity.
  - rewrite upd_other by assumption. now rewrite Mb.
  - rewrite upd_other by assumption. now rewrite Ml.
  - rewrite upd_other by assumption. rewrite Mf.
    destruct (in_run_spec (idx + 0) (Z.of_nat (Z.to_nat 1)) j);
      [lia|reflexivity].
Qed.

Lemma alias_with_result (t : Z) (st : ldt) (sel : Z) :
  ldt_wf st ->
  allocated st (Z.shiftr sel __AHSHIFT) = true ->
  fst (alias_with t st sel) <> 0 ->
  alias_result (Z.land t 0x1f) st sel (alias_with t st sel).
Proof using FIRST_range.
  intros Hwf Hsrc Hok.
  destruct (alias_with_spec t st sel Hwf Hsrc Hok)
    as (Hrng & Hsel & Hfree & Hne & Hb & Hl & Hf & Hother).
  destruct (Hother (Z.shiftr sel __AHSHIFT) ltac:(congruence))
    as (_ & _ & Hfsrc).
  unfold alias_result. cbn zeta.
  repeat split; try assumption.
  - rewrite allocated_testbit, Hf, Z.lor_spec.
    replace (Z.testbit WINE_LDT_FLAGS_ALLOCATED 7) with true by reflexivity.
    apply orb_true_r.
  - rewrite Hf, !Z.land_lor_distr_l, <- !Z.land_assoc.
    unfold WINE_LDT_FLAGS_32BIT, WINE_LDT_FLAGS_ALLOCATED.
    change (Z.land 0x40 0x1f) with 0. change (Z.land 0x80 0x1f) with 0.
    change (Z.land 0x1f 0x1f) with 0x1f.
    now rewrite Z.land_0_r, !Z.lor_0_r.
  - rewrite Hf, !Z.lor_spec, !Z.land_spec.
    unfold WINE_LDT_FLAGS_32BIT, WINE_LDT_FLAGS_ALLOCATED.
    replace (Z.testbit 0x1f 6) with false by reflexivity.
    replace (Z.testbit 0x40 6) with true by reflexivity.
    replace (Z.testbit 0x80 6) with false by reflexivity.
    now rewrite andb_false_r, andb_true_r, orb_false_r.
  - rewrite FreeSelector16_allocated.
    destruct (Z.eqb_spec (Z.shiftr sel __AHSHIFT)
                (Z.shiftr (fst (alias_with t st sel)) __AHSHIFT));
      [congruence|].
    rewrite andb_true_r, !allocated_testbit. now rewrite Hfsrc.
Qed.

(** C9, as the code has it.  For a source slot that is in use, a successful
    [AllocCStoDSAlias16] gives a fresh slot with the source's base and
    limit whose type is [WINE_LDT_FLAGS_DATA], and a successful
    [AllocDStoCSAlias16] one whose type is [WINE_LDT_FLAGS_CODE], whatever
    type bits the source has; the 32-bit flag is the source's, and freeing
    the alias leaves the source's allocation state alone. *)
Theorem alias_descriptor (st : ldt) (sel : Z) :
  ldt_wf st ->
  allocated st (Z.shiftr sel __AHSHIFT) = true ->
  (fst (AllocCStoDSAlias16 st sel) <> 0 ->
   alias_result WINE_LDT_FLAGS_DATA st sel (AllocCStoDSAlias16 st sel)) /\
  (fst (AllocDStoCSAlias16 st sel) <> 0 ->
   alias_result WINE_LDT_FLAGS_CODE st sel (AllocDStoCSAlias16 st sel)).
Proof using FIRST_range.
  intros Hwf Hsrc. split; intros Hok.
  - rewrite AllocCStoDSAlias16_shape in *.
    now apply (alias_with_result WINE_LDT_FLAGS_DATA).
  - rewrite AllocDStoCSAlias16_shape in *.
    now apply (alias_with_result WINE_LDT_FLAGS_CODE).
Qed.

(** ** Pointer checks *)

Lemma descriptor_type_range (st : ldt) (sel : Z) :
  0 <= descriptor_type st sel < 32.
Proof.
  unfold descriptor_type, wine_ldt_get_entry, wine_ldt_set_flags.
  cbn [Bits_Type]. change 0x1f with (Z.ones 5). rewrite Z.land_ones by lia.
  apply Z.mod_pos_bound. lia.
Qed.

Lemma entry_limit_wf (st : ldt) (sel : Z) :
  ldt_wf st ->
  wine_ldt_get_limit (wine_ldt_get_entry st sel)
  = wine_ldt_copy.limit st (Z.shiftr sel __AHSHIFT).
Proof.
  intros Hwf. destruct (Hwf (Z.shiftr sel __AHSHIFT)) as (_ & Hl & _).
  unfold wine_ldt_get_limit, wine_ldt_get_entry, wine_ldt_set_flags,
    wine_ldt_set_limit. cbn [ent_limit]. now apply DWORD_small.
Qed.

(** A fact about the 32 segment types, checked on each of them. *)
Lemma forall_types (p : Z -> bool) :
  forallb p (map Z.of_nat (seq 0 32)) = true ->
  forall t, 0 <= t < 32 -> p t = true.
Proof.
  intros H t Ht. rewrite forallb_forall in H. apply H.
  apply in_map_iff. exists (Z.to_nat t). split; [lia|].
  apply in_seq. lia.
Qed.

Lemma code_check_rejects_data (t : Z) :
  0 <= t < 32 -> Z.testbit t 3 = false ->
  negb (Z.land (Z.lxor t WINE_LDT_FLAGS_CODE) 0x18 =? 0) = true.
Proof.
  intros Ht Hk.
  pose proof (forall_types
    (fun t => implb (negb (Z.testbit t 3))
                    (negb (Z.land (Z.lxor t WINE_LDT_FLAGS_CODE) 0x18 =? 0)))
    eq_refl t Ht) as H.
  cbv beta in H. now rewrite Hk in H.
Qed.

Lemma code_check_accepts_code (t : Z) :
  0 <= t < 32 -> Z.testbit t 4 = true -> Z.testbit t 3 = true ->
  negb (Z.land (Z.lxor t WINE_LDT_FLAGS_CODE) 0x18 =? 0) = false.
Proof.
  intros Ht H4 H3.
  pose proof (forall_types
    (fun t => implb (Z.testbit t 4 && Z.testbit t 3)
                    (Z.land (Z.lxor t WINE_LDT_FLAGS_CODE) 0x18 =? 0))
    eq_refl t Ht) as H.
  cbv beta in H. rewrite H4, H3 in H. cbn [andb implb] in H. now rewrite H.
Qed.

Lemma write_check_rejects_read_only (t : Z) :
  0 <= t < 32 -> Z.testbit t 1 = false ->
  negb (Z.land (Z.lxor t WINE_LDT_FLAGS_DATA) (Z.lnot 5) =? 0) = true.
Proof.
  intros Ht Hw.
  pose proof (forall_types
    (fun t => implb (negb (Z.testbit t 1))
                    (negb (Z.land (Z.lxor t WINE_LDT_FLAGS_DATA) (Z.lnot 5)
                           =? 0)))
    eq_refl t Ht) as H.
  cbv beta in H. now rewrite Hw in H.
Qed.

Lemma write_check_accepts_writable_data (t : Z) :
  0 <= t < 32 ->
  Z.testbit t 4 = true -> Z.testbit t 3 = false -> Z.testbit t 1 = true ->
  negb (Z.land (Z.lxor t WINE_LDT_FLAGS_DATA) (Z.lnot 5) =? 0) = false.
Proof.
  intros Ht H4 H3 H1.
  pose proof (forall_types
    (fun t => implb (Z.testbit t 4 && negb (Z.testbit t 3) && Z.testbit t 1)
                    (Z.land (Z.lxor t WINE_LDT_FLAGS_DATA) (Z.lnot 5) =? 0))
    eq_refl t Ht) as H.
  cbv beta in H. rewrite H4, H3, H1 in H. cbn [andb negb implb] in H.
  now rewrite H.
Qed.

Lemma read_check_accepts_readable (t : Z) :
  0 <= t < 32 ->
  Z.testbit t 4 = true -> (Z.testbit t 3 = true -> Z.testbit t 1 = true) ->
  (Z.land t 0x10 =? 0) = false /\ (Z.land t 0x0a =? 0x08) = false.
Proof.
  intros Ht H4 H31.
  pose proof (forall_types
    (fun t => implb (Z.testbit t 4 && implb (Z.testbit t 3) (Z.testbit t 1))
                    (negb (Z.land t 0x10 =? 0)
                     && negb (Z.land t 0x0a =? 0x08)))
    eq_refl t Ht) as H.
  cbv beta in H. rewrite H4 in H.
  destruct (Z.testbit t 3); [rewrite H31 in H by reflexivity|];
    cbn [andb implb] in H; apply andb_true_iff in H; destruct H as [Ha Hb];
    apply negb_true_iff in Ha, Hb; auto.
Qed.

(** C3, as the code has it.  The three checks report a bad pointer for the
    null selector; the read and write checks do so for a non-empty range
    whose last byte [offset + length - 1] lies one past the limit (the sum
    being a DWORD, the limit must be below [0xFFFFFFFF]) and accept a range
    that ends on the limit when slot and type allow the access; an empty
    range is never checked against the limit: when slot and type allow the
    access it is accepted whatever the offset and the limit are; the write
    check rejects a type without the writable bit, the code check a data
    segment and every offset above the limit. *)
Theorem pointer_validation (st : ldt) (ptr size : Z) :
  ldt_wf st -> is_DWORD size ->
  let sel := SELECTOROF ptr in
  let off := OFFSETOF ptr in
  let lim := wine_ldt_copy.limit st (Z.shiftr sel __AHSHIFT) in
  let t := descriptor_type st sel in
  (* null selector *)
  (sel = 0 ->
   IsBadHugeReadPtr16 st ptr size = true /\
   IsBadHugeWritePtr16 st ptr size = true /\
   IsBadCodePtr16 st ptr = true) /\
  (* one byte past the limit *)
  (size <> 0 -> lim < 0xFFFFFFFF -> off + size - 1 = lim + 1 ->
   IsBadHugeReadPtr16 st ptr size = true /\
   IsBadHugeWritePtr16 st ptr size = true) /\
  (* the code check takes no length: every offset above the limit *)
  (lim < off -> IsBadCodePtr16 st ptr = true) /\
  (* an empty range is not checked against the limit *)
  (sel <> 0 -> allocated st (Z.shiftr sel __AHSHIFT) = true ->
   (Z.testbit t 4 = true -> (Z.testbit t 3 = true -> Z.testbit t 1 = true) ->
    IsBadHugeReadPtr16 st ptr 0 = false) /\
   (Z.testbit t 4 = true -> Z.testbit t 3 = false -> Z.testbit t 1 = true ->
    IsBadHugeWritePtr16 st ptr 0 = false)) /\
  (* ending on the limit *)
  (sel <> 0 -> allocated st (Z.shiftr sel __AHSHIFT) = true ->
   off + size - 1 = lim ->
   (Z.testbit t 4 = true -> (Z.testbit t 3 = true -> Z.testbit t 1 = true) ->
    IsBadHugeReadPtr16 st ptr size = false) /\
   (Z.testbit t 4 = true -> Z.testbit t 3 = false -> Z.testbit t 1 = true ->
    IsBadHugeWritePtr16 st ptr size = false)) /\
  (sel <> 0 -> allocated st (Z.shiftr sel __AHSHIFT) = true ->
   off <= lim -> Z.testbit t 4 = true -> Z.testbit t 3 = true ->
   IsBadCodePtr16 st ptr = false) /\
  (* write intent, no writable bit *)
  (Z.testbit t 1 = false -> IsBadHugeWritePtr16 st ptr size = true) /\
  (* execute intent, data segment *)
  (Z.testbit t 3 = false -> IsBadCodePtr16 st ptr = true).
Proof.
  intros Hwf Hsz. cbn zeta.
  pose proof (descriptor_type_range st (SELECTOROF ptr)) as Ht.
  pose proof (entry_limit_wf st (SELECTOROF ptr) Hwf) as Hlim.
  destruct (Hwf (Z.shiftr (SELECTOROF ptr) __AHSHIFT)) as (_ & Hl & _).
  assert (Hoff : 0 <= OFFSETOF ptr < 0x10000)
    by (unfold OFFSETOF, LOWORD, WORD; apply Z.mod_pos_bound; lia).
  unfold is_DWORD in *.
  unfold IsBadHugeReadPtr16, IsBadHugeWritePtr16, IsBadCodePtr16,
    IS_SELECTOR_FREE.
  fold (descriptor_type st (SELECTOROF ptr)). rewrite Hlim.
  set (t := descriptor_type st (SELECTOROF ptr)) in *.
  set (lim := wine_ldt_copy.limit st (Z.shiftr (SELECTOROF ptr) __AHSHIFT))
    in *.
  assert (Hpast : forall b : bool, size <> 0 -> lim < 0xFFFFFFFF ->
            OFFSETOF ptr + size - 1 = lim + 1 ->
            (if negb (size =? 0) && (DWORD (OFFSETOF ptr + size - 1) >? lim)
             then true else b) = true).
  { intros b Hnz Hmax Hend. rewrite Hend. unfold DWORD.
    rewrite Z.mod_small by lia.
    destruct (Z.eqb_spec size 0); [contradiction|].
    destruct (Z.gtb_spec (lim + 1) lim); [reflexivity|lia]. }
  assert (Hon : OFFSETOF ptr + size - 1 = lim ->
            (if negb (size =? 0) && (DWORD (OFFSETOF ptr + size - 1) >? lim)
             then true else false) = false).
  { intros Hend. rewrite Hend. unfold DWORD. rewrite Z.mod_small by lia.
    destruct (Z.gtb_spec lim lim); [lia|]. now rewrite andb_false_r. }
  split.
  { intros ->. repeat split. }
  split.
  { intros Hnz Hmax Hend. split.
    - destruct (SELECTOROF ptr =? 0); [reflexivity|].
      destruct (negb (allocated st _)); [reflexivity|].
      destruct (Z.land t 16 =? 0); [reflexivity|].
      destruct (Z.land t 10 =? 8); [reflexivity|].
      now apply Hpast.
    - destruct (SELECTOROF ptr =? 0); [reflexivity|].
      destruct (negb (allocated st _)); [reflexivity|].
      destruct (negb (Z.land (Z.lxor t WINE_LDT_FLAGS_DATA) (Z.lnot 5) =? 0));
        [reflexivity|].
      now apply Hpast. }
  split.
  { intros Hend.
    destruct (SELECTOROF ptr =? 0); [reflexivity|].
    destruct (negb (allocated st _)); [reflexivity|].
    destruct (negb (Z.land (Z.lxor t WINE_LDT_FLAGS_CODE) 24 =? 0));
      [reflexivity|].
    destruct (Z.gtb_spec (OFFSETOF ptr) lim); [reflexivity|lia]. }
  split.
  { intros Hsel Ha.
    destruct (Z.eqb_spec (SELECTOROF ptr) 0); [contradiction|].
    rewrite Ha. cbn [negb Z.eqb andb]. split.
    - intros H4 H31.
      now destruct (read_check_accepts_readable t Ht H4 H31) as (-> & ->).
    - intros H4 H3 H1.
      now rewrite (write_check_accepts_writable_data t Ht H4 H3 H1). }
  split.
  { intros Hsel Ha Hend.
    destruct (Z.eqb_spec (SELECTOROF ptr) 0); [contradiction|].
    rewrite Ha. cbn [negb]. split.
    - intros H4 H31.
      destruct (read_check_accepts_readable t Ht H4 H31) as (-> & ->).
      now apply Hon.
    - intros H4 H3 H1.
      rewrite (write_check_accepts_writable_data t Ht H4 H3 H1).
      now apply Hon. }
  split.
  { intros Hsel Ha Hle H4 H3.
    destruct (Z.eqb_spec (SELECTOROF ptr) 0); [contradiction|].
    rewrite Ha. cbn [negb].
    rewrite (code_check_accepts_code t Ht H4 H3).
    destruct (Z.gtb_spec (OFFSETOF ptr) lim); [lia|reflexivity]. }
  split.
  { intros Hw.
    destruct (SELECTOROF ptr =? 0); [reflexivity|].
    destruct (negb (allocated st _)); [reflexivity|].
    now rewrite (write_check_rejects_read_only t Ht Hw). }
  intros Hk.
  destruct (SELECTOROF ptr =? 0); [reflexivity|].
  destruct (negb (allocated st _)); [reflexivity|].
  now rewrite (code_check_rejects_data t Ht Hk).
Qed.

(** ** Win95 pointer mapping *)

Lemma SEGPTR_of_selector (sel : Z) :
  is_WORD sel ->
  PTR_SEG_OFF_TO_SEGPTR sel 0 = sel * 0x10000 /\
  SELECTOROF (PTR_SEG_OFF_TO_SEGPTR sel 0) = sel /\
  OFFSETOF (PTR_SEG_OFF_TO_SEGPTR sel 0) = 0.
Proof.
  unfold is_WORD. intros H.
  assert (E : PTR_SEG_OFF_TO_SEGPTR sel 0 = sel * 0x10000).
  { unfold PTR_SEG_OFF_TO_SEGPTR, MAKELONG, WORD.
    rewrite Z.mod_0_l, Z.lor_0_l, Z.mod_small, Z.shiftl_mul_pow2 by lia.
    reflexivity. }
  rewrite E. repeat split.
  - unfold SELECTOROF, HIWORD, DWORD, WORD.
    rewrite (Z.mod_small (sel * 0x10000)) by lia.
    rewrite Z.shiftr_div_pow2 by lia. change (2 ^ 16) with 0x10000.
    rewrite Z.div_mul by lia. apply Z.mod_small. lia.
  - unfold OFFSETOF, LOWORD, WORD. apply Z.mod_mul. lia.
Qed.

(** What a [MapLS] that had to allocate and succeeded has done: one slot,
    until then free, now describes the 64K window that starts at the
    pointer itself. *)
Lemma MapLS_success (st : ldt) (ptr : Z) :
  is_DWORD ptr -> HIWORD ptr <> 0 -> fst (MapLS st ptr) <> 0 ->
  exists idx,
    FIRST_LDT_ENTRY_TO_ALLOC <= idx < LDT_SIZE /\
    fst (MapLS st ptr) = PTR_SEG_OFF_TO_SEGPTR (idx * 8 + 7) 0 /\
    allocated st idx = false /\
    forall j,
      wine_ldt_copy.base (snd (MapLS st ptr)) j
      = (if j =? idx then ptr else wine_ldt_copy.base st j) /\
      wine_ldt_copy.limit (snd (MapLS st ptr)) j
      = (if j =? idx then 0xFFFF else wine_ldt_copy.limit st j) /\
      wine_ldt_copy.flags (snd (MapLS st ptr)) j
      = (if j =? idx
         then Z.lor WINE_LDT_FLAGS_DATA WINE_LDT_FLAGS_ALLOCATED
         else wine_ldt_copy.flags st j).
Proof using FIRST_range.
  intros Hptr Hhi. unfold MapLS.
  destruct (Z.eqb_spec (HIWORD ptr) 0); [contradiction|].
  pose proof (SELECTOR_AllocBlock_success st ptr 0x10000 WINE_LDT_FLAGS_DATA)
    as Hblk.
  destruct (SELECTOR_AllocBlock st ptr 0x10000 WINE_LDT_FLAGS_DATA)
    as [sel st1].
  cbn [fst snd] in *. intros Hok.
  assert (Hsel : sel <> 0) by (intros ->; now apply Hok).
  destruct (Hblk ltac:(unfold is_DWORD; lia) Hsel)
    as (idx & Hlo & Hcap & _ & -> & Hfree & Hst).
  change (block_count 0x10000) with 1 in *.
  exists idx. split; [lia|]. split; [reflexivity|]. split.
  - apply Hfree. destruct (in_run_spec idx 1 idx); auto; lia.
  - intros j. destruct (Hst j) as (Hb & Hl & Hf). rewrite Hb, Hl, Hf.
    destruct (in_run_spec idx 1 j), (Z.eqb_spec j idx);
      try (exfalso; lia); [|now repeat split].
    subst j. split; [|split].
    + replace (ptr + (idx - idx) * 0x10000) with ptr by lia.
      now apply DWORD_small.
    + rewrite first_entry_limit by (unfold is_DWORD; lia).
      unfold block_limit. rewrite andb_false_r.
      replace (0x10000 - 1 - (idx - idx) * 0x10000) with 0xFFFF by lia.
      reflexivity.
    + reflexivity.
Qed.

(** C5, as the code has it.  A pointer whose high word is zero comes back
    unchanged and the table is untouched.  Otherwise a successful [MapLS]
    takes exactly one free slot, gives it the Data flags, limit [0xFFFF]
    and the pointer itself as base (the base is not aligned down), and
    returns that selector with offset 0. *)
Theorem MapLS_window (st : ldt) (ptr : Z) :
  is_DWORD ptr ->
  (HIWORD ptr = 0 -> MapLS st ptr = (ptr, st)) /\
  (HIWORD ptr <> 0 -> fst (MapLS st ptr) <> 0 ->
   let sptr := fst (MapLS st ptr) in
   let st' := snd (MapLS st ptr) in
   let idx := Z.shiftr (SELECTOROF sptr) __AHSHIFT in
   SELECTOROF sptr <> 0 /\ OFFSETOF sptr = 0 /\
   allocated st idx = false /\
   (forall j, allocated st' j = allocated st j || (j =? idx)) /\
   wine_ldt_copy.base st' idx = ptr /\
   wine_ldt_copy.limit st' idx = 0xFFFF /\
   wine_ldt_copy.flags st' idx
   = Z.lor WINE_LDT_FLAGS_DATA WINE_LDT_FLAGS_ALLOCATED /\
   forall j, j <> idx ->
     wine_ldt_copy.base st' j = wine_ldt_copy.base st j /\
     wine_ldt_copy.limit st' j = wine_ldt_copy.limit st j /\
     wine_ldt_copy.flags st' j = wine_ldt_copy.flags st j).
Proof using FIRST_range.
  intros Hptr. split.
  - intros H. unfold MapLS. now rewrite H.
  - intros Hhi Hok. cbn zeta.
    destruct (MapLS_success st ptr Hptr Hhi Hok)
      as (idx & Hrng & Hs & Hfree & Hst).
    destruct (SEGPTR_of_selector (idx * 8 + 7)) as (_ & Hsel & Hoff);
      [unfold is_WORD, LDT_SIZE in *; lia|].
    rewrite Hs, Hsel, Hoff, sel_slot by lia.
    split; [lia|]. split; [reflexivity|]. split; [assumption|].
    split; [|split; [|split; [|split]]].
    + intros j. destruct (Hst j) as (_ & _ & Hf).
      rewrite (allocated_testbit _ j), Hf.
      destruct (j =? idx).
      * now rewrite orb_true_r.
      * now rewrite orb_false_r, allocated_testbit.
    + destruct (Hst idx) as (Hb & _). now rewrite Hb, Z.eqb_refl.
    + destruct (Hst idx) as (_ & Hl & _). now rewrite Hl, Z.eqb_refl.
    + destruct (Hst idx) as (_ & _ & Hf). now rewrite Hf, Z.eqb_refl.
    + intros j Hj. destruct (Hst j) as (Hb & Hl & Hf).
      rewrite Hb, Hl, Hf. destruct (Z.eqb_spec j idx); [contradiction|].
      now repeat split.
Qed.

(** The search passes over a start only when its run is blocked: when the
    loop is left, every start below the run found, or every start whose run
    fits the table when none was found, is blocked. *)
Lemma find_free_run_lowest (lo : Z) (n : nat) (st : ldt) (count : Z) :
  forall i size,
    0 <= size < count ->
    Z.of_nat n = LDT_SIZE - i ->
    (forall s, lo <= s < i - size ->
       exists j, s <= j < s + count /\ j < i /\ allocated st j = true) ->
    let r := find_free_run n st count i size in
    (fst r < LDT_SIZE ->
     forall s, lo <= s < fst r - snd r + 1 -> run_blocked st s count) /\
    (fst r = LDT_SIZE ->
     forall s, lo <= s -> s + count <= LDT_SIZE -> run_blocked st s count).
Proof.
  clear FIRST_range.
  induction n as [|n IH]; intros i size Hs Hn Hinv; cbn [find_free_run].
  - cbn [fst snd]. split; [lia|]. intros _ s Hlo Hfit.
    destruct (Hinv s ltac:(lia)) as (j & Hj & _ & Ha). exists j. auto.
  - destruct (Z.ltb_spec i LDT_SIZE) as [Hi|Hi]; [|lia].
    destruct (allocated st i) eqn:Ha.
    + apply IH; [lia|lia|].
      intros s Hsr.
      destruct (Z.lt_ge_cases s (i - size)) as [Hlow|Hhigh].
      * destruct (Hinv s ltac:(lia)) as (j & Hj & Hji & Hja).
        exists j. repeat split; try lia; assumption.
      * exists i. repeat split; try lia; assumption.
    + destruct (Z.geb_spec (size + 1) count) as [Hc|Hc].
      * cbn [fst snd]. split; [|lia]. intros _ s Hsr.
        destruct (Hinv s ltac:(lia)) as (j & Hj & _ & Hja). exists j. auto.
      * apply IH; [lia|lia|].
        intros s Hsr.
        destruct (Hinv s ltac:(lia)) as (j & Hj & Hji & Hja).
        exists j. repeat split; try lia; assumption.
Qed.

Lemma SELECTOR_AllocArray_lowest (st : ldt) (count : Z) :
  0 < count ->
  (fst (SELECTOR_AllocArray st count) <> 0 ->
   forall s,
     FIRST_LDT_ENTRY_TO_ALLOC <= s
     < Z.shiftr (fst (SELECTOR_AllocArray st count)) __AHSHIFT ->
     run_blocked st s count) /\
  (fst (SELECTOR_AllocArray st count) = 0 ->
   forall s,
     FIRST_LDT_ENTRY_TO_ALLOC <= s -> s + count <= LDT_SIZE ->
     run_blocked st s count).
Proof using FIRST_range.
  intros Hc. unfold SELECTOR_AllocArray.
  destruct (Z.eqb_spec count 0); [lia|].
  pose proof (find_free_run_lowest FIRST_LDT_ENTRY_TO_ALLOC
                (Z.to_nat (LDT_SIZE - FIRST_LDT_ENTRY_TO_ALLOC)) st count
                FIRST_LDT_ENTRY_TO_ALLOC 0 ltac:(lia) ltac:(lia)
                ltac:(intros; lia)) as Hlowest.
  pose proof (find_free_run_spec
                (Z.to_nat (LDT_SIZE - FIRST_LDT_ENTRY_TO_ALLOC)) st count
                FIRST_LDT_ENTRY_TO_ALLOC 0 ltac:(lia) ltac:(lia)
                ltac:(intros; lia)) as Hspec.
  destruct (find_free_run _ st count FIRST_LDT_ENTRY_TO_ALLOC 0) as [i size].
  cbn [fst snd] in *.
  destruct (Z.eqb_spec i LDT_SIZE) as [->|Hi]; cbn [fst snd].
  - split; [congruence|]. intros _. now apply Hlowest.
  - destruct Hspec as [Hbad|(Hlt & Hsz & Hlo & _)]; [contradiction|].
    assert (Hsel : WORD (Z.lor (Z.shiftl (WORD (i - size + 1)) __AHSHIFT) 7)
                   = (i - size + 1) * 8 + 7) by (apply alloc_sel_value; lia).
    rewrite Hsel, sel_slot by lia. split; [|lia].
    intros _ s Hs. destruct Hlowest as (Hfound & _). apply Hfound; lia.
Qed.

Lemma MapLS_null (st : ldt) (ptr : Z) :
  fst (MapLS st ptr) = 0 -> snd (MapLS st ptr) = st.
Proof using FIRST_range.
  unfold MapLS. destruct (HIWORD ptr =? 0); [reflexivity|].
  unfold SELECTOR_AllocBlock. cbn [Z.eqb].
  change (block_count 0x10000) with 1.
  pose proof (SELECTOR_AllocArray_null st 1) as Hnull.
  pose proof (SELECTOR_AllocArray_success st 1 ltac:(lia)) as Hsucc.
  destruct (SELECTOR_AllocArray st 1) as [sel st1].
  cbn [fst snd] in *.
  destruct (Z.eqb_spec sel 0) as [->|Hnz]; cbn [fst snd].
  - intros _. now apply Hnull.
  - intros H. exfalso.
    destruct (Hsucc Hnz) as (idx & Hlo & Hcap & _ & -> & _).
    destruct (SEGPTR_of_selector (idx * 8 + 7)) as (E & _);
      [unfold is_WORD, LDT_SIZE in *; lia|].
    rewrite E in H. lia.
Qed.

(** Whether [MapLS] finds a slot depends on the table alone: it returns the
    null pointer exactly when every slot from the reserved boundary on is in
    use. *)
Lemma MapLS_null_iff (st : ldt) (ptr : Z) :
  HIWORD ptr <> 0 ->
  fst (MapLS st ptr) = 0 <->
  (forall s, FIRST_LDT_ENTRY_TO_ALLOC <= s < LDT_SIZE -> allocated st s = true).
Proof using FIRST_range.
  intros Hhi. unfold MapLS.
  destruct (Z.eqb_spec (HIWORD ptr) 0); [contradiction|].
  unfold SELECTOR_AllocBlock. cbn [Z.eqb].
  change (block_count 0x10000) with 1.
  destruct (SELECTOR_AllocArray_lowest st 1 ltac:(lia)) as (_ & Hnone).
  pose proof (SELECTOR_AllocArray_success st 1 ltac:(lia)) as Hsucc.
  destruct (SELECTOR_AllocArray st 1) as [sel st1].
  cbn [fst snd] in *.
  destruct (Z.eqb_spec sel 0) as [->|Hnz]; cbn [fst snd].
  - split; [|reflexivity]. intros _ s Hs.
    destruct (Hnone eq_refl s ltac:(lia) ltac:(lia)) as (j & Hj & Ha).
    now replace s with j by lia.
  - destruct (Hsucc Hnz) as (idx & Hlo & Hcap & _ & -> & Hfree & _).
    destruct (SEGPTR_of_selector (idx * 8 + 7)) as (E & _);
      [unfold is_WORD, LDT_SIZE in *; lia|].
    rewrite E. split; [lia|]. intros Hall. exfalso.
    specialize (Hall idx ltac:(lia)).
    rewrite Hfree in Hall; [discriminate|].
    destruct (in_run_spec idx 1 idx); [reflexivity|lia].
Qed.

(** C6, as the code has it.  A pointer whose high word is zero maps to
    itself and [UnMapLS] on the result leaves the table as it is.  For any
    other pointer the table decides: when some slot from the reserved
    boundary on is free, [MapLS] returns a non-null selector whose [MapSL]
    is the pointer again; when none is free, it returns the null pointer and
    leaves the table as it is. *)
Theorem MapLS_roundtrip (st : ldt) (ptr : Z) :
  is_DWORD ptr ->
  (HIWORD ptr = 0 ->
   fst (MapLS st ptr) = ptr /\
   UnMapLS (snd (MapLS st ptr)) (fst (MapLS st ptr)) = st) /\
  (HIWORD ptr <> 0 ->
   (exists s, FIRST_LDT_ENTRY_TO_ALLOC <= s < LDT_SIZE /\
              allocated st s = false) ->
   SELECTOROF (fst (MapLS st ptr)) <> 0 /\
   MapSL (snd (MapLS st ptr)) (fst (MapLS st ptr)) = ptr) /\
  (HIWORD ptr <> 0 ->
   (forall s, FIRST_LDT_ENTRY_TO_ALLOC <= s < LDT_SIZE ->
              allocated st s = true) ->
   fst (MapLS st ptr) = 0 /\ snd (MapLS st ptr) = st).
Proof using FIRST_range.
  intros Hptr. split; [|split].
  - intros H. unfold MapLS. rewrite H. cbn [Z.eqb fst snd].
    split; [reflexivity|].
    unfold UnMapLS, SELECTOROF. now rewrite H.
  - intros Hhi (s & Hs & Hfree).
    assert (Hok : fst (MapLS st ptr) <> 0).
    { intros Hnull.
      pose proof (proj1 (MapLS_null_iff st ptr Hhi) Hnull s Hs) as Hused.
      rewrite Hused in Hfree. discriminate. }
    destruct (MapLS_success st ptr Hptr Hhi Hok)
      as (idx & Hrng & Hsel0 & _ & Hst).
    destruct (SEGPTR_of_selector (idx * 8 + 7)) as (_ & Hsel & Hoff);
      [unfold is_WORD, LDT_SIZE in *; lia|].
    unfold MapSL. rewrite Hsel0, Hsel, Hoff, sel_slot by lia.
    split; [lia|].
    destruct (Hst idx) as (Hb & _). rewrite Hb, Z.eqb_refl, Z.add_0_r.
    now apply DWORD_small.
  - intros Hhi Hall.
    assert (Hnull : fst (MapLS st ptr) = 0)
      by (apply (proj2 (MapLS_null_iff st ptr Hhi)); exact Hall).
    split; [exact Hnull|]. now apply MapLS_null.
Qed.

(** ** Well-formed tables *)

Lemma ldt_empty_wf : ldt_wf ldt_empty.
Proof. intros i. unfold is_DWORD. cbn. lia. Qed.

Lemma DWORD_range (z : Z) : is_DWORD (DWORD z).
Proof. unfold is_DWORD, DWORD. apply Z.mod_pos_bound. lia. Qed.

Lemma entry_flags_range (flags : Z) : 0 <= entry_flags flags < 0x100.
Proof.
  unfold entry_flags, wine_ldt_get_flags, wine_ldt_set_flags.
  cbn [Bits_Type Bits_Default_Big].
  assert (Ht : 0 <= Z.land flags 0x1f < 32).
  { change 0x1f with (Z.ones 5). rewrite Z.land_ones by lia.
    apply Z.mod_pos_bound. lia. }
  pose proof (forall_types
    (fun t => (0 <=? Z.lor (Z.lor t WINE_LDT_FLAGS_32BIT)
                           WINE_LDT_FLAGS_ALLOCATED)
              && (Z.lor (Z.lor t WINE_LDT_FLAGS_32BIT)
                        WINE_LDT_FLAGS_ALLOCATED <? 0x100)
              && (0 <=? Z.lor (Z.lor t 0) WINE_LDT_FLAGS_ALLOCATED)
              && (Z.lor (Z.lor t 0) WINE_LDT_FLAGS_ALLOCATED <? 0x100))
    eq_refl _ Ht) as H.
  cbv beta in H.
  destruct (negb (Z.land flags WINE_LDT_FLAGS_32BIT =? 0)); lia.
Qed.

Lemma SELECTOR_AllocBlock_null (st : ldt) (base size flags : Z) :
  fst (SELECTOR_AllocBlock st base size flags) = 0 ->
  snd (SELECTOR_AllocBlock st base size flags) = st.
Proof.
  unfold SELECTOR_AllocBlock. destruct (size =? 0); [reflexivity|].
  pose proof (SELECTOR_AllocArray_null st (block_count size)) as Hnull.
  destruct (SELECTOR_AllocArray st (block_count size)) as [sel st1].
  cbn [fst snd] in *.
  destruct (Z.eqb_spec sel 0) as [->|]; cbn [fst snd]; [auto|congruence].
Qed.

(** The block sizer keeps the table's arrays within their element types. *)
Lemma SELECTOR_AllocBlock_wf (st : ldt) (base size flags : Z) :
  is_DWORD size -> ldt_wf st ->
  ldt_wf (snd (SELECTOR_AllocBlock st base size flags)).
Proof using FIRST_range.
  intros Hsz Hwf.
  destruct (Z.eq_dec (fst (SELECTOR_AllocBlock st base size flags)) 0)
    as [Hz|Hnz].
  - now rewrite SELECTOR_AllocBlock_null.
  - destruct (SELECTOR_AllocBlock_success st base size flags Hsz Hnz)
      as (idx & _ & _ & _ & _ & _ & Hst).
    intros i. destruct (Hst i) as (Hb & Hl & Hf). rewrite Hb, Hl, Hf.
    destruct (Hwf i) as (Wb & Wl & Wf).
    destruct (in_run idx (block_count size) i); (split; [|split]);
      first [apply DWORD_range | apply entry_flags_range | assumption].
Qed.

(** ** TOOLHELP memory transfers *)

(** While neither [offset + count] nor [limit + 1] leaves the DWORD range
    the clamp is the minimum the transfers are meant to make. *)
Lemma clamp_count_in_range (lim offset count : Z) :
  is_DWORD count -> 0 <= offset <= lim -> lim < 0xFFFFFFFF ->
  offset + count < 0x100000000 ->
  clamp_count lim offset count = Z.min count (lim + 1 - offset).
Proof.
  unfold is_DWORD, clamp_count, DWORD. intros Hc Ho Hl Hsum.
  rewrite !Z.mod_small by lia.
  destruct (Z.gtb_spec (offset + count) (lim + 1)); lia.
Qed.

Lemma MemoryWrite16_in_range (st : ldt) (mem : memory)
      (sel offset buffer count : Z) :
  let index := Z.shiftr sel __AHSHIFT in
  let lim := wine_ldt_copy.limit st index in
  is_DWORD count -> 0 <= offset -> lim < 0xFFFFFFFF ->
  offset + count < 0x100000000 ->
  let r := MemoryWrite16 st mem sel offset buffer count in
  (allocated st index = false \/ lim < offset -> r = (0, mem)) /\
  (allocated st index = true -> offset <= lim ->
   fst r = Z.min count (lim + 1 - offset) /\
   forall a,
     a < DWORD (wine_ldt_copy.base st index + offset) \/
     DWORD (wine_ldt_copy.base st index + offset) + (lim + 1 - offset) <= a ->
     snd r a = mem a).
Proof.
  cbn zeta. intros Hc Ho Hl Hsum. unfold MemoryWrite16. split.
  - intros [Hfree|Hpast].
    + now rewrite Hfree.
    + destruct (negb (allocated st _)); [reflexivity|].
      destruct (Z.gtb_spec offset
                  (wine_ldt_copy.limit st (Z.shiftr sel __AHSHIFT)));
        [reflexivity|lia].
  - intros Ha Hle. rewrite Ha. cbn [negb].
    destruct (Z.gtb_spec offset
                (wine_ldt_copy.limit st (Z.shiftr sel __AHSHIFT))); [lia|].
    cbn [fst snd]. rewrite clamp_count_in_range by (try assumption; lia).
    split; [reflexivity|].
    intros a Ha'. unfold memcpy.
    destruct (Z.leb_spec (DWORD (wine_ldt_copy.base st (Z.shiftr sel __AHSHIFT)
                                 + offset)) a); [|reflexivity].
    destruct (Z.ltb_spec a
                (DWORD (wine_ldt_copy.base st (Z.shiftr sel __AHSHIFT)
                        + offset)
                 + Z.min count
                     (wine_ldt_copy.limit st (Z.shiftr sel __AHSHIFT) + 1
                      - offset))); [lia|reflexivity].
Qed.

Lemma MemoryRead16_in_range (st : ldt) (mem : memory)
      (sel offset buffer count : Z) :
  let index := Z.shiftr sel __AHSHIFT in
  let lim := wine_ldt_copy.limit st index in
  is_DWORD count -> 0 <= offset -> lim < 0xFFFFFFFF ->
  offset + count < 0x100000000 ->
  let r := MemoryRead16 st mem sel offset buffer count in
  (allocated st index = false \/ lim < offset -> r = (0, mem)) /\
  (allocated st index = true -> offset <= lim ->
   fst r = Z.min count (lim + 1 - offset) /\
   forall a,
     a < buffer \/ buffer + (lim + 1 - offset) <= a -> snd r a = mem a).
Proof.
  cbn zeta. intros Hc Ho Hl Hsum. unfold MemoryRead16. split.
  - intros [Hfree|Hpast].
    + now rewrite Hfree.
    + destruct (negb (allocated st _)); [reflexivity|].
      destruct (Z.gtb_spec offset
                  (wine_ldt_copy.limit st (Z.shiftr sel __AHSHIFT)));
        [reflexivity|lia].
  - intros Ha Hle. rewrite Ha. cbn [negb].
    destruct (Z.gtb_spec offset
                (wine_ldt_copy.limit st (Z.shiftr sel __AHSHIFT))); [lia|].
    cbn [fst snd]. rewrite clamp_count_in_range by (try assumption; lia).
    split; [reflexivity|].
    intros a Ha'. unfold memcpy.
    destruct (Z.leb_spec buffer a); [|reflexivity].
    destruct (Z.ltb_spec a
                (buffer
                 + Z.min count
                     (wine_ldt_copy.limit st (Z.shiftr sel __AHSHIFT) + 1
                      - offset))); [lia|reflexivity].
Qed.

(** ** More on the allocator *)

(** X1.  First fit: when [SELECTOR_AllocArray] returns a run, every start
    between the reserved boundary and the run's first slot has a slot in
    use among its [count] slots, so the run returned is the lowest free
    one. *)
Theorem SELECTOR_AllocArray_first_fit (st : ldt) (count : Z) :
  0 < count ->
  fst (SELECTOR_AllocArray st count) <> 0 ->
  forall s,
    FIRST_LDT_ENTRY_TO_ALLOC <= s
    < Z.shiftr (fst (SELECTOR_AllocArray st count)) __AHSHIFT ->
    run_blocked st s count.
Proof using FIRST_range.
  intros Hc Hok. now apply SELECTOR_AllocArray_lowest.
Qed.

(** X2.  Exhaustion: for a positive count [SELECTOR_AllocArray] returns the
    null selector exactly when no run of [count] free slots lies between
    the reserved boundary and the end of the table. *)
Theorem SELECTOR_AllocArray_null_iff (st : ldt) (count : Z) :
  0 < count ->
  fst (SELECTOR_AllocArray st count) = 0 <->
  (forall s, FIRST_LDT_ENTRY_TO_ALLOC <= s -> s + count <= LDT_SIZE ->
             run_blocked st s count).
Proof using FIRST_range.
  intros Hc. split.
  - now apply SELECTOR_AllocArray_lowest.
  - intros Hnone.
    destruct (Z.eq_dec (fst (SELECTOR_AllocArray st count)) 0) as [|Hok];
      [assumption|exfalso].
    destruct (SELECTOR_AllocArray_success st count ltac:(lia) Hok)
      as (idx & Hlo & Hhi & _ & _ & Hfree & _).
    destruct (Hnone idx Hlo Hhi) as (j & Hj & Ha).
    rewrite Hfree in Ha; [discriminate|].
    destruct (in_run_spec idx count j); auto; lia.
Qed.

(** X3.  [SELECTOR_AllocArray] does not set the LDT entries: base and limit
    of every slot stay as they were, and the flags change only in the run
    returned, where they gain the allocation bit and nothing else.  The
    selector returned has its three low bits set and its run lies between
    the reserved boundary and the end of the table. *)
Theorem SELECTOR_AllocArray_frame (st : ldt) (count : Z) :
  0 <= count ->
  fst (SELECTOR_AllocArray st count) <> 0 ->
  let sel := fst (SELECTOR_AllocArray st count) in
  let st' := snd (SELECTOR_AllocArray st count) in
  let idx := Z.shiftr sel __AHSHIFT in
  sel = idx * 8 + 7 /\
  FIRST_LDT_ENTRY_TO_ALLOC <= idx /\ idx + count <= LDT_SIZE /\
  forall j,
    wine_ldt_copy.base st' j = wine_ldt_copy.base st j /\
    wine_ldt_copy.limit st' j = wine_ldt_copy.limit st j /\
    wine_ldt_copy.flags st' j
    = (if in_run idx count j
       then Z.lor (wine_ldt_copy.flags st j) WINE_LDT_FLAGS_ALLOCATED
       else wine_ldt_copy.flags st j).
Proof using FIRST_range.
  intros Hc Hok. cbn zeta.
  destruct (SELECTOR_AllocArray_success st count Hc Hok)
    as (idx & Hlo & Hhi & Hpos & Hsel & _ & Hst).
  rewrite Hsel, Hst, sel_slot by lia.
  destruct (mark_allocated_spec (Z.to_nat count) idx st 0) as (Mb & Ml & Mf).
  split; [reflexivity|]. split; [assumption|]. split; [assumption|].
  intros j. rewrite Mb, Ml, Mf, Z.add_0_r, Z2Nat.id by lia. auto.
Qed.

(** X4.  Two allocations in a row never hand out the same slot: the run of
    the second call shares no slot with the run of the first. *)
Theorem SELECTOR_AllocArray_disjoint (st : ldt) (c1 c2 : Z) :
  0 < c1 -> 0 < c2 ->
  let r1 := SELECTOR_AllocArray st c1 in
  let r2 := SELECTOR_AllocArray (snd r1) c2 in
  fst r1 <> 0 -> fst r2 <> 0 ->
  forall j,
    in_run (Z.shiftr (fst r1) __AHSHIFT) c1 j
    && in_run (Z.shiftr (fst r2) __AHSHIFT) c2 j = false.
Proof using FIRST_range.
  intros H1 H2. cbn zeta. intros Hok1 Hok2 j.
  destruct (SELECTOR_AllocArray_success st c1 ltac:(lia) Hok1)
    as (i1 & Hlo1 & Hhi1 & _ & Hsel1 & _ & Hst1).
  destruct (SELECTOR_AllocArray_success _ c2 ltac:(lia) Hok2)
    as (i2 & Hlo2 & Hhi2 & _ & Hsel2 & Hfree2 & _).
  rewrite Hsel2, Hsel1, !sel_slot by lia.
  destruct (in_run i1 c1 j) eqn:E1; [|reflexivity].
  destruct (in_run i2 c2 j) eqn:E2; [|reflexivity].
  exfalso. specialize (Hfree2 j E2).
  rewrite Hst1, mark_allocated_allocated, Z.add_0_r, Z2Nat.id in Hfree2 by lia.
  rewrite E1, orb_true_r in Hfree2. discriminate.
Qed.

(** ** More on freeing and sizing *)

Lemma FreeSelector16_fields (st : ldt) (sel j : Z) :
  let st' := snd (FreeSelector16 st sel) in
  let hit := (j =? Z.shiftr sel __AHSHIFT) && allocated st j in
  wine_ldt_copy.base st' j = (if hit then 0 else wine_ldt_copy.base st j) /\
  wine_ldt_copy.limit st' j = (if hit then 0 else wine_ldt_copy.limit st j) /\
  wine_ldt_copy.flags st' j = (if hit then 0 else wine_ldt_copy.flags st j).
Proof.
  clear FIRST_range. cbn zeta.
  split; [|split]; [| |apply FreeSelector16_flags].
  all: unfold FreeSelector16, IS_SELECTOR_FREE.
  all: destruct (Z.eqb_spec j (Z.shiftr sel __AHSHIFT)) as [->|Hne];
    cbn [andb];
    destruct (allocated st (Z.shiftr sel __AHSHIFT)); cbn [negb snd];
    try reflexivity.
  all: unfold set_flags_at, wine_ldt_set_entry;
    cbn [wine_ldt_copy.base wine_ldt_copy.limit].
  all: first [now rewrite upd_same | now rewrite upd_other by assumption].
Qed.

(** X5.  [FreeSelector16] on a slot that is not in use is the error path:
    it returns the selector and leaves the table alone.  On a slot in use it
    returns 0, zeroes base, limit and flags of that slot and touches no
    other slot; freeing the same selector again takes the error path. *)
Theorem FreeSelector16_behaviour (st : ldt) (sel : Z) :
  let idx := Z.shiftr sel __AHSHIFT in
  let r := FreeSelector16 st sel in
  (allocated st idx = false -> r = (sel, st)) /\
  (allocated st idx = true ->
   fst r = 0 /\
   wine_ldt_copy.base (snd r) idx = 0 /\
   wine_ldt_copy.limit (snd r) idx = 0 /\
   wine_ldt_copy.flags (snd r) idx = 0 /\
   (forall j, j <> idx ->
      wine_ldt_copy.base (snd r) j = wine_ldt_copy.base st j /\
      wine_ldt_copy.limit (snd r) j = wine_ldt_copy.limit st j /\
      wine_ldt_copy.flags (snd r) j = wine_ldt_copy.flags st j) /\
   FreeSelector16 (snd r) sel = (sel, snd r)).
Proof.
  clear FIRST_range. cbn zeta. split.
  - intros Hfree. unfold FreeSelector16, IS_SELECTOR_FREE. now rewrite Hfree.
  - intros Hused.
    pose proof (FreeSelector16_fields st sel) as Hf. cbn zeta in Hf.
    split; [|split; [|split; [|split; [|split]]]].
    + unfold FreeSelector16, IS_SELECTOR_FREE. now rewrite Hused.
    + destruct (Hf (Z.shiftr sel __AHSHIFT)) as (Hb & _).
      now rewrite Hb, Z.eqb_refl, Hused.
    + destruct (Hf (Z.shiftr sel __AHSHIFT)) as (_ & Hl & _).
      now rewrite Hl, Z.eqb_refl, Hused.
    + destruct (Hf (Z.shiftr sel __AHSHIFT)) as (_ & _ & Hg).
      now rewrite Hg, Z.eqb_refl, Hused.
    + intros j Hj. destruct (Hf j) as (Hb & Hl & Hg).
      rewrite Hb, Hl, Hg.
      destruct (Z.eqb_spec j (Z.shiftr sel __AHSHIFT)); [contradiction|].
      now repeat split.
    + assert (Hnow : allocated (snd (FreeSelector16 st sel))
                       (Z.shiftr sel __AHSHIFT) = false).
      { rewrite FreeSelector16_allocated, Z.eqb_refl. apply andb_false_r. }
      unfold FreeSelector16 at 1, IS_SELECTOR_FREE. now rewrite Hnow.
Qed.

Lemma free_selectors_fields_other (n : nat) (sel j : Z) :
  forall st i,
    (forall k, i <= k < i + Z.of_nat n -> loop_slot sel k <> j) ->
    wine_ldt_copy.base (free_selectors n st sel i) j = wine_ldt_copy.base st j /\
    wine_ldt_copy.limit (free_selectors n st sel i) j
    = wine_ldt_copy.limit st j /\
    wine_ldt_copy.flags (free_selectors n st sel i) j
    = wine_ldt_copy.flags st j.
Proof.
  clear FIRST_range.
  induction n as [|n IH]; intros st i H; cbn [free_selectors]; auto.
  destruct (IH (snd (FreeSelector16 st (WORD (sel + Z.shiftl i __AHSHIFT))))
               (i + 1)) as (Hb & Hl & Hg); [intros k Hk; apply H; lia|].
  rewrite Hb, Hl, Hg.
  pose proof (FreeSelector16_fields st (WORD (sel + Z.shiftl i __AHSHIFT)) j)
    as Hf. cbn zeta in Hf.
  assert (Hj : loop_slot sel i <> j) by (apply H; lia).
  unfold loop_slot in Hj.
  destruct (Z.eqb_spec j (Z.shiftr (WORD (sel + Z.shiftl i __AHSHIFT))
                                   __AHSHIFT)); [congruence|].
  exact Hf.
Qed.

(** X6.  Sizing a block and then freeing it with [SELECTOR_FreeBlock], which
    reads the slot count off the first limit, gives back every slot of the
    block: each allocation bit is as before the two calls, and base, limit
    and flags of the slots outside the block are untouched. *)
Theorem alloc_block_then_free_block (st : ldt) (base size flags : Z) :
  is_DWORD size ->
  fst (SELECTOR_AllocBlock st base size flags) <> 0 ->
  let sel := fst (SELECTOR_AllocBlock st base size flags) in
  let st' := snd (SELECTOR_AllocBlock st base size flags) in
  let st'' := SELECTOR_FreeBlock st' sel in
  (forall j, allocated st'' j = allocated st j) /\
  (forall j, in_run (Z.shiftr sel __AHSHIFT) (block_count size) j = false ->
     wine_ldt_copy.base st'' j = wine_ldt_copy.base st j /\
     wine_ldt_copy.limit st'' j = wine_ldt_copy.limit st j /\
     wine_ldt_copy.flags st'' j = wine_ldt_copy.flags st j).
Proof using FIRST_range.
  intros Hsz Hok. cbn zeta. split.
  - now apply alloc_block_free_block_restores.
  - intros j Hout. unfold SELECTOR_FreeBlock.
    destruct (alloc_block_sel_count st base size flags Hsz Hok) as (-> & _).
    destruct (alloc_block_window st base size flags Hsz Hok)
      as (Hpos & Hhi & Hw).
    destruct (SELECTOR_AllocBlock_success st base size flags Hsz Hok)
      as (idx & Hlo & Hcap & _ & Hsel & _ & Hst).
    assert (Hidx : Z.shiftr (fst (SELECTOR_AllocBlock st base size flags))
                            __AHSHIFT = idx)
      by (rewrite Hsel; apply sel_slot; lia).
    rewrite Hidx in *.
    destruct (free_selectors_fields_other (Z.to_nat (block_count size))
                (fst (SELECTOR_AllocBlock st base size flags)) j
                (snd (SELECTOR_AllocBlock st base size flags)) 0)
      as (Hb & Hl & Hg).
    { intros k Hk. destruct (Hw k ltac:(lia)) as (Hslot & _).
      rewrite Hslot. destruct (in_run_spec idx (block_count size) j);
        [discriminate|lia]. }
    rewrite Hb, Hl, Hg. destruct (Hst j) as (Sb & Sl & Sg).
    rewrite Sb, Sl, Sg, Hout. now repeat split.
Qed.

(** X7.  The windows of a freshly sized block: window [i] starts 64K after
    the previous one (modulo 2^32), every window carries the type bits and
    the 32-bit flag the caller passed, and no slot outside the block is
    changed. *)
Theorem alloc_block_bases_and_flags (st : ldt) (base size flags : Z) :
  is_DWORD size ->
  fst (SELECTOR_AllocBlock st base size flags) <> 0 ->
  let sel := fst (SELECTOR_AllocBlock st base size flags) in
  let st' := snd (SELECTOR_AllocBlock st base size flags) in
  let idx := Z.shiftr sel __AHSHIFT in
  (forall i, 0 <= i < block_count size ->
     wine_ldt_copy.base st' (idx + i) = DWORD (base + i * 0x10000) /\
     Z.land (wine_ldt_copy.flags st' (idx + i)) 0x1f = Z.land flags 0x1f /\
     Z.testbit (wine_ldt_copy.flags st' (idx + i)) 6 = Z.testbit flags 6) /\
  (forall j, in_run idx (block_count size) j = false ->
     wine_ldt_copy.base st' j = wine_ldt_copy.base st j /\
     wine_ldt_copy.limit st' j = wine_ldt_copy.limit st j /\
     wine_ldt_copy.flags st' j = wine_ldt_copy.flags st j).
Proof using FIRST_range.
  intros Hsz Hok. cbn zeta.
  destruct (SELECTOR_AllocBlock_success st base size flags Hsz Hok)
    as (idx & Hlo & Hhi & Hpos & Hsel & _ & Hst).
  rewrite Hsel, sel_slot by lia. split.
  - intros i Hi. destruct (Hst (idx + i)) as (Hb & _ & Hg).
    rewrite Hb, Hg.
    destruct (in_run_spec idx (block_count size) (idx + i)); [|lia].
    replace (idx + i - idx) with i by lia.
    split; [reflexivity|].
    unfold entry_flags, wine_ldt_get_flags, wine_ldt_set_flags.
    cbn [Bits_Type Bits_Default_Big]. rewrite big_flag_value. split.
    + rewrite !Z.land_lor_distr_l, <- !Z.land_assoc.
      unfold WINE_LDT_FLAGS_32BIT, WINE_LDT_FLAGS_ALLOCATED.
      change (Z.land 0x40 0x1f) with 0. change (Z.land 0x80 0x1f) with 0.
      change (Z.land 0x1f 0x1f) with 0x1f.
      now rewrite Z.land_0_r, !Z.lor_0_r.
    + rewrite !Z.lor_spec, !Z.land_spec.
      unfold WINE_LDT_FLAGS_32BIT, WINE_LDT_FLAGS_ALLOCATED.
      replace (Z.testbit 0x1f 6) with false by reflexivity.
      replace (Z.testbit 0x40 6) with true by reflexivity.
      replace (Z.testbit 0x80 6) with false by reflexivity.
      now rewrite andb_false_r, andb_true_r, orb_false_r.
  - intros j Hout. destruct (Hst j) as (Hb & Hl & Hg).
    rewrite Hb, Hl, Hg, Hout. now repeat split.
Qed.

(** X8.  A [SELECTOR_AllocBlock] that returns the null selector has not
    touched the table.  This is what happens for size 0, and also for every
    size above 0xFFFF0000, because the DWORD sum [size + 0xffff] wraps and
    the window count comes out as 0. *)
Theorem alloc_block_null_leaves_table (st : ldt) (base size flags : Z) :
  (fst (SELECTOR_AllocBlock st base size flags) = 0 ->
   snd (SELECTOR_AllocBlock st base size flags) = st) /\
  (0xFFFF0000 < size < 0x100000000 ->
   SELECTOR_AllocBlock st base size flags = (0, st)).
Proof.
  clear FIRST_range. split.
  - apply SELECTOR_AllocBlock_null.
  - intros Hs. unfold SELECTOR_AllocBlock.
    destruct (Z.eqb_spec size 0); [lia|].
    assert (Hc : block_count size = 0).
    { unfold block_count, DWORD, WORD.
      replace ((size + 0xffff) mod 0x100000000)
        with (size + 0xffff - 0x100000000)
        by (apply Z.mod_unique with 1; lia).
      rewrite Z.div_small by lia. reflexivity. }
    rewrite Hc. reflexivity.
Qed.

(** ** More on the block resizer *)

Lemma realloc_newcount (size : Z) :
  WORD (Z.shiftr (DWORD (size + 0xffff)) 16) = block_count size.
Proof.
  clear FIRST_range. unfold block_count.
  now rewrite Z.shiftr_div_pow2 by lia.
Qed.

(** X9.  Shrinking: when the request needs fewer windows than the block has
    (the block lying within the table, its limits as the windowing routine
    left them), [SELECTOR_ReallocBlock] returns the selector it was given
    and frees exactly the trailing slots; every other allocation bit is
    kept. *)
Theorem realloc_block_shrink (st : ldt) (sel base size : Z) :
  is_WORD sel ->
  let size1 := if size =? 0 then 1 else size in
  let oldcount := get_sel_count st sel in
  let newcount := WORD (Z.shiftr (DWORD (size1 + 0xffff)) 16) in
  let index := Z.shiftr sel __AHSHIFT in
  let r := SELECTOR_ReallocBlock st sel base size in
  newcount < oldcount -> index + oldcount <= LDT_SIZE ->
  get_sel_count st (WORD (sel + Z.shiftl newcount __AHSHIFT))
  = oldcount - newcount ->
  fst r = sel /\
  forall j, allocated (snd r) j
            = allocated st j
              && negb (in_run (index + newcount) (oldcount - newcount) j).
Proof.
  clear FIRST_range. intros Hsel. cbn zeta.
  set (size1 := if size =? 0 then 1 else size).
  set (oldcount := get_sel_count st sel).
  set (newcount := WORD (Z.shiftr (DWORD (size1 + 0xffff)) 16)).
  set (index := Z.shiftr sel __AHSHIFT).
  intros Hlt Hcap Htail.
  assert (Hnew : 0 <= newcount)
    by (unfold newcount, WORD; apply Z.mod_pos_bound; lia).
  destruct (sel_decompose sel Hsel) as (Hd & Hlow & Hidx).
  fold index in Hd, Hidx.
  assert (Hsel2 : WORD (sel + Z.shiftl newcount __AHSHIFT)
                  = (index + newcount) * 8 + sel mod 8).
  { unfold WORD, __AHSHIFT. rewrite Z.shiftl_mul_pow2 by lia.
    change (2 ^ 3) with 8. rewrite Z.mod_small; unfold LDT_SIZE in *; lia. }
  unfold SELECTOR_ReallocBlock.
  fold size1 oldcount newcount index.
  destruct (Z.ltb_spec oldcount newcount); [lia|].
  destruct (Z.gtb_spec oldcount newcount); [|lia].
  assert (Hfree : forall j,
            allocated (SELECTOR_FreeBlock st
                         (WORD (sel + Z.shiftl newcount __AHSHIFT))) j
            = allocated st j
              && negb (in_run (index + newcount) (oldcount - newcount) j)).
  { intros j. unfold SELECTOR_FreeBlock. rewrite Htail, Hsel2.
    destruct (in_run_spec (index + newcount) (oldcount - newcount) j)
      as [Hin|Hout]; cbn [negb].
    - rewrite andb_false_r.
      replace j with (loop_slot ((index + newcount) * 8 + sel mod 8)
                                (j - (index + newcount))).
      2:{ rewrite loop_slot_index by lia. lia. }
      apply free_selectors_frees. lia.
    - rewrite andb_true_r. apply free_selectors_other.
      intros k Hk. rewrite loop_slot_index by lia. lia. }
  destruct (sel =? 0); cbn [fst snd]; (split; [reflexivity|]); intros j;
    rewrite ?SELECTOR_SetEntries_allocated; apply Hfree.
Qed.

(** What a resize that returns a selector leaves behind, when the request
    needs at least one window. *)
Lemma realloc_block_windows_of_count (st : ldt) (sel base size : Z) :
  is_WORD sel -> is_DWORD size ->
  let size1 := if size =? 0 then 1 else size in
  let oldcount := get_sel_count st sel in
  let newcount := block_count size1 in
  let index := Z.shiftr sel __AHSHIFT in
  let r := SELECTOR_ReallocBlock st sel base size in
  0 < newcount -> index + oldcount <= LDT_SIZE -> fst r <> 0 ->
  get_sel_count (snd r) (fst r) = newcount /\
  forall i, 0 <= i < newcount ->
    GetSelectorLimit16 (snd r) (WORD (fst r + Z.shiftl i __AHSHIFT))
    = block_limit base size1 - i * 0x10000.
Proof using FIRST_range.
  intros Hsel Hsz. cbn zeta.
  set (size1 := if size =? 0 then 1 else size).
  set (oldcount := get_sel_count st sel).
  set (index := Z.shiftr sel __AHSHIFT).
  intros Hpos Hcap.
  assert (Hsz1 : is_DWORD size1).
  { unfold size1, is_DWORD in *. destruct (size =? 0); lia. }
  (* what the final SELECTOR_SetEntries establishes *)
  assert (Hfin : forall st1 sel1,
            is_WORD sel1 ->
            Z.shiftr sel1 __AHSHIFT + block_count size1 <= LDT_SIZE ->
            forall fl,
            let st' := SELECTOR_SetEntries st1 sel1 base size1 fl in
            get_sel_count st' sel1 = block_count size1 /\
            forall i, 0 <= i < block_count size1 ->
              GetSelectorLimit16 st' (WORD (sel1 + Z.shiftl i __AHSHIFT))
              = block_limit base size1 - i * 0x10000).
  { intros st1 sel1 Hw1 Hc1 fl. cbn zeta.
    pose proof (SELECTOR_SetEntries_window st1 sel1 base size1 fl
                  Hw1 Hsz1 Hpos Hc1) as Hw.
    split.
    - destruct (Hw 0 ltac:(lia)) as (_ & Hl).
      unfold get_sel_count. rewrite Z.add_0_r in Hl. rewrite Hl.
      rewrite count_from_window_limit by (try assumption; lia). lia.
    - intros i Hi. destruct (Hw i Hi) as (Hslot & Hl).
      unfold GetSelectorLimit16. fold (loop_slot sel1 i).
      now rewrite Hslot, Hl. }
  unfold SELECTOR_ReallocBlock.
  fold size1 oldcount index. rewrite realloc_newcount.
  assert (Hrehome :
            fst (let '(sel1, st1) :=
                   SELECTOR_AllocArray (SELECTOR_FreeBlock st sel)
                                       (block_count size1) in
                 if sel1 =? 0 then (sel1, st1)
                 else (sel1, SELECTOR_SetEntries st1 sel1 base size1
                               (wine_ldt_get_flags (wine_ldt_get_entry st sel))))
            <> 0 ->
            let r := (let '(sel1, st1) :=
                        SELECTOR_AllocArray (SELECTOR_FreeBlock st sel)
                                            (block_count size1) in
                      if sel1 =? 0 then (sel1, st1)
                      else (sel1, SELECTOR_SetEntries st1 sel1 base size1
                               (wine_ldt_get_flags (wine_ldt_get_entry st sel))))
            in
            get_sel_count (snd r) (fst r) = block_count size1 /\
            forall i, 0 <= i < block_count size1 ->
              GetSelectorLimit16 (snd r) (WORD (fst r + Z.shiftl i __AHSHIFT))
              = block_limit base size1 - i * 0x10000).
  { pose proof (SELECTOR_AllocArray_success (SELECTOR_FreeBlock st sel)
                  (block_count size1) ltac:(lia)) as Hsucc.
    destruct (SELECTOR_AllocArray (SELECTOR_FreeBlock st sel)
                (block_count size1)) as [s1 st1].
    cbn [fst snd] in Hsucc.
    destruct (Z.eqb_spec s1 0) as [->|Hs1]; cbn [fst snd]; [congruence|].
    intros _.
    destruct (Hsucc Hs1) as (idx & Hlo & Hhi & _ & -> & _).
    apply Hfin.
    - unfold is_WORD, LDT_SIZE in *. lia.
    - rewrite sel_slot by lia. lia. }
  assert (Hsame : forall st1,
            fst (if sel =? 0 then (sel, st1)
                 else (sel, SELECTOR_SetEntries st1 sel base size1
                              (wine_ldt_get_flags (wine_ldt_get_entry st sel))))
            <> 0 ->
            index + block_count size1 <= LDT_SIZE ->
            let r := (if sel =? 0 then (sel, st1)
                      else (sel, SELECTOR_SetEntries st1 sel base size1
                              (wine_ldt_get_flags (wine_ldt_get_entry st sel))))
            in
            get_sel_count (snd r) (fst r) = block_count size1 /\
            forall i, 0 <= i < block_count size1 ->
              GetSelectorLimit16 (snd r) (WORD (fst r + Z.shiftl i __AHSHIFT))
              = block_limit base size1 - i * 0x10000).
  { intros st1. destruct (Z.eqb_spec sel 0); cbn [fst snd]; [congruence|].
    intros _ Hc. now apply Hfin. }
  destruct (Z.ltb_spec oldcount (block_count size1)) as [Hlt|Hge].
  - destruct (Z.gtb_spec (index + block_count size1) LDT_SIZE) as [Hover|Hfit].
    + destruct (Z.ltb_spec oldcount (block_count size1)); [|lia].
      apply Hrehome.
    + destruct (_ <? block_count size1).
      * apply Hrehome.
      * intros Hok. now apply Hsame.
  - destruct (oldcount >? block_count size1); intros Hok; apply Hsame;
      try assumption; lia.
Qed.

(** X10.  Resizing a block that lies within the table.  For a size up to
    0xFFFF0000 (size 0 counting as 1) the request needs at least one
    window, and after any resize that returns a selector the count read
    from that selector is the window count of the request and window [i]
    has limit [block_limit base size - i * 0x10000], whether the block grew
    in place, moved, shrank or kept its count; [block_limit] is [size - 1],
    or 1 for a one-byte block at the null base.  For a larger size the
    window count wraps to 0: the selector passed is returned although its
    block has just been freed, and no entry is written. *)
Theorem realloc_block_windows (st : ldt) (sel base size : Z) :
  is_WORD sel -> is_DWORD size ->
  let size1 := if size =? 0 then 1 else size in
  let oldcount := get_sel_count st sel in
  let newcount := block_count size1 in
  let index := Z.shiftr sel __AHSHIFT in
  let r := SELECTOR_ReallocBlock st sel base size in
  (size <= 0xFFFF0000 -> index + oldcount <= LDT_SIZE -> fst r <> 0 ->
   0 < newcount /\
   get_sel_count (snd r) (fst r) = newcount /\
   forall i, 0 <= i < newcount ->
     GetSelectorLimit16 (snd r) (WORD (fst r + Z.shiftl i __AHSHIFT))
     = block_limit base size1 - i * 0x10000) /\
  (0xFFFF0000 < size ->
   newcount = 0 /\ r = (sel, SELECTOR_FreeBlock st sel)).
Proof using FIRST_range.
  intros Hsel Hsz. cbn zeta. split.
  - intros Hle Hcap Hok.
    assert (Hpos : 0 < block_count (if size =? 0 then 1 else size)).
    { unfold is_DWORD in Hsz.
      assert (Hs1 : 1 <= (if size =? 0 then 1 else size) <= 0xFFFF0000)
        by (destruct (Z.eqb_spec size 0); lia).
      set (size1 := if size =? 0 then 1 else size) in *.
      assert (Hq : 1 <= (size1 + 0xffff) / 0x10000 < 0x10000)
        by (split; [apply Z.div_le_lower_bound; lia
                   |apply Z.div_lt_upper_bound; lia]).
      unfold block_count, WORD, DWORD.
      rewrite (Z.mod_small (size1 + 0xffff)) by lia.
      rewrite Z.mod_small by lia. lia. }
    split; [exact Hpos|].
    now apply realloc_block_windows_of_count.
  - intros Hbig. unfold is_DWORD, is_WORD in *.
    destruct (Z.eqb_spec size 0); [lia|].
    assert (Hz : block_count size = 0).
    { unfold block_count, DWORD.
      replace ((size + 0xffff) mod 0x100000000)
        with (size + 0xffff - 0x100000000)
        by (apply Z.mod_unique with 1; lia).
      rewrite Z.div_small by lia. reflexivity. }
    split; [exact Hz|].
    assert (Hold : 0 <= get_sel_count st sel)
      by (unfold get_sel_count, WORD; apply Z.mod_pos_bound; lia).
    assert (Hset : forall st1 fl, SELECTOR_SetEntries st1 sel base size fl = st1).
    { intros st1 fl. unfold SELECTOR_SetEntries. now rewrite Hz. }
    unfold SELECTOR_ReallocBlock.
    destruct (Z.eqb_spec size 0); [lia|].
    rewrite realloc_newcount, Hz.
    destruct (Z.ltb_spec (get_sel_count st sel) 0); [lia|].
    destruct (Z.gtb_spec (get_sel_count st sel) 0) as [Hgt|Hzero].
    + rewrite Z.shiftl_0_l, Z.add_0_r.
      replace (WORD sel) with sel by (unfold WORD; now rewrite Z.mod_small).
      destruct (sel =? 0); [reflexivity|]. now rewrite Hset.
    + assert (Hfree : SELECTOR_FreeBlock st sel = st).
      { unfold SELECTOR_FreeBlock.
        replace (get_sel_count st sel) with 0 by lia. reflexivity. }
      rewrite Hfree. destruct (sel =? 0); [reflexivity|]. now rewrite Hset.
Qed.

(** X11.  The count [get_sel_count] reads is a WORD: for a limit from
    0xFFFF0000 on it wraps to 0 and [SELECTOR_FreeBlock] frees nothing, the
    table is left as it is; for a smaller limit it lies between 1 and
    0xFFFF. *)
Theorem free_block_count_wraps (st : ldt) (sel : Z) :
  ldt_wf st ->
  let lim := wine_ldt_copy.limit st (Z.shiftr sel __AHSHIFT) in
  (0xFFFF0000 <= lim ->
   get_sel_count st sel = 0 /\ SELECTOR_FreeBlock st sel = st) /\
  (lim < 0xFFFF0000 ->
   get_sel_count st sel = lim / 0x10000 + 1 /\
   1 <= get_sel_count st sel <= 0xFFFF).
Proof.
  clear FIRST_range. intros Hwf. cbn zeta.
  destruct (Hwf (Z.shiftr sel __AHSHIFT)) as (_ & Hl & _).
  unfold is_DWORD in Hl.
  unfold SELECTOR_FreeBlock, get_sel_count, WORD.
  rewrite !(Z.shiftr_div_pow2 _ 16) by lia. change (2 ^ 16) with 0x10000.
  split; intros Hlim.
  - assert (Hq : wine_ldt_copy.limit st (Z.shiftr sel __AHSHIFT) / 0x10000
                 = 0xFFFF).
    { symmetry. apply Z.div_unique with
        (wine_ldt_copy.limit st (Z.shiftr sel __AHSHIFT) - 0xFFFF0000); lia. }
    rewrite Hq. split; reflexivity.
  - assert (Hq : 0 <= wine_ldt_copy.limit st (Z.shiftr sel __AHSHIFT) / 0x10000
                 < 0xFFFF).
    { split; [apply Z.div_pos; lia|apply Z.div_lt_upper_bound; lia]. }
    rewrite Z.mod_small by lia. lia.
Qed.

(** ** Reading and writing one descriptor *)

Lemma get_entry_parts (st : ldt) (sel : Z) :
  let idx := Z.shiftr sel __AHSHIFT in
  let e := wine_ldt_get_entry st sel in
  ent_base e = DWORD (wine_ldt_copy.base st idx) /\
  ent_limit e = DWORD (wine_ldt_copy.limit st idx) /\
  Bits_Type e = Z.land (wine_ldt_copy.flags st idx) 0x1f /\
  Bits_Default_Big e = Z.testbit (wine_ldt_copy.flags st idx) 6.
Proof.
  clear FIRST_range. cbn zeta.
  unfold wine_ldt_get_entry, wine_ldt_set_flags, wine_ldt_set_limit,
    wine_ldt_set_base. cbn [ent_base ent_limit Bits_Type Bits_Default_Big].
  repeat split.
  unfold WINE_LDT_FLAGS_32BIT. change 0x40 with (2 ^ 6).
  rewrite land_single_bit by lia.
  now destruct (Z.testbit (wine_ldt_copy.flags st (Z.shiftr sel __AHSHIFT)) 6).
Qed.

(** The parts of the flags byte [wine_ldt_set_entry] leaves in the slot it
    writes, for an entry whose type fits its five bits. *)
Lemma set_entry_flags_parts (st : ldt) (sel : Z) (e : LDT_ENTRY) (t : Z) :
  Bits_Type e = Z.land t 0x1f ->
  let f := wine_ldt_copy.flags (wine_ldt_set_entry st sel e)
                               (Z.shiftr sel __AHSHIFT) in
  Z.land f 0x1f = Bits_Type e /\
  Z.testbit f 6 = Bits_Default_Big e /\
  Z.testbit f 7 = Z.testbit (wine_ldt_copy.flags st (Z.shiftr sel __AHSHIFT)) 7.
Proof.
  clear FIRST_range. intros Ht. cbn zeta.
  unfold wine_ldt_set_entry, wine_ldt_get_flags.
  cbn [wine_ldt_copy.flags]. rewrite upd_same, Ht.
  unfold WINE_LDT_FLAGS_32BIT, WINE_LDT_FLAGS_ALLOCATED.
  split; [|split].
  - rewrite !Z.land_lor_distr_l, <- !Z.land_assoc.
    change (Z.land 0x80 0x1f) with 0. change (Z.land 0x1f 0x1f) with 0x1f.
    rewrite Z.land_0_r, Z.lor_0_r.
    destruct (Bits_Default_Big e); [change (Z.land 0x40 0x1f) with 0|];
      now rewrite ?Z.land_0_l, Z.lor_0_r.
  - rewrite !Z.lor_spec, !Z.land_spec.
    replace (Z.testbit 0x1f 6) with false by reflexivity.
    replace (Z.testbit 0x80 6) with false by reflexivity.
    rewrite !andb_false_r, orb_false_r, orb_false_l.
    now destruct (Bits_Default_Big e).
  - rewrite !Z.lor_spec, !Z.land_spec.
    replace (Z.testbit 0x1f 7) with false by reflexivity.
    replace (Z.testbit 0x80 7) with true by reflexivity.
    rewrite andb_false_r, andb_true_r, orb_false_l.
    now destruct (Bits_Default_Big e).
Qed.

Lemma set_entry_other (st : ldt) (sel : Z) (e : LDT_ENTRY) (j : Z) :
  j <> Z.shiftr sel __AHSHIFT ->
  wine_ldt_copy.base (wine_ldt_set_entry st sel e) j = wine_ldt_copy.base st j /\
  wine_ldt_copy.limit (wine_ldt_set_entry st sel e) j
  = wine_ldt_copy.limit st j /\
  wine_ldt_copy.flags (wine_ldt_set_entry st sel e) j
  = wine_ldt_copy.flags st j.
Proof.
  clear FIRST_range. intros Hj. unfold wine_ldt_set_entry.
  cbn [wine_ldt_copy.base wine_ldt_copy.limit wine_ldt_copy.flags].
  now rewrite !upd_other by assumption.
Qed.

Lemma toggle_type (t : Z) :
  0 <= t < 32 ->
  Z.land (Z.lxor t (Z.lxor WINE_LDT_FLAGS_CODE WINE_LDT_FLAGS_DATA)) 0x1f
  = Z.lxor t 8 /\
  Z.lxor (Z.lxor t 8) 8 = t /\ 0 <= Z.lxor t 8 < 32 /\
  Z.testbit (Z.lxor t 8) 3 = negb (Z.testbit t 3).
Proof.
  clear FIRST_range. intros Ht.
  pose proof (forall_types
    (fun t => (Z.land (Z.lxor t (Z.lxor WINE_LDT_FLAGS_CODE
                                         WINE_LDT_FLAGS_DATA)) 0x1f
               =? Z.lxor t 8)
              && (Z.lxor (Z.lxor t 8) 8 =? t)
              && (0 <=? Z.lxor t 8) && (Z.lxor t 8 <? 32)
              && Bool.eqb (Z.testbit (Z.lxor t 8) 3) (negb (Z.testbit t 3)))
    eq_refl t Ht) as H.
  cbv beta in H.
  repeat (apply andb_true_iff in H; destruct H as [H ?]).
  repeat split; try lia. now apply Bool.eqb_prop.
Qed.

(** X12.  [PrestoChangoSelector16] copies the source descriptor into the
    destination slot with the code/data bit of the type flipped: base, limit
    and the 32-bit flag are the source's, the other type bits are kept, the
    destination keeps its own allocation bit and no other slot changes.
    Applied twice to one selector it gives the type back. *)
Theorem PrestoChango_toggles_kind (st : ldt) (selSrc selDst : Z) :
  ldt_wf st ->
  let s := Z.shiftr selSrc __AHSHIFT in
  let d := Z.shiftr selDst __AHSHIFT in
  let st' := snd (PrestoChangoSelector16 st selSrc selDst) in
  let st'' := snd (PrestoChangoSelector16 st' selDst selDst) in
  fst (PrestoChangoSelector16 st selSrc selDst) = selDst /\
  wine_ldt_copy.base st' d = wine_ldt_copy.base st s /\
  wine_ldt_copy.limit st' d = wine_ldt_copy.limit st s /\
  Z.land (wine_ldt_copy.flags st' d) 0x1f
  = Z.lxor (Z.land (wine_ldt_copy.flags st s) 0x1f) 8 /\
  Z.testbit (wine_ldt_copy.flags st' d) 3
  = negb (Z.testbit (wine_ldt_copy.flags st s) 3) /\
  Z.testbit (wine_ldt_copy.flags st' d) 6
  = Z.testbit (wine_ldt_copy.flags st s) 6 /\
  allocated st' d = allocated st d /\
  (forall j, j <> d ->
     wine_ldt_copy.base st' j = wine_ldt_copy.base st j /\
     wine_ldt_copy.limit st' j = wine_ldt_copy.limit st j /\
     wine_ldt_copy.flags st' j = wine_ldt_copy.flags st j) /\
  Z.land (wine_ldt_copy.flags st'' d) 0x1f
  = Z.land (wine_ldt_copy.flags st s) 0x1f.
Proof.
  clear FIRST_range. intros Hwf. cbn zeta.
  assert (Hone : forall st0 a b,
            let e := wine_ldt_get_entry st0 a in
            let t0 := Z.land (wine_ldt_copy.flags st0 (Z.shiftr a __AHSHIFT))
                             0x1f in
            let st1 := snd (PrestoChangoSelector16 st0 a b) in
            Z.land (wine_ldt_copy.flags st1 (Z.shiftr b __AHSHIFT)) 0x1f
            = Z.lxor t0 8 /\
            Z.testbit (wine_ldt_copy.flags st1 (Z.shiftr b __AHSHIFT)) 6
            = Z.testbit (wine_ldt_copy.flags st0 (Z.shiftr a __AHSHIFT)) 6 /\
            Z.testbit (wine_ldt_copy.flags st1 (Z.shiftr b __AHSHIFT)) 7
            = Z.testbit (wine_ldt_copy.flags st0 (Z.shiftr b __AHSHIFT)) 7).
  { intros st0 a b. cbn zeta. unfold PrestoChangoSelector16. cbn [snd].
    destruct (get_entry_parts st0 a) as (_ & _ & Ht & Hbig).
    cbn zeta in Ht, Hbig.
    assert (Hr : 0 <= Z.land (wine_ldt_copy.flags st0 (Z.shiftr a __AHSHIFT))
                             0x1f < 32).
    { change 0x1f with (Z.ones 5). rewrite Z.land_ones by lia.
      apply Z.mod_pos_bound. lia. }
    destruct (toggle_type _ Hr) as (Htog & _).
    set (e' := set_Bits_Type _ _).
    assert (He' : Bits_Type e'
                  = Z.land (Z.lxor (Bits_Type (wine_ldt_get_entry st0 a))
                              (Z.lxor WINE_LDT_FLAGS_CODE WINE_LDT_FLAGS_DATA))
                           0x1f) by reflexivity.
    destruct (set_entry_flags_parts st0 b e' _ He') as (P1 & P2 & P3).
    cbn zeta in P1, P2, P3. rewrite P1, P2, P3, He', Ht, Htog.
    repeat split. unfold e'. cbn [set_Bits_Type Bits_Default_Big].
    exact Hbig. }
  destruct (Hone st selSrc selDst) as (T1 & B1 & A1). cbn zeta in T1, B1, A1.
  destruct (Hwf (Z.shiftr selSrc __AHSHIFT)) as (Wb & Wl & _).
  assert (Hr : 0 <= Z.land (wine_ldt_copy.flags st
                              (Z.shiftr selSrc __AHSHIFT)) 0x1f < 32).
  { change 0x1f with (Z.ones 5). rewrite Z.land_ones by lia.
    apply Z.mod_pos_bound. lia. }
  destruct (toggle_type _ Hr) as (_ & Hinv & _ & Hbit3).
  split; [reflexivity|].
  split; [|split; [|split; [|split; [|split; [|split; [|split]]]]]].
  - unfold PrestoChangoSelector16, wine_ldt_set_entry; cbn [snd].
    cbn [wine_ldt_copy.base]. rewrite upd_same.
    destruct (get_entry_parts st selSrc) as (Hb & _). cbn zeta in Hb.
    unfold wine_ldt_get_base, set_Bits_Type; cbn [ent_base].
    rewrite Hb. now apply DWORD_small.
  - unfold PrestoChangoSelector16, wine_ldt_set_entry; cbn [snd].
    cbn [wine_ldt_copy.limit]. rewrite upd_same.
    destruct (get_entry_parts st selSrc) as (_ & Hl & _). cbn zeta in Hl.
    unfold wine_ldt_get_limit, set_Bits_Type; cbn [ent_limit].
    rewrite Hl. now apply DWORD_small.
  - exact T1.
  - assert (E : Z.testbit (wine_ldt_copy.flags
                  (snd (PrestoChangoSelector16 st selSrc selDst))
                  (Z.shiftr selDst __AHSHIFT)) 3
                = Z.testbit (Z.land (wine_ldt_copy.flags
                  (snd (PrestoChangoSelector16 st selSrc selDst))
                  (Z.shiftr selDst __AHSHIFT)) 0x1f) 3).
    { rewrite Z.land_spec. replace (Z.testbit 0x1f 3) with true by reflexivity.
      now rewrite andb_true_r. }
    rewrite E, T1, Hbit3, Z.land_spec.
    replace (Z.testbit 0x1f 3) with true by reflexivity.
    now rewrite andb_true_r.
  - exact B1.
  - now rewrite !allocated_testbit.
  - intros j Hj. unfold PrestoChangoSelector16; cbn [snd].
    now apply set_entry_other.
  - destruct (Hone (snd (PrestoChangoSelector16 st selSrc selDst))
                selDst selDst) as (T2 & _).
    cbn zeta in T2. rewrite T2, T1. exact Hinv.
Qed.

(** X13.  [LongPtrAdd16] moves the base of the selector's slot by [add]
    modulo 2^32 and keeps its limit, type, 32-bit flag and allocation bit;
    no other slot changes.  So the linear address of the pointer moves by
    [add], and two moves add up. *)
Theorem LongPtrAdd16_moves_base (st : ldt) (ptr add add2 : Z) :
  ldt_wf st ->
  let idx := Z.shiftr (SELECTOROF ptr) __AHSHIFT in
  let st' := LongPtrAdd16 st ptr add in
  wine_ldt_copy.base st' idx = DWORD (wine_ldt_copy.base st idx + add) /\
  wine_ldt_copy.limit st' idx = wine_ldt_copy.limit st idx /\
  Z.land (wine_ldt_copy.flags st' idx) 0x1f
  = Z.land (wine_ldt_copy.flags st idx) 0x1f /\
  Z.testbit (wine_ldt_copy.flags st' idx) 6
  = Z.testbit (wine_ldt_copy.flags st idx) 6 /\
  allocated st' idx = allocated st idx /\
  (forall j, j <> idx ->
     wine_ldt_copy.base st' j = wine_ldt_copy.base st j /\
     wine_ldt_copy.limit st' j = wine_ldt_copy.limit st j /\
     wine_ldt_copy.flags st' j = wine_ldt_copy.flags st j) /\
  MapSL st' ptr = DWORD (MapSL st ptr + add) /\
  wine_ldt_copy.base (LongPtrAdd16 st' ptr add2) idx
  = DWORD (wine_ldt_copy.base st idx + (add + add2)).
Proof.
  clear FIRST_range. intros Hwf. cbn zeta.
  destruct (Hwf (Z.shiftr (SELECTOROF ptr) __AHSHIFT)) as (Wb & Wl & _).
  assert (Hbase : forall st0 a,
            wine_ldt_copy.base (LongPtrAdd16 st0 ptr a)
                               (Z.shiftr (SELECTOROF ptr) __AHSHIFT)
            = DWORD (wine_ldt_copy.base st0
                       (Z.shiftr (SELECTOROF ptr) __AHSHIFT) + a)).
  { intros st0 a. unfold LongPtrAdd16, wine_ldt_set_entry.
    cbn [wine_ldt_copy.base]. rewrite upd_same.
    destruct (get_entry_parts st0 (SELECTOROF ptr)) as (Hb & _).
    cbn zeta in Hb.
    unfold wine_ldt_get_base, wine_ldt_set_base; cbn [ent_base].
    rewrite Hb. apply DWORD_add_l. }
  destruct (get_entry_parts st (SELECTOROF ptr)) as (_ & Hl & Ht & Hbig).
  cbn zeta in Hl, Ht, Hbig.
  set (e' := wine_ldt_set_base (wine_ldt_get_entry st (SELECTOROF ptr))
               (wine_ldt_get_base (wine_ldt_get_entry st (SELECTOROF ptr))
                + add)).
  assert (He' : Bits_Type e'
                = Z.land (wine_ldt_copy.flags st
                            (Z.shiftr (SELECTOROF ptr) __AHSHIFT)) 0x1f)
    by exact Ht.
  destruct (set_entry_flags_parts st (SELECTOROF ptr) e' _ He')
    as (P1 & P2 & P3). cbn zeta in P1, P2, P3.
  split; [apply Hbase|].
  split; [|split; [|split; [|split; [|split; [|split]]]]].
  - unfold LongPtrAdd16, wine_ldt_set_entry. cbn [wine_ldt_copy.limit].
    rewrite upd_same. unfold wine_ldt_get_limit, wine_ldt_set_base.
    cbn [ent_limit]. rewrite Hl. now apply DWORD_small.
  - unfold LongPtrAdd16. fold e'. now rewrite P1, He'.
  - unfold LongPtrAdd16. fold e'. rewrite P2. exact Hbig.
  - rewrite !allocated_testbit. unfold LongPtrAdd16. fold e'. exact P3.
  - intros j Hj. unfold LongPtrAdd16. now apply set_entry_other.
  - unfold MapSL. rewrite Hbase.
    rewrite DWORD_add_l.
    replace (wine_ldt_copy.base st (Z.shiftr (SELECTOROF ptr) __AHSHIFT)
             + add + OFFSETOF ptr)
      with (wine_ldt_copy.base st (Z.shiftr (SELECTOROF ptr) __AHSHIFT)
            + OFFSETOF ptr + add) by lia.
    now rewrite DWORD_add_l.
  - rewrite !Hbase, DWORD_add_l. f_equal. lia.
Qed.

(** ** Selector arrays and copies *)

Lemma set_same_entry_spec (idx low : Z) (e : LDT_ENTRY) (n : nat) :
  0 <= low < 8 ->
  forall st i,
    0 <= idx + i -> idx + i + Z.of_nat n <= LDT_SIZE ->
    forall j,
      wine_ldt_copy.base (set_same_entry n st (idx * 8 + low) i e) j =
        (if in_run (idx + i) (Z.of_nat n) j then ent_base e
         else wine_ldt_copy.base st j) /\
      wine_ldt_copy.limit (set_same_entry n st (idx * 8 + low) i e) j =
        (if in_run (idx + i) (Z.of_nat n) j then ent_limit e
         else wine_ldt_copy.limit st j) /\
      wine_ldt_copy.flags (set_same_entry n st (idx * 8 + low) i e) j =
        (if in_run (idx + i) (Z.of_nat n) j
         then Z.lor (wine_ldt_get_flags e)
                    (Z.land (wine_ldt_copy.flags st j) WINE_LDT_FLAGS_ALLOCATED)
         else wine_ldt_copy.flags st j).
Proof.
  clear FIRST_range.
  intros Hlow. induction n as [|n IH]; intros st i H0 Hn j;
    cbn [set_same_entry].
  - destruct (in_run_spec (idx + i) (Z.of_nat 0) j); [lia|auto].
  - destruct (IH (wine_ldt_set_entry st
                    (WORD (idx * 8 + low + Z.shiftl i __AHSHIFT)) e)
                 (i + 1) ltac:(lia) ltac:(lia) j) as (Ib & Il & If).
    rewrite Ib, Il, If. clear Ib Il If.
    assert (Hslot : Z.shiftr (WORD (idx * 8 + low + Z.shiftl i __AHSHIFT))
                             __AHSHIFT = idx + i)
      by (apply sel_index; [assumption|lia]).
    unfold wine_ldt_set_entry.
    cbn [wine_ldt_copy.base wine_ldt_copy.limit wine_ldt_copy.flags].
    rewrite Hslot. unfold wine_ldt_get_base, wine_ldt_get_limit.
    destruct (in_run_spec (idx + (i + 1)) (Z.of_nat n) j),
      (in_run_spec (idx + i) (Z.of_nat (S n)) j); try (exfalso; lia).
    + now rewrite upd_other by lia.
    + assert (j = idx + i) by lia. subst j. now rewrite !upd_same.
    + now rewrite !upd_other by lia.
Qed.

(** X14.  [AllocSelectorArray16] returns the selector of the run the
    allocator found and gives each of its [count] slots base 0, limit 1 and
    the Data flags, so that no new descriptor has base and limit both 0;
    slots outside the run are untouched, and a null result leaves the
    table as it was. *)
Theorem AllocSelectorArray16_entries (st : ldt) (count : Z) :
  0 <= count ->
  let r := AllocSelectorArray16 st count in
  let idx := Z.shiftr (fst r) __AHSHIFT in
  fst r = fst (SELECTOR_AllocArray st count) /\
  (fst r = 0 -> snd r = st) /\
  (fst r <> 0 ->
   forall j,
     (in_run idx count j = true ->
      allocated st j = false /\
      wine_ldt_copy.base (snd r) j = 0 /\
      wine_ldt_copy.limit (snd r) j = 1 /\
      wine_ldt_copy.flags (snd r) j
      = Z.lor WINE_LDT_FLAGS_DATA WINE_LDT_FLAGS_ALLOCATED) /\
     (in_run idx count j = false ->
      wine_ldt_copy.base (snd r) j = wine_ldt_copy.base st j /\
      wine_ldt_copy.limit (snd r) j = wine_ldt_copy.limit st j /\
      wine_ldt_copy.flags (snd r) j = wine_ldt_copy.flags st j)).
Proof using FIRST_range.
  intros Hc. cbn zeta. unfold AllocSelectorArray16.
  pose proof (SELECTOR_AllocArray_success st count Hc) as Hsucc.
  pose proof (SELECTOR_AllocArray_null st count) as Hnull.
  destruct (SELECTOR_AllocArray st count) as [sel st1]. cbn [fst snd] in *.
  destruct (Z.eqb_spec sel 0) as [->|Hsel]; cbn [fst snd].
  - split; [reflexivity|]. split; [auto|congruence].
  - split; [reflexivity|]. split; [congruence|]. intros _ j.
    destruct (Hsucc Hsel) as (idx & Hlo & Hhi & Hpos & -> & Hfree & ->).
    rewrite sel_slot by lia.
    destruct (set_same_entry_spec idx 7 array_entry (Z.to_nat count)
                ltac:(lia) (mark_allocated (Z.to_nat count) st idx 0) 0
                ltac:(lia) ltac:(lia) j) as (Hb & Hl & Hf).
    destruct (mark_allocated_spec (Z.to_nat count) idx st 0) as (Mb & Ml & Mf).
    rewrite Hb, Hl, Hf, Mb, Ml, Mf, Z.add_0_r, Z2Nat.id by lia.
    split; intros Hin; rewrite Hin.
    + split; [now apply Hfree|]. split; [reflexivity|].
      split; [reflexivity|]. rewrite land_lor_allocated. reflexivity.
    + now repeat split.
Qed.

Lemma copy_entries_spec (s lows d lowd : Z) (n : nat) :
  0 <= lows < 8 -> 0 <= lowd < 8 ->
  forall st i,
    0 <= s + i -> s + i + Z.of_nat n <= LDT_SIZE ->
    0 <= d + i -> d + i + Z.of_nat n <= LDT_SIZE ->
    (forall k k', i <= k < i + Z.of_nat n -> i <= k' < i + Z.of_nat n ->
                  s + k <> d + k') ->
    forall j,
      let st' := copy_entries n st (s * 8 + lows) (d * 8 + lowd) i in
      let src := s + (j - d) in
      wine_ldt_copy.base st' j =
        (if in_run (d + i) (Z.of_nat n) j
         then DWORD (wine_ldt_copy.base st src)
         else wine_ldt_copy.base st j) /\
      wine_ldt_copy.limit st' j =
        (if in_run (d + i) (Z.of_nat n) j
         then DWORD (wine_ldt_copy.limit st src)
         else wine_ldt_copy.limit st j) /\
      wine_ldt_copy.flags st' j =
        (if in_run (d + i) (Z.of_nat n) j
         then Z.lor (Z.lor (Z.land (wine_ldt_copy.flags st src) 0x1f)
                           (Z.land (wine_ldt_copy.flags st src)
                                   WINE_LDT_FLAGS_32BIT))
                    (Z.land (wine_ldt_copy.flags st j) WINE_LDT_FLAGS_ALLOCATED)
         else wine_ldt_copy.flags st j).
Proof.
  clear FIRST_range.
  intros Hls Hld. induction n as [|n IH];
    intros st i Hs0 Hs1 Hd0 Hd1 Hdis j; cbn zeta; cbn [copy_entries].
  - destruct (in_run_spec (d + i) (Z.of_nat 0) j); [lia|auto].
  - set (e := wine_ldt_get_entry st
                (WORD (s * 8 + lows + Z.shiftl i __AHSHIFT))).
    set (st1 := wine_ldt_set_entry st
                  (WORD (d * 8 + lowd + Z.shiftl i __AHSHIFT)) e).
    assert (Hsrc : Z.shiftr (WORD (s * 8 + lows + Z.shiftl i __AHSHIFT))
                            __AHSHIFT = s + i)
      by (apply sel_index; [assumption|lia]).
    assert (Hdst : Z.shiftr (WORD (d * 8 + lowd + Z.shiftl i __AHSHIFT))
                            __AHSHIFT = d + i)
      by (apply sel_index; [assumption|lia]).
    destruct (IH st1 (i + 1) ltac:(lia) ltac:(lia) ltac:(lia) ltac:(lia)
                ltac:(intros k k' Hk Hk'; apply Hdis; lia) j)
      as (Ib & Il & If). cbn zeta in Ib, Il, If.
    rewrite Ib, Il, If. clear Ib Il If.
    destruct (in_run_spec (d + (i + 1)) (Z.of_nat n) j) as [Hin|Hout],
      (in_run_spec (d + i) (Z.of_nat (S n)) j) as [Hin'|Hout'];
      try (exfalso; lia).
    + (* a later window: its source was not overwritten *)
      assert (Hne : s + (j - d) <> d + i) by (apply Hdis; lia).
      assert (Hnj : j <> d + i) by lia.
      destruct (set_entry_other st
                  (WORD (d * 8 + lowd + Z.shiftl i __AHSHIFT)) e
                  (s + (j - d)) ltac:(rewrite Hdst; exact Hne))
        as (Eb & El & Ef).
      destruct (set_entry_other st
                  (WORD (d * 8 + lowd + Z.shiftl i __AHSHIFT)) e
                  j ltac:(rewrite Hdst; exact Hnj))
        as (_ & _ & Ef').
      fold st1 in Eb, El, Ef, Ef'. now rewrite Eb, El, Ef, Ef'.
    + (* the window written in this round *)
      assert (j = d + i) by lia. subst j.
      replace (s + (d + i - d)) with (s + i) by lia.
      unfold st1, wine_ldt_set_entry.
      cbn [wine_ldt_copy.base wine_ldt_copy.limit wine_ldt_copy.flags].
      rewrite Hdst, !upd_same.
      destruct (get_entry_parts st
                  (WORD (s * 8 + lows + Z.shiftl i __AHSHIFT)))
        as (Pb & Pl & Pt & _). cbn zeta in Pb, Pl, Pt.
      rewrite Hsrc in Pb, Pl, Pt. fold e in Pb, Pl, Pt.
      unfold wine_ldt_get_base, wine_ldt_get_limit. rewrite Pb, Pl.
      repeat split.
      unfold e, wine_ldt_get_flags, wine_ldt_get_entry, wine_ldt_set_flags.
      cbn [Bits_Type Bits_Default_Big].
      now rewrite Hsrc, big_flag_value.
    + destruct (set_entry_other st
                  (WORD (d * 8 + lowd + Z.shiftl i __AHSHIFT)) e
                  j ltac:(rewrite Hdst; lia)) as (Eb & El & Ef).
      fold st1 in Eb, El, Ef. now rewrite Eb, El, Ef.
Qed.

(** X15.  [AllocSelector16] with a null argument is one plain allocation.
    With the selector of a block whose slots are in use and lie within the
    table, a successful call takes as many fresh slots as the block's first
    limit tells and copies the block window by window: each new slot has
    the base, limit, type and 32-bit flag of its source slot and is in use;
    the source block and all other slots stay as they were. *)
Theorem AllocSelector16_copies (st : ldt) (sel : Z) :
  ldt_wf st -> is_WORD sel ->
  let count := get_sel_count st sel in
  let s := Z.shiftr sel __AHSHIFT in
  let r := AllocSelector16 st sel in
  let d := Z.shiftr (fst r) __AHSHIFT in
  (sel = 0 -> r = SELECTOR_AllocArray st 1) /\
  (sel <> 0 -> s + count <= LDT_SIZE ->
   (forall k, 0 <= k < count -> allocated st (s + k) = true) ->
   fst r <> 0 ->
   (forall k, 0 <= k < count ->
      allocated st (d + k) = false /\
      allocated (snd r) (d + k) = true /\
      wine_ldt_copy.base (snd r) (d + k) = wine_ldt_copy.base st (s + k) /\
      wine_ldt_copy.limit (snd r) (d + k) = wine_ldt_copy.limit st (s + k) /\
      Z.land (wine_ldt_copy.flags (snd r) (d + k)) 0x1f
      = Z.land (wine_ldt_copy.flags st (s + k)) 0x1f /\
      Z.testbit (wine_ldt_copy.flags (snd r) (d + k)) 6
      = Z.testbit (wine_ldt_copy.flags st (s + k)) 6) /\
   (forall j, in_run d count j = false ->
      wine_ldt_copy.base (snd r) j = wine_ldt_copy.base st j /\
      wine_ldt_copy.limit (snd r) j = wine_ldt_copy.limit st j /\
      wine_ldt_copy.flags (snd r) j = wine_ldt_copy.flags st j)).
Proof using FIRST_range.
  intros Hwf Hsel. cbn zeta. split.
  - intros ->. unfold AllocSelector16. cbn [Z.eqb negb].
    destruct (SELECTOR_AllocArray st 1) as [newsel st1].
    destruct (Z.eqb_spec newsel 0) as [->|]; reflexivity.
  - intros Hnz Hcap Hused. unfold AllocSelector16.
    destruct (Z.eqb_spec sel 0); [contradiction|]. cbn [negb].
    set (count := get_sel_count st sel) in *.
    assert (Hc0 : 0 <= count)
      by (unfold count, get_sel_count, WORD; apply Z.mod_pos_bound; lia).
    pose proof (SELECTOR_AllocArray_success st count Hc0) as Hsucc.
    destruct (SELECTOR_AllocArray st count) as [newsel st1].
    cbn [fst snd] in Hsucc.
    destruct (Z.eqb_spec newsel 0) as [->|Hnew]; cbn [fst snd];
      [congruence|].
    intros _.
    destruct (Hsucc Hnew) as (idx & Hlo & Hhi & Hpos & -> & Hfree & ->).
    rewrite sel_slot by lia.
    destruct (sel_decompose sel Hsel) as (Hd & Hlow & Hs0).
    set (s := Z.shiftr sel __AHSHIFT) in *.
    destruct (mark_allocated_spec (Z.to_nat count) idx st 0) as (Mb & Ml & Mf).
    assert (Hdis : forall k k', 0 <= k < 0 + Z.of_nat (Z.to_nat count) ->
                     0 <= k' < 0 + Z.of_nat (Z.to_nat count) ->
                     s + k <> idx + k').
    { intros k k' Hk Hk' E.
      assert (Hf : allocated st (idx + k') = false).
      { apply Hfree. destruct (in_run_spec idx count (idx + k')); auto; lia. }
      rewrite <- E, Hused in Hf by lia. discriminate. }
    assert (Hcopy := fun j =>
      copy_entries_spec s (sel mod 8) idx 7 (Z.to_nat count) Hlow
        ltac:(lia) (mark_allocated (Z.to_nat count) st idx 0) 0
        ltac:(lia) ltac:(lia) ltac:(lia) ltac:(lia) Hdis j).
    cbn zeta in Hcopy. rewrite <- Hd in Hcopy.
    split.
    + intros k Hk. destruct (Hcopy (idx + k)) as (Cb & Cl & Cf).
      rewrite Z.add_0_r, Z2Nat.id in Cb, Cl, Cf by lia.
      destruct (in_run_spec idx count (idx + k)) as [Hin|]; [|lia].
      replace (s + (idx + k - idx)) with (s + k) in * by lia.
      destruct (Hwf (s + k)) as (Wb & Wl & _).
      assert (Msrc : wine_ldt_copy.flags
                       (mark_allocated (Z.to_nat count) st idx 0) (s + k)
                     = wine_ldt_copy.flags st (s + k)).
      { rewrite Mf, Z.add_0_r, Z2Nat.id by lia.
        destruct (in_run_spec idx count (s + k)) as [Hin'|]; [|reflexivity].
        exfalso. apply (Hdis k (s + k - idx)); lia. }
      rewrite Mb in Cb. rewrite Ml in Cl. rewrite Msrc in Cf.
      split; [apply Hfree; destruct (in_run_spec idx count (idx + k));
              auto; lia|].
      split; [|split; [|split; [|split]]].
      * rewrite allocated_testbit, Cf, Mf, Z.add_0_r, Z2Nat.id by lia.
        destruct (in_run_spec idx count (idx + k)); [|lia].
        rewrite land_lor_allocated, Z.lor_spec.
        replace (Z.testbit WINE_LDT_FLAGS_ALLOCATED 7) with true
          by reflexivity.
        apply orb_true_r.
      * rewrite Cb. now apply DWORD_small.
      * rewrite Cl. now apply DWORD_small.
      * rewrite Cf, !Z.land_lor_distr_l, <- !Z.land_assoc.
        unfold WINE_LDT_FLAGS_32BIT, WINE_LDT_FLAGS_ALLOCATED.
        change (Z.land 0x40 0x1f) with 0. change (Z.land 0x80 0x1f) with 0.
        change (Z.land 0x1f 0x1f) with 0x1f.
        now rewrite !Z.land_0_r, !Z.lor_0_r.
      * rewrite Cf, !Z.lor_spec, !Z.land_spec.
        unfold WINE_LDT_FLAGS_32BIT, WINE_LDT_FLAGS_ALLOCATED.
        replace (Z.testbit 0x1f 6) with false by reflexivity.
        replace (Z.testbit 0x40 6) with true by reflexivity.
        replace (Z.testbit 0x80 6) with false by reflexivity.
        now rewrite !andb_false_r, andb_true_r, orb_false_r.
    + intros j Hout. destruct (Hcopy j) as (Cb & Cl & Cf).
      rewrite Z.add_0_r, Z2Nat.id in Cb, Cl, Cf by lia.
      rewrite Hout in Cb, Cl, Cf.
      rewrite Cb, Cl, Cf, Mb, Ml, Mf, Z.add_0_r, Z2Nat.id by lia.
      rewrite Hout. now repeat split.
Qed.

(** ** More on the pointer checks *)

Lemma writable_type_is_readable (t : Z) :
  0 <= t < 32 ->
  negb (Z.land (Z.lxor t WINE_LDT_FLAGS_DATA) (Z.lnot 5) =? 0) = false ->
  (Z.land t 0x10 =? 0) = false /\ (Z.land t 0x0a =? 0x08) = false.
Proof.
  clear FIRST_range. intros Ht Hw.
  pose proof (forall_types
    (fun t => implb (Z.land (Z.lxor t WINE_LDT_FLAGS_DATA) (Z.lnot 5) =? 0)
                    (negb (Z.land t 0x10 =? 0)
                     && negb (Z.land t 0x0a =? 0x08)))
    eq_refl t Ht) as H.
  cbv beta in H. apply negb_false_iff in Hw. rewrite Hw in H.
  cbn [implb] in H. apply andb_true_iff in H. destruct H as [Ha Hb].
  apply negb_true_iff in Ha, Hb. auto.
Qed.

(** X16.  Whatever passes the write check passes the read check: a pointer
    and length that [IsBadHugeWritePtr16] accepts is accepted by
    [IsBadHugeReadPtr16], and the same holds for the 16-bit wrappers and
    for the two modes of [IsBadFlatReadWritePtr16]. *)
Theorem writable_pointer_is_readable (st : ldt) (ptr size bWrite : Z) :
  (IsBadHugeWritePtr16 st ptr size = false ->
   IsBadHugeReadPtr16 st ptr size = false) /\
  (IsBadWritePtr16 st ptr size = false -> IsBadReadPtr16 st ptr size = false) /\
  (bWrite <> 0 ->
   IsBadFlatReadWritePtr16 st ptr size bWrite = false ->
   IsBadFlatReadWritePtr16 st ptr size 0 = false).
Proof.
  clear FIRST_range.
  assert (H : IsBadHugeWritePtr16 st ptr size = false ->
              IsBadHugeReadPtr16 st ptr size = false).
  { unfold IsBadHugeWritePtr16, IsBadHugeReadPtr16.
    destruct (SELECTOROF ptr =? 0); [discriminate|].
    destruct (IS_SELECTOR_FREE st (SELECTOROF ptr)); [discriminate|].
    fold (descriptor_type st (SELECTOROF ptr)).
    pose proof (descriptor_type_range st (SELECTOROF ptr)) as Ht.
    destruct (negb (Z.land (Z.lxor (descriptor_type st (SELECTOROF ptr))
                              WINE_LDT_FLAGS_DATA) (Z.lnot 5) =? 0)) eqn:Hw;
      [discriminate|].
    destruct (writable_type_is_readable _ Ht Hw) as (-> & ->).
    auto. }
  split; [exact H|]. split; [exact H|].
  intros Hb. unfold IsBadFlatReadWritePtr16.
  destruct (Z.eqb_spec bWrite 0); [contradiction|]. exact H.
Qed.

(** X17.  The bound test is monotone as long as the range does not wrap:
    when a pointer passes the read (write) check for [size] bytes and
    [offset + size - 1] stays below 2^32, it passes for every shorter
    length. *)
Theorem pointer_check_shorter_range (st : ldt) (ptr size size' : Z) :
  0 <= size' <= size ->
  OFFSETOF ptr + size - 1 < 0x100000000 ->
  (IsBadHugeReadPtr16 st ptr size = false ->
   IsBadHugeReadPtr16 st ptr size' = false) /\
  (IsBadHugeWritePtr16 st ptr size = false ->
   IsBadHugeWritePtr16 st ptr size' = false).
Proof.
  clear FIRST_range. intros Hs Hnowrap.
  assert (Hoff : 0 <= OFFSETOF ptr < 0x10000)
    by (unfold OFFSETOF, LOWORD, WORD; apply Z.mod_pos_bound; lia).
  assert (Hbound : forall lim,
            (if negb (size =? 0) && (DWORD (OFFSETOF ptr + size - 1) >? lim)
             then true else false) = false ->
            (if negb (size' =? 0) && (DWORD (OFFSETOF ptr + size' - 1) >? lim)
             then true else false) = false).
  { intros lim. destruct (Z.eqb_spec size' 0); [reflexivity|].
    destruct (Z.eqb_spec size 0); [lia|]. cbn [negb andb].
    unfold DWORD. rewrite !Z.mod_small by lia.
    destruct (Z.gtb_spec (OFFSETOF ptr + size - 1) lim); [discriminate|].
    destruct (Z.gtb_spec (OFFSETOF ptr + size' - 1) lim); [lia|reflexivity]. }
  split.
  - unfold IsBadHugeReadPtr16.
    destruct (SELECTOROF ptr =? 0); [discriminate|].
    destruct (IS_SELECTOR_FREE st (SELECTOROF ptr)); [discriminate|].
    destruct (Z.land _ 16 =? 0); [discriminate|].
    destruct (Z.land _ 10 =? 8); [discriminate|].
    apply Hbound.
  - unfold IsBadHugeWritePtr16.
    destruct (SELECTOROF ptr =? 0); [discriminate|].
    destruct (IS_SELECTOR_FREE st (SELECTOROF ptr)); [discriminate|].
    destruct (negb (Z.land _ _ =? 0)); [discriminate|].
    apply Hbound.
Qed.

(** X18.  Once a pointer's selector has been freed with [FreeSelector16],
    the read, write and code checks all report the pointer as bad, for every
    offset and length. *)
Theorem freed_selector_is_bad_pointer (st : ldt) (ptr size : Z) :
  let st' := snd (FreeSelector16 st (SELECTOROF ptr)) in
  IsBadHugeReadPtr16 st' ptr size = true /\
  IsBadHugeWritePtr16 st' ptr size = true /\
  IsBadCodePtr16 st' ptr = true.
Proof.
  clear FIRST_range. cbn zeta.
  assert (Hfree : IS_SELECTOR_FREE (snd (FreeSelector16 st (SELECTOROF ptr)))
                                   (SELECTOROF ptr) = true).
  { unfold IS_SELECTOR_FREE.
    rewrite FreeSelector16_allocated, Z.eqb_refl, andb_false_r. reflexivity. }
  unfold IsBadHugeReadPtr16, IsBadHugeWritePtr16, IsBadCodePtr16.
  rewrite Hfree. now destruct (SELECTOROF ptr =? 0).
Qed.

(** X19.  Every range inside a freshly sized Data block is a good pointer:
    for a pointer built on the block's first selector, a non-empty range
    that ends within [size] passes the read and the write check, also when
    the block spans several windows, and fails the code check. *)
Theorem fresh_data_block_pointers (st : ldt) (base size ptr len : Z) :
  is_DWORD size ->
  let r := SELECTOR_AllocBlock st base size WINE_LDT_FLAGS_DATA in
  fst r <> 0 -> SELECTOROF ptr = fst r ->
  0 < len -> OFFSETOF ptr + len <= size ->
  IsBadHugeReadPtr16 (snd r) ptr len = false /\
  IsBadHugeWritePtr16 (snd r) ptr len = false /\
  IsBadCodePtr16 (snd r) ptr = true.
Proof using FIRST_range.
  intros Hsz. cbn zeta. intros Hok Hptr Hlen Hend.
  destruct (alloc_block_window st base size WINE_LDT_FLAGS_DATA Hsz Hok)
    as (Hpos & _ & Hw).
  destruct (Hw 0 ltac:(lia)) as (_ & _ & Ha & Hl).
  rewrite Z.add_0_r in Ha, Hl. rewrite Z.mul_0_l, Z.sub_0_r in Hl.
  destruct (SELECTOR_AllocBlock_success st base size WINE_LDT_FLAGS_DATA
              Hsz Hok) as (idx & Hlo & Hcap & _ & Hsel & _ & Hst).
  destruct (Hst idx) as (_ & _ & Hf).
  destruct (in_run_spec idx (block_count size) idx); [|lia].
  assert (Hidx : Z.shiftr (fst (SELECTOR_AllocBlock st base size
                                  WINE_LDT_FLAGS_DATA)) __AHSHIFT = idx)
    by (rewrite Hsel; apply sel_slot; lia).
  rewrite Hidx in Ha, Hl.
  destruct (block_count_exact size Hsz ltac:(lia)) as (Hs0 & _ & _).
  assert (Hoff : 0 <= OFFSETOF ptr < 0x10000)
    by (unfold OFFSETOF, LOWORD, WORD; apply Z.mod_pos_bound; lia).
  assert (Hlim : size - 1 <= block_limit base size < 0x100000000).
  { unfold block_limit, is_DWORD in *.
    destruct (Z.eqb_spec base 0), (Z.eqb_spec size 1); cbn [andb]; lia. }
  destruct (get_entry_parts (snd (SELECTOR_AllocBlock st base size
                                    WINE_LDT_FLAGS_DATA)) (SELECTOROF ptr))
    as (_ & Pl & Pt & _). cbn zeta in Pl, Pt.
  rewrite Hptr, Hidx, Hl in Pl. rewrite Hptr, Hidx, Hf in Pt.
  change (Z.land (entry_flags WINE_LDT_FLAGS_DATA) 0x1f) with 0x13 in Pt.
  rewrite DWORD_small in Pl by (unfold is_DWORD; lia).
  unfold IsBadHugeReadPtr16, IsBadHugeWritePtr16, IsBadCodePtr16,
    IS_SELECTOR_FREE, wine_ldt_get_limit.
  rewrite Hptr in *. rewrite Hidx, Ha, Pt, Pl.
  destruct (Z.eqb_spec (fst (SELECTOR_AllocBlock st base size
                               WINE_LDT_FLAGS_DATA)) 0); [contradiction|].
  cbn [negb]. unfold WINE_LDT_FLAGS_DATA, WINE_LDT_FLAGS_CODE.
  change (Z.land 0x13 0x10 =? 0) with false.
  change (Z.land 0x13 0x0a =? 0x08) with false.
  change (negb (Z.land (Z.lxor 0x13 0x13) (Z.lnot 5) =? 0)) with false.
  change (negb (Z.land (Z.lxor 0x13 0x1b) 0x18 =? 0)) with true.
  unfold DWORD. rewrite Z.mod_small by lia.
  destruct (Z.eqb_spec len 0); [lia|]. cbn [negb andb].
  destruct (Z.gtb_spec (OFFSETOF ptr + len - 1) (block_limit base size));
    [lia|]. now repeat split.
Qed.

(** ** More on the memory transfers *)

(** X20.  What [MemoryWrite16] stores through a selector, [MemoryRead16]
    reads back.  When neither the buffer written from nor the buffer read
    into overlaps the bytes of the segment that are transferred, a read
    with the same selector, offset and count returns the same byte count
    and delivers the bytes of the written buffer, which the segment still
    holds and the written buffer has kept. *)
Theorem MemoryWrite16_then_MemoryRead16 (st : ldt) (mem : memory)
        (sel offset buffer buffer2 count : Z) :
  let lin := DWORD (wine_ldt_copy.base st (Z.shiftr sel __AHSHIFT) + offset) in
  let w := MemoryWrite16 st mem sel offset buffer count in
  let r := MemoryRead16 st (snd w) sel offset buffer2 count in
  separate lin buffer (fst w) -> separate lin buffer2 (fst w) ->
  fst r = fst w /\
  forall k, 0 <= k < fst w ->
    snd w (buffer + k) = mem (buffer + k) /\
    snd r (buffer2 + k) = mem (buffer + k) /\
    snd r (lin + k) = mem (buffer + k).
Proof.
  clear FIRST_range. cbn zeta. unfold MemoryWrite16, MemoryRead16, separate.
  destruct (negb (allocated st (Z.shiftr sel __AHSHIFT)));
    [cbn [fst snd]; intros _ _; split; [reflexivity|lia]|].
  destruct (offset >? wine_ldt_copy.limit st (Z.shiftr sel __AHSHIFT));
    [cbn [fst snd]; intros _ _; split; [reflexivity|lia]|].
  cbn [fst snd].
  set (n := clamp_count _ _ _) in *.
  set (lin := DWORD _) in *.
  intros Hsrc Hdst. split; [reflexivity|].
  intros k Hk. unfold memcpy. split; [|split].
  - destruct (Z.leb_spec lin (buffer + k)); [|reflexivity].
    destruct (Z.ltb_spec (buffer + k) (lin + n)); [lia|reflexivity].
  - destruct (Z.leb_spec buffer2 (buffer2 + k)); [|lia].
    destruct (Z.ltb_spec (buffer2 + k) (buffer2 + n)); [|lia].
    cbn [andb].
    replace (lin + (buffer2 + k - buffer2)) with (lin + k) by lia.
    destruct (Z.leb_spec lin (lin + k)); [|lia].
    destruct (Z.ltb_spec (lin + k) (lin + n)); [|lia].
    cbn [andb]. f_equal. lia.
  - assert (Hout : (buffer2 <=? lin + k) && (lin + k <? buffer2 + n) = false).
    { destruct (Z.leb_spec buffer2 (lin + k)); [|reflexivity].
      destruct (Z.ltb_spec (lin + k) (buffer2 + n)); [lia|reflexivity]. }
    rewrite Hout.
    destruct (Z.leb_spec lin (lin + k)); [|lia].
    destruct (Z.ltb_spec (lin + k) (lin + n)); [|lia].
    cbn [andb]. f_equal. lia.
Qed.

(** X21.  In range, and with a buffer that does not overlap the bytes of
    the segment that are transferred, both transfers move exactly
    [min count (limit + 1 - offset)] bytes between the buffer and the
    segment's linear address [base + offset]; the source of each transfer
    keeps its bytes, and every other byte of memory is left as it was. *)
Theorem memory_transfer_in_range (st : ldt) (mem : memory)
        (sel offset buffer count : Z) :
  let index := Z.shiftr sel __AHSHIFT in
  let lim := wine_ldt_copy.limit st index in
  let lin := DWORD (wine_ldt_copy.base st index + offset) in
  is_DWORD count -> 0 <= offset <= lim -> lim < 0xFFFFFFFF ->
  offset + count < 0x100000000 ->
  allocated st index = true ->
  let n := Z.min count (lim + 1 - offset) in
  separate lin buffer n ->
  let w := MemoryWrite16 st mem sel offset buffer count in
  let r := MemoryRead16 st mem sel offset buffer count in
  fst w = n /\ fst r = n /\
  (forall k, 0 <= k < n ->
     (snd w (lin + k) = mem (buffer + k) /\
      snd w (buffer + k) = mem (buffer + k)) /\
     (snd r (buffer + k) = mem (lin + k) /\
      snd r (lin + k) = mem (lin + k))) /\
  (forall a, ~ (lin <= a < lin + n) -> snd w a = mem a) /\
  (forall a, ~ (buffer <= a < buffer + n) -> snd r a = mem a).
Proof.
  clear FIRST_range. cbn zeta. intros Hc Ho Hl Hsum Ha.
  unfold MemoryWrite16, MemoryRead16, separate. rewrite Ha. cbn [negb].
  destruct (Z.gtb_spec offset
              (wine_ldt_copy.limit st (Z.shiftr sel __AHSHIFT))); [lia|].
  cbn [fst snd]. rewrite clamp_count_in_range by (try assumption; lia).
  set (n := Z.min _ _). set (lin := DWORD _). intros Hsep.
  split; [reflexivity|]. split; [reflexivity|].
  unfold memcpy. split; [|split].
  - intros k Hk. split; split.
    + destruct (Z.leb_spec lin (lin + k)); [|lia].
      destruct (Z.ltb_spec (lin + k) (lin + n)); [|lia].
      cbn [andb]. f_equal. lia.
    + destruct (Z.leb_spec lin (buffer + k)); [|reflexivity].
      destruct (Z.ltb_spec (buffer + k) (lin + n)); [lia|reflexivity].
    + destruct (Z.leb_spec buffer (buffer + k)); [|lia].
      destruct (Z.ltb_spec (buffer + k) (buffer + n)); [|lia].
      cbn [andb]. f_equal. lia.
    + destruct (Z.leb_spec buffer (lin + k)); [|reflexivity].
      destruct (Z.ltb_spec (lin + k) (buffer + n)); [lia|reflexivity].
  - intros a Hout.
    destruct (Z.leb_spec lin a); [|reflexivity].
    destruct (Z.ltb_spec a (lin + n)); [lia|reflexivity].
  - intros a Hout.
    destruct (Z.leb_spec buffer a); [|reflexivity].
    destruct (Z.ltb_spec a (buffer + n)); [lia|reflexivity].
Qed.

(** ** More on the linear-pointer mapping *)

Lemma UnMapLS_allocated (st : ldt) (sptr j : Z) :
  allocated (UnMapLS st sptr) j =
  allocated st j
  && negb (negb (SELECTOROF sptr =? 0)
           && (j =? Z.shiftr (SELECTOROF sptr) __AHSHIFT)).
Proof.
  clear FIRST_range. unfold UnMapLS.
  destruct (SELECTOROF sptr =? 0); cbn [negb andb].
  - now rewrite andb_true_r.
  - apply FreeSelector16_allocated.
Qed.

Lemma same_in_use_refl (st : ldt) : same_in_use st st.
Proof. clear FIRST_range. intros j. now repeat split. Qed.

Lemma MapLS_then_UnMapLS (st : ldt) (ptr : Z) :
  is_DWORD ptr ->
  same_in_use st (UnMapLS (snd (MapLS st ptr)) (fst (MapLS st ptr))).
Proof using FIRST_range.
  intros Hptr.
  destruct (Z.eq_dec (HIWORD ptr) 0) as [Hlow|Hhi].
  { unfold MapLS. rewrite Hlow. cbn [Z.eqb fst snd].
    unfold UnMapLS, SELECTOROF. rewrite Hlow. apply same_in_use_refl. }
  destruct (Z.eq_dec (fst (MapLS st ptr)) 0) as [Hnull|Hok].
  { rewrite (MapLS_null _ _ Hnull), Hnull. apply same_in_use_refl. }
  destruct (MapLS_success st ptr Hptr Hhi Hok)
    as (idx & Hrng & Hs & Hfree & Hst).
  destruct (SEGPTR_of_selector (idx * 8 + 7)) as (_ & Hsel & _);
    [unfold is_WORD, LDT_SIZE in *; lia|].
  assert (Hidx : Z.shiftr (idx * 8 + 7) __AHSHIFT = idx) by (apply sel_slot; lia).
  unfold UnMapLS. rewrite Hs, Hsel.
  destruct (Z.eqb_spec (idx * 8 + 7) 0); [lia|]. cbn [negb].
  intros j.
  destruct (FreeSelector16_fields (snd (MapLS st ptr)) (idx * 8 + 7) j)
    as (Fb & Fl & Ff). cbn zeta in Fb, Fl, Ff.
  rewrite FreeSelector16_allocated, Hidx. rewrite Hidx in Fb, Fl, Ff.
  destruct (Hst j) as (Hb & Hl & Hf).
  destruct (Z.eqb_spec j idx) as [Hj|Hne].
  - rewrite Hj, andb_false_r, Hfree. split; [reflexivity|discriminate].
  - cbn [andb] in Fb, Fl, Ff. rewrite andb_true_r.
    unfold allocated at 1. rewrite Hf. fold (allocated st j).
    split; [reflexivity|]. intros _. rewrite Fb, Fl, Ff. auto.
Qed.

(** X22.  [MapLS] followed by [UnMapLS] on its result gives the table back:
    every allocation bit is as before and no descriptor in use has changed,
    whether the pointer was a low one, was mapped, or no slot was free. *)
Theorem MapLS_UnMapLS_restores (st : ldt) (ptr : Z) :
  is_DWORD ptr ->
  let m := MapLS st ptr in
  let st' := UnMapLS (snd m) (fst m) in
  (forall j, allocated st' j = allocated st j) /\
  (forall j, allocated st j = true ->
     wine_ldt_copy.base st' j = wine_ldt_copy.base st j /\
     wine_ldt_copy.limit st' j = wine_ldt_copy.limit st j /\
     wine_ldt_copy.flags st' j = wine_ldt_copy.flags st j) /\
  (HIWORD ptr = 0 \/ fst m = 0 -> st' = st).
Proof using FIRST_range.
  intros Hptr. cbn zeta.
  pose proof (MapLS_then_UnMapLS st ptr Hptr) as H.
  split; [intros j; apply H|]. split; [intros j; apply H|].
  intros [Hlow|Hnull].
  - unfold MapLS. rewrite Hlow. cbn [Z.eqb fst snd].
    unfold UnMapLS, SELECTOROF. now rewrite Hlow.
  - now rewrite (MapLS_null _ _ Hnull), Hnull.
Qed.

(** X23.  After [UnMapLS] the pointer is dead: the read, write and code
    checks all report it as bad, and unmapping it a second time changes
    nothing. *)
Theorem UnMapLS_kills_pointer (st : ldt) (sptr size : Z) :
  let st' := UnMapLS st sptr in
  UnMapLS st' sptr = st' /\
  IsBadHugeReadPtr16 st' sptr size = true /\
  IsBadHugeWritePtr16 st' sptr size = true /\
  IsBadCodePtr16 st' sptr = true.
Proof.
  clear FIRST_range. cbn zeta.
  unfold IsBadHugeReadPtr16, IsBadHugeWritePtr16, IsBadCodePtr16.
  destruct (Z.eqb_spec (SELECTOROF sptr) 0) as [Hz|Hnz].
  - unfold UnMapLS. rewrite Hz. cbn [Z.eqb negb]. auto.
  - assert (Hfree : allocated (UnMapLS st sptr)
                      (Z.shiftr (SELECTOROF sptr) __AHSHIFT) = false).
    { rewrite UnMapLS_allocated, Z.eqb_refl.
      destruct (Z.eqb_spec (SELECTOROF sptr) 0); [contradiction|].
      apply andb_false_r. }
    unfold IS_SELECTOR_FREE. rewrite Hfree. cbn [negb].
    split; [|auto].
    unfold UnMapLS at 1.
    destruct (Z.eqb_spec (SELECTOROF sptr) 0); [contradiction|]. cbn [negb].
    unfold FreeSelector16, IS_SELECTOR_FREE. now rewrite Hfree.
Qed.

Lemma SUnMapLS_is_UnMapLS (st : ldt) (context : CONTEXT86) :
  SUnMapLS st context = UnMapLS st (Eax context).
Proof.
  clear FIRST_range. unfold SUnMapLS, UnMapLS, SELECTOROF.
  now destruct (HIWORD (Eax context) =? 0).
Qed.

(** X24.  [SMapLS] leaves a low pointer in [Eax] and clears [Edx]; for any
    other pointer it puts the result of [MapLS] in both registers.  [Ebp] is
    kept, and [SUnMapLS] on the resulting context gives the table back. *)
Theorem SMapLS_SUnMapLS_restores (st : ldt) (context : CONTEXT86) :
  is_DWORD (Eax context) ->
  let r := SMapLS st context in
  let st' := SUnMapLS (snd r) (fst r) in
  (forall j, allocated st' j = allocated st j) /\
  (forall j, allocated st j = true ->
     wine_ldt_copy.base st' j = wine_ldt_copy.base st j /\
     wine_ldt_copy.limit st' j = wine_ldt_copy.limit st j /\
     wine_ldt_copy.flags st' j = wine_ldt_copy.flags st j) /\
  Ebp (fst r) = Ebp context /\
  (HIWORD (Eax context) = 0 ->
   Eax (fst r) = Eax context /\ Edx (fst r) = 0 /\ snd r = st) /\
  (HIWORD (Eax context) <> 0 ->
   Eax (fst r) = fst (MapLS st (Eax context)) /\ Edx (fst r) = Eax (fst r)).
Proof using FIRST_range.
  intros Hptr. cbn zeta. rewrite SUnMapLS_is_UnMapLS.
  pose proof (MapLS_then_UnMapLS st (Eax context) Hptr) as H.
  unfold SMapLS. destruct (Z.eqb_spec (HIWORD (Eax context)) 0) as [Hlow|Hhi];
    cbn [negb].
  - cbn [fst snd Eax Edx Ebp].
    unfold MapLS in H. rewrite Hlow in H. cbn [Z.eqb fst snd] in H.
    split; [intros j; apply H|]. split; [intros j; apply H|].
    split; [reflexivity|]. split; [auto|]. intros Hc. contradiction.
  - destruct (MapLS st (Eax context)) as [p st1]. cbn [fst snd Eax Edx Ebp] in *.
    split; [intros j; apply H|]. split; [intros j; apply H|].
    split; [reflexivity|]. split; [intros Hc; contradiction|auto].
Qed.

(** X25.  The [EBP]-relative pair: [x_SMapLS_IP_EBP_x] replaces the linear
    pointer in the stack slot at [Ebp + argoff], and
    [x_SUnMapLS_IP_EBP_x] on the same slot gives the table back, leaves 0 in
    the slot and no other stack slot changed. *)
Theorem x_SMapLS_x_SUnMapLS_restores (st : ldt) (stack : dwords)
        (context : CONTEXT86) (argoff : Z) :
  let addr := DWORD (Ebp context + argoff) in
  is_DWORD (stack addr) ->
  let m := x_SMapLS_IP_EBP_x st stack context argoff in
  let u := x_SUnMapLS_IP_EBP_x (snd m) (snd (fst m)) (fst (fst m)) argoff in
  (forall j, allocated (snd u) j = allocated st j) /\
  (forall j, allocated st j = true ->
     wine_ldt_copy.base (snd u) j = wine_ldt_copy.base st j /\
     wine_ldt_copy.limit (snd u) j = wine_ldt_copy.limit st j /\
     wine_ldt_copy.flags (snd u) j = wine_ldt_copy.flags st j) /\
  Eax (fst (fst m)) = (if stack addr <? 0x10000 then stack addr
                       else fst (MapLS st (stack addr))) /\
  fst u addr = 0 /\
  (forall a, a <> addr -> fst u a = stack a).
Proof using FIRST_range.
  cbn zeta. intros Hval.
  pose proof (MapLS_then_UnMapLS st _ Hval) as H.
  pose proof (MapLS_null st (stack (DWORD (Ebp context + argoff)))) as Hnull.
  unfold x_SMapLS_IP_EBP_x, x_SUnMapLS_IP_EBP_x.
  destruct (Z.ltb_spec (stack (DWORD (Ebp context + argoff))) 0x10000)
    as [Hlow|Hhi].
  - cbn [fst snd Ebp Eax]. rewrite upd_same. cbn [Z.eqb negb fst snd].
    rewrite upd_same.
    split; [reflexivity|]. split; [auto|]. split; [reflexivity|].
    split; [reflexivity|]. intros a Ha. now apply upd_other.
  - destruct (MapLS st (stack (DWORD (Ebp context + argoff)))) as [p st1].
    cbn [fst snd Ebp Eax] in *. rewrite upd_same.
    destruct (Z.eqb_spec p 0) as [->|Hp]; cbn [negb fst snd].
    + rewrite (Hnull eq_refl), upd_same.
      split; [reflexivity|]. split; [auto|]. split; [reflexivity|].
      split; [reflexivity|]. intros a Ha. now apply upd_other.
    + rewrite upd_same.
      split; [intros j; apply H|]. split; [intros j; apply H|].
      split; [reflexivity|]. split; [reflexivity|].
      intros a Ha. rewrite !upd_other by assumption. reflexivity.
Qed.

(** ** Setting a limit *)

(** X26.  [SetSelectorLimit16] returns its selector and stores the limit,
    which [GetSelectorLimit16] reads back; base, type and allocation bit of
    the slot and every other slot are kept.  For a pointer on that selector
    which passed the read check before, the new limit is the exact bound:
    the check passes if and only if the last byte of the range does not lie
    beyond it. *)
Theorem SetSelectorLimit16_is_the_bound (st : ldt) (sel limit : Z) :
  ldt_wf st -> is_DWORD limit ->
  let idx := Z.shiftr sel __AHSHIFT in
  let r := SetSelectorLimit16 st sel limit in
  fst r = sel /\
  GetSelectorLimit16 (snd r) sel = limit /\
  wine_ldt_copy.base (snd r) idx = wine_ldt_copy.base st idx /\
  allocated (snd r) idx = allocated st idx /\
  descriptor_type (snd r) sel = descriptor_type st sel /\
  (forall j, j <> idx ->
     wine_ldt_copy.base (snd r) j = wine_ldt_copy.base st j /\
     wine_ldt_copy.limit (snd r) j = wine_ldt_copy.limit st j /\
     wine_ldt_copy.flags (snd r) j = wine_ldt_copy.flags st j) /\
  (forall ptr size,
     SELECTOROF ptr = sel -> IsBadHugeReadPtr16 st ptr 0 = false ->
     (IsBadHugeReadPtr16 (snd r) ptr size = false <->
      size = 0 \/ DWORD (OFFSETOF ptr + size - 1) <= limit)).
Proof.
  clear FIRST_range. intros Hwf Hlim. cbn zeta.
  destruct (Hwf (Z.shiftr sel __AHSHIFT)) as (Wb & _ & _).
  destruct (get_entry_parts st sel) as (Gb & _ & Gt & _). cbn zeta in Gb, Gt.
  unfold SetSelectorLimit16. cbn [fst snd].
  set (e' := wine_ldt_set_limit (wine_ldt_get_entry st sel) limit).
  assert (Et : Bits_Type e'
               = Z.land (wine_ldt_copy.flags st (Z.shiftr sel __AHSHIFT)) 0x1f)
    by exact Gt.
  destruct (set_entry_flags_parts st sel e' _ Et) as (Ft & _ & Fa).
  cbn zeta in Ft, Fa.
  assert (Hl : wine_ldt_copy.limit (wine_ldt_set_entry st sel e')
                 (Z.shiftr sel __AHSHIFT) = limit).
  { unfold wine_ldt_set_entry. cbn [wine_ldt_copy.limit]. rewrite upd_same.
    unfold e', wine_ldt_get_limit, wine_ldt_set_limit. cbn [ent_limit].
    now apply DWORD_small. }
  assert (Hb : wine_ldt_copy.base (wine_ldt_set_entry st sel e')
                 (Z.shiftr sel __AHSHIFT)
               = wine_ldt_copy.base st (Z.shiftr sel __AHSHIFT)).
  { unfold wine_ldt_set_entry. cbn [wine_ldt_copy.base]. rewrite upd_same.
    unfold e', wine_ldt_get_base, wine_ldt_set_limit. cbn [ent_base].
    rewrite Gb. now apply DWORD_small. }
  assert (Ha : allocated (wine_ldt_set_entry st sel e') (Z.shiftr sel __AHSHIFT)
               = allocated st (Z.shiftr sel __AHSHIFT))
    by (now rewrite !allocated_testbit).
  assert (Hd : descriptor_type (wine_ldt_set_entry st sel e') sel
               = descriptor_type st sel).
  { unfold descriptor_type.
    destruct (get_entry_parts (wine_ldt_set_entry st sel e') sel)
      as (_ & _ & Gt' & _). cbn zeta in Gt'.
    rewrite Gt', Ft, Et. symmetry. exact Gt. }
  split; [reflexivity|]. split; [exact Hl|]. split; [exact Hb|].
  split; [exact Ha|]. split; [exact Hd|].
  split; [intros j Hj; now apply set_entry_other|].
  intros ptr size Hptr. unfold IsBadHugeReadPtr16, IS_SELECTOR_FREE.
  rewrite Hptr. destruct (sel =? 0); [discriminate|].
  rewrite Ha. destruct (allocated st (Z.shiftr sel __AHSHIFT));
    cbn [negb]; [|discriminate].
  fold (descriptor_type (wine_ldt_set_entry st sel e') sel).
  fold (descriptor_type st sel). rewrite Hd.
  destruct (Z.land (descriptor_type st sel) 0x10 =? 0); [discriminate|].
  destruct (Z.land (descriptor_type st sel) 0x0a =? 0x08); [discriminate|].
  intros _.
  destruct (get_entry_parts (wine_ldt_set_entry st sel e') sel)
    as (_ & Gl' & _). cbn zeta in Gl'.
  unfold wine_ldt_get_limit. rewrite Gl', Hl, (DWORD_small limit) by assumption.
  destruct (Z.eqb_spec size 0) as [->|Hs]; cbn [negb andb].
  - split; auto.
  - destruct (Z.gtb_spec (DWORD (OFFSETOF ptr + size - 1)) limit).
    + split; [discriminate|]. intros [?|?]; [contradiction|lia].
    + split; auto.
Qed.

(** ** Huge pointers into a block *)

(** X27.  The selectors of a block tile its memory: a pointer on the
    [i]-th selector of the block maps to [base + i * 64K + offset], so the
    byte after offset 0xFFFF of one window is offset 0 of the next.  In a
    Data block the pointer to a single byte passes the read and the write
    check exactly when the byte does not lie beyond the block's limit. *)
Theorem block_windows_tile_memory (st : ldt) (base size flags i ptr : Z) :
  is_DWORD size ->
  let r := SELECTOR_AllocBlock st base size flags in
  fst r <> 0 ->
  0 <= i < block_count size ->
  SELECTOROF ptr = fst r + 8 * i ->
  MapSL (snd r) ptr = DWORD (base + (i * 0x10000 + OFFSETOF ptr)) /\
  (flags = WINE_LDT_FLAGS_DATA ->
   (IsBadHugeReadPtr16 (snd r) ptr 1 = false <->
    i * 0x10000 + OFFSETOF ptr <= block_limit base size) /\
   (IsBadHugeWritePtr16 (snd r) ptr 1 = false <->
    i * 0x10000 + OFFSETOF ptr <= block_limit base size)).
Proof using FIRST_range.
  intros Hsz. cbn zeta. intros Hok Hi Hptr.
  destruct (alloc_block_window st base size flags Hsz Hok) as (Hpos & _ & Hw).
  destruct (Hw i Hi) as (_ & _ & Ha & Hl).
  destruct (SELECTOR_AllocBlock_success st base size flags Hsz Hok)
    as (idx & Hlo & Hcap & _ & Hsel & _ & Hst).
  destruct (Hst (idx + i)) as (Hb & _ & Hf).
  destruct (in_run_spec idx (block_count size) (idx + i)); [|lia].
  replace (idx + i - idx) with i in Hb by lia.
  assert (Hidx : Z.shiftr (fst (SELECTOR_AllocBlock st base size flags))
                          __AHSHIFT = idx)
    by (rewrite Hsel; apply sel_slot; lia).
  rewrite Hidx in Ha, Hl.
  assert (Hslot : Z.shiftr (SELECTOROF ptr) __AHSHIFT = idx + i).
  { rewrite Hptr, Hsel.
    replace (idx * 8 + 7 + 8 * i) with ((idx + i) * 8 + 7) by lia.
    apply sel_slot. lia. }
  assert (Hoff : 0 <= OFFSETOF ptr < 0x10000)
    by (unfold OFFSETOF, LOWORD, WORD; apply Z.mod_pos_bound; lia).
  split.
  { unfold MapSL. rewrite Hslot, Hb, DWORD_add_l. f_equal. lia. }
  intros ->.
  destruct (block_count_exact size Hsz ltac:(lia)) as (Hs0 & _ & Hcnt & _).
  assert (Hlim : size - 1 <= block_limit base size < 0x100000000).
  { unfold block_limit, is_DWORD in *.
    destruct (Z.eqb_spec base 0), (Z.eqb_spec size 1); cbn [andb]; lia. }
  destruct (get_entry_parts (snd (SELECTOR_AllocBlock st base size
                                    WINE_LDT_FLAGS_DATA)) (SELECTOROF ptr))
    as (_ & Pl & Pt & _). cbn zeta in Pl, Pt.
  rewrite Hslot, Hl in Pl. rewrite Hslot, Hf in Pt.
  change (Z.land (entry_flags WINE_LDT_FLAGS_DATA) 0x1f) with 0x13 in Pt.
  rewrite DWORD_small in Pl by (unfold is_DWORD; nia).
  unfold IsBadHugeReadPtr16, IsBadHugeWritePtr16, IS_SELECTOR_FREE,
    wine_ldt_get_limit.
  rewrite Hslot, Ha, Pt, Pl.
  destruct (Z.eqb_spec (SELECTOROF ptr) 0); [lia|].
  cbn [negb]. unfold WINE_LDT_FLAGS_DATA.
  change (Z.land 0x13 0x10 =? 0) with false.
  change (Z.land 0x13 0x0a =? 0x08) with false.
  change (negb (Z.land (Z.lxor 0x13 0x13) (Z.lnot 5) =? 0)) with false.
  change (negb (1 =? 0)) with true. cbn [andb].
  replace (OFFSETOF ptr + 1 - 1) with (OFFSETOF ptr) by lia.
  rewrite DWORD_small by (unfold is_DWORD; lia).
  destruct (Z.gtb_spec (OFFSETOF ptr) (block_limit base size - i * 0x10000)).
  - split; (split; [discriminate|lia]).
  - split; (split; [lia|reflexivity]).
Qed.

End Selector.

(** ** Concrete runs *)

Lemma first_ldt_entry_range : 0 < first_ldt_entry <= LDT_SIZE.
Proof. unfold first_ldt_entry, LDT_SIZE. lia. Qed.

Lemma one_block_table_wf : ldt_wf (one_block_table first_ldt_entry).
Proof.
  apply (SELECTOR_AllocBlock_wf first_ldt_entry first_ldt_entry_range).
  - unfold is_DWORD. lia.
  - apply ldt_empty_wf.
Qed.

(** C7 at work: three slots taken from a table that holds one block, and
    given back. *)
Lemma alloc_free_restores_allocation_bits_run :
  let st := one_block_table first_ldt_entry in
  let r := SELECTOR_AllocArray first_ldt_entry st 3 in
  fst r = 151 /\
  forall j,
    allocated (free_selectors (Z.to_nat 3) (snd r) (fst r) 0) j
    = allocated st j.
Proof.
  split; [vm_compute; reflexivity|].
  apply (alloc_free_restores_allocation_bits first_ldt_entry
           first_ldt_entry_range (one_block_table first_ldt_entry) 3).
  - lia.
  - vm_compute. discriminate.
Defined.

(** C1 fails as written: after allocating 0x20001 bytes the lookups on
    windows 0 and 1 return 0x20000 and 0x10000, not 0xFFFF. *)
Lemma three_window_limits_not_saturated :
  let sel := fst (three_windows first_ldt_entry) in
  let st := snd (three_windows first_ldt_entry) in
  GetSelectorLimit16 st sel = 0x20000 /\
  GetSelectorLimit16 st (sel + 8) = 0x10000 /\
  GetSelectorLimit16 st (sel + 16) = 0 /\
  ~ (GetSelectorLimit16 st sel = 0xFFFF /\
     GetSelectorLimit16 st (sel + 8) = 0xFFFF /\
     GetSelectorLimit16 st (sel + 16) = 0).
Proof.
  cbn zeta. repeat split; try (vm_compute; reflexivity).
  intros (H & _). vm_compute in H. discriminate.
Qed.

(** C1 at work on the three-window block. *)
Lemma multi_slot_block_limits_run :
  let sel := fst (three_windows first_ldt_entry) in
  let st' := snd (three_windows first_ldt_entry) in
  let window i := WORD (sel + Z.shiftl i __AHSHIFT) in
  1 < block_count 0x20001 /\
  (forall i, 0 <= i < block_count 0x20001 ->
     Z.shiftr (window i) __AHSHIFT = Z.shiftr sel __AHSHIFT + i /\
     allocated st' (Z.shiftr (window i) __AHSHIFT) = true /\
     GetSelectorLimit16 st' (window i) = 0x20001 - 1 - i * 0x10000) /\
  (forall i, 0 <= i < block_count 0x20001 - 1 ->
     0xFFFF < GetSelectorLimit16 st' (window i)) /\
  GetSelectorLimit16 st' (window (block_count 0x20001 - 1))
  = (0x20001 - 1) mod 0x10000 /\
  (0x20001 = 0x20001 ->
   GetSelectorLimit16 st' (window 0) = 0x20000 /\
   GetSelectorLimit16 st' (window 1) = 0x10000 /\
   GetSelectorLimit16 st' (window 2) = 0).
Proof.
  apply (multi_slot_block_limits first_ldt_entry first_ldt_entry_range
           ldt_empty 0x500000 0x20001 WINE_LDT_FLAGS_DATA).
  - unfold is_DWORD. lia.
  - lia.
  - vm_compute. discriminate.
Defined.

(** C8 fails as written: the middle slot of the three-window block yields
    2, not the block's 3 slots. *)
Lemma middle_slot_count_is_not_total :
  let sel := fst (three_windows first_ldt_entry) in
  let st := snd (three_windows first_ldt_entry) in
  block_count 0x20001 = 3 /\
  allocated st (Z.shiftr (sel + 8) __AHSHIFT) = true /\
  get_sel_count st (sel + 8) = 2 /\
  get_sel_count st (sel + 8) <> block_count 0x20001.
Proof.
  cbn zeta. repeat split; try (vm_compute; reflexivity).
  vm_compute. discriminate.
Qed.

(** C8 at work: the windows of 0x20001 bytes written for three slots
    taken from the empty table. *)
Lemma slot_count_from_limit_run :
  let taken := SELECTOR_AllocArray first_ldt_entry ldt_empty 3 in
  let st' := SELECTOR_SetEntries (snd taken) (fst taken) 0x500000 0x20001
                                 WINE_LDT_FLAGS_DATA in
  block_count 0x20001 = 3 /\
  get_sel_count st' (fst taken) = block_count 0x20001 /\
  forall i, 0 <= i < block_count 0x20001 ->
    get_sel_count st' (WORD (fst taken + Z.shiftl i __AHSHIFT))
    = block_count 0x20001 - i.
Proof.
  split; [reflexivity|].
  apply (slot_count_from_limit
           (snd (SELECTOR_AllocArray first_ldt_entry ldt_empty 3))
           (fst (SELECTOR_AllocArray first_ldt_entry ldt_empty 3))
           0x500000 0x20001 WINE_LDT_FLAGS_DATA).
  - vm_compute. split; [discriminate|reflexivity].
  - unfold is_DWORD. lia.
  - reflexivity.
  - vm_compute. discriminate.
Defined.

(** C2 fails as written: for size 0x10001 the remainder
    [(size - 1) mod 0x10000] is 0 and the last window's limit is 0, not
    0xFFFF; likewise for size 1. *)
Lemma zero_remainder_limit_is_zero :
  let r := SELECTOR_AllocBlock first_ldt_entry ldt_empty 0x500000 0x10001
                               WINE_LDT_FLAGS_DATA in
  let r1 := SELECTOR_AllocBlock first_ldt_entry ldt_empty 0x500000 1
                                WINE_LDT_FLAGS_DATA in
  (0x10001 - 1) mod 0x10000 = 0 /\
  GetSelectorLimit16 (snd r) (fst r + 8) = 0 /\
  GetSelectorLimit16 (snd r) (fst r + 8) <> 0xFFFF /\
  GetSelectorLimit16 (snd r1) (fst r1) = 0.
Proof.
  cbn zeta. repeat split; try (vm_compute; reflexivity).
  vm_compute. discriminate.
Qed.

(** C2 at work: 0x10001 bytes sized in a table that holds one block. *)
Lemma alloc_block_probe_sizes_run :
  let st := one_block_table first_ldt_entry in
  let r := SELECTOR_AllocBlock first_ldt_entry st 0x600000 0x10001
                               WINE_LDT_FLAGS_DATA in
  block_count 0x10001 = 2 /\
  (forall j, in_run (Z.shiftr (fst r) __AHSHIFT) 2 j = true ->
             allocated st j = false) /\
  (forall j, allocated (snd r) j
             = allocated st j || in_run (Z.shiftr (fst r) __AHSHIFT) 2 j) /\
  GetSelectorLimit16 (snd r) (WORD (fst r + Z.shiftl (2 - 1) __AHSHIFT))
  = if (0x600000 =? 0) && (0x10001 =? 1) then 1
    else (0x10001 - 1) mod 0x10000.
Proof.
  apply (proj2 (alloc_block_probe_sizes first_ldt_entry first_ldt_entry_range
                  (one_block_table first_ldt_entry) 0x600000
                  WINE_LDT_FLAGS_DATA) 0x10001 2).
  - unfold probe_sizes. cbn [In]. right. right. right. left. reflexivity.
  - vm_compute. discriminate.
Defined.

(** C3 fails as written: an empty range whose [offset + length - 1] is one
    past the limit passes both checks, and so does, in a segment with
    limit 0xFFFFFFFF, a range whose last byte wraps around the DWORD. *)
Lemma one_past_limit_not_rejected :
  let st := one_block_table first_ldt_entry in
  let ptr := PTR_SEG_OFF_TO_SEGPTR 143 0x101 in
  let st2 := snd (SetSelectorLimit16 st 143 0xFFFFFFFF) in
  let ptr2 := PTR_SEG_OFF_TO_SEGPTR 143 2 in
  (OFFSETOF ptr + 0 - 1 = GetSelectorLimit16 st (SELECTOROF ptr) + 1 /\
   IsBadHugeReadPtr16 st ptr 0 = false /\
   IsBadHugeWritePtr16 st ptr 0 = false) /\
  (OFFSETOF ptr2 + 0xFFFFFFFF - 1
   = GetSelectorLimit16 st2 (SELECTOROF ptr2) + 1 /\
   IsBadHugeReadPtr16 st2 ptr2 0xFFFFFFFF = false /\
   IsBadHugeWritePtr16 st2 ptr2 0xFFFFFFFF = false).
Proof. cbn zeta. repeat split; vm_compute; reflexivity. Qed.

(** C3 at work on the 0x100-byte data block: a range of 0x11 bytes from
    offset 0xF0 ends one past the limit 0xFF, one of 0x10 bytes ends on it;
    at offset 0x200, far above the limit, the empty range passes the read
    and the write check and the code check fails. *)
Lemma pointer_validation_run :
  let st := one_block_table first_ldt_entry in
  let ptr := PTR_SEG_OFF_TO_SEGPTR 143 0xF0 in
  (IsBadHugeReadPtr16 st ptr 0x11 = true /\
   IsBadHugeWritePtr16 st ptr 0x11 = true) /\
  (IsBadHugeReadPtr16 st ptr 0x10 = false /\
   IsBadHugeWritePtr16 st ptr 0x10 = false) /\
  IsBadCodePtr16 st ptr = true /\
  (IsBadHugeReadPtr16 st (PTR_SEG_OFF_TO_SEGPTR 143 0x200) 0 = false /\
   IsBadHugeWritePtr16 st (PTR_SEG_OFF_TO_SEGPTR 143 0x200) 0 = false) /\
  IsBadCodePtr16 st (PTR_SEG_OFF_TO_SEGPTR 143 0x200) = true.
Proof.
  cbn zeta.
  pose proof (pointer_validation (one_block_table first_ldt_entry)
                (PTR_SEG_OFF_TO_SEGPTR 143 0xF0) 0x11 one_block_table_wf
                ltac:(unfold is_DWORD; lia)) as Hpast.
  pose proof (pointer_validation (one_block_table first_ldt_entry)
                (PTR_SEG_OFF_TO_SEGPTR 143 0xF0) 0x10 one_block_table_wf
                ltac:(unfold is_DWORD; lia)) as Hon.
  pose proof (pointer_validation (one_block_table first_ldt_entry)
                (PTR_SEG_OFF_TO_SEGPTR 143 0x200) 0 one_block_table_wf
                ltac:(unfold is_DWORD; lia)) as Hfar.
  cbn zeta in Hpast, Hon, Hfar.
  destruct Hpast as (_ & Hpast & _).
  destruct Hon as (_ & _ & _ & _ & Hon & _ & _ & Hcode).
  destruct Hfar as (_ & _ & Habove & Hempty & _).
  split; [|split; [|split; [|split]]].
  - apply Hpast; [lia | vm_compute; reflexivity | vm_compute; reflexivity].
  - destruct Hon as (Hr & Hw);
      [vm_compute; discriminate | vm_compute; reflexivity
       | vm_compute; reflexivity |].
    split.
    + apply Hr; [vm_compute; reflexivity | intros _; vm_compute; reflexivity].
    + apply Hw; vm_compute; reflexivity.
  - apply Hcode. vm_compute. reflexivity.
  - destruct Hempty as (Hr & Hw);
      [vm_compute; discriminate | vm_compute; reflexivity |].
    split.
    + apply Hr; [vm_compute; reflexivity | intros _; vm_compute; reflexivity].
    + apply Hw; vm_compute; reflexivity.
  - apply Habove. vm_compute. reflexivity.
Defined.


(** C5 fails as written: the window [MapLS] sets up for 0x12345 starts at
    0x12345 itself, which is neither the 4K page nor the 64K boundary
    below it. *)
Lemma MapLS_base_not_aligned :
  let r := MapLS first_ldt_entry ldt_empty 0x12345 in
  let base :=
    wine_ldt_copy.base (snd r) (Z.shiftr (SELECTOROF (fst r)) __AHSHIFT) in
  HIWORD 0x12345 = 1 /\ SELECTOROF (fst r) = 143 /\ OFFSETOF (fst r) = 0 /\
  base = 0x12345 /\
  base <> 0x12345 - 0x12345 mod 0x1000 /\
  base <> 0x12345 - 0x12345 mod 0x10000.
Proof.
  cbn zeta. repeat split; try (vm_compute; reflexivity);
    vm_compute; discriminate.
Qed.

(** C5 at work: 0x12345 mapped in a table that holds one block. *)
Lemma MapLS_window_run :
  let st := one_block_table first_ldt_entry in
  let sptr := fst (MapLS first_ldt_entry st 0x12345) in
  let st' := snd (MapLS first_ldt_entry st 0x12345) in
  let idx := Z.shiftr (SELECTOROF sptr) __AHSHIFT in
  SELECTOROF sptr <> 0 /\ OFFSETOF sptr = 0 /\
  allocated st idx = false /\
  (forall j, allocated st' j = allocated st j || (j =? idx)) /\
  wine_ldt_copy.base st' idx = 0x12345 /\
  wine_ldt_copy.limit st' idx = 0xFFFF /\
  wine_ldt_copy.flags st' idx
  = Z.lor WINE_LDT_FLAGS_DATA WINE_LDT_FLAGS_ALLOCATED /\
  forall j, j <> idx ->
    wine_ldt_copy.base st' j = wine_ldt_copy.base st j /\
    wine_ldt_copy.limit st' j = wine_ldt_copy.limit st j /\
    wine_ldt_copy.flags st' j = wine_ldt_copy.flags st j.
Proof.
  apply (proj2 (MapLS_window first_ldt_entry first_ldt_entry_range
                  (one_block_table first_ldt_entry) 0x12345
                  ltac:(unfold is_DWORD; lia))).
  - vm_compute. discriminate.
  - vm_compute. discriminate.
Defined.

(** C6 fails as written: in a table without a free slot [MapLS] returns
    the null pointer for an address with a non-zero high word. *)
Lemma MapLS_full_table_null :
  HIWORD 0x12345 = 1 /\
  fst (MapLS first_ldt_entry ldt_full 0x12345) = 0 /\
  SELECTOROF (fst (MapLS first_ldt_entry ldt_full 0x12345)) = 0.
Proof. repeat split; vm_compute; reflexivity. Qed.

(** C6 at work: a low pointer, a high pointer and a full table.  In the
    one-block table slot 18 is free; the full table has no free slot. *)
Lemma MapLS_roundtrip_run :
  let st := one_block_table first_ldt_entry in
  (fst (MapLS first_ldt_entry st 0x1234) = 0x1234 /\
   UnMapLS (snd (MapLS first_ldt_entry st 0x1234))
           (fst (MapLS first_ldt_entry st 0x1234)) = st) /\
  (SELECTOROF (fst (MapLS first_ldt_entry st 0x12345)) <> 0 /\
   MapSL (snd (MapLS first_ldt_entry st 0x12345))
         (fst (MapLS first_ldt_entry st 0x12345)) = 0x12345) /\
  (fst (MapLS first_ldt_entry ldt_full 0x12345) = 0 /\
   snd (MapLS first_ldt_entry ldt_full 0x12345) = ldt_full).
Proof.
  cbn zeta.
  pose proof (MapLS_roundtrip first_ldt_entry first_ldt_entry_range
                (one_block_table first_ldt_entry) 0x1234
                ltac:(unfold is_DWORD; lia)) as (Hlow & _).
  pose proof (MapLS_roundtrip first_ldt_entry first_ldt_entry_range
                (one_block_table first_ldt_entry) 0x12345
                ltac:(unfold is_DWORD; lia)) as (_ & Hhigh & _).
  pose proof (MapLS_roundtrip first_ldt_entry first_ldt_entry_range
                ldt_full 0x12345
                ltac:(unfold is_DWORD; lia)) as (_ & _ & Hnull).
  split; [|split].
  - apply Hlow. vm_compute. reflexivity.
  - apply Hhigh; [vm_compute; discriminate|].
    exists 18. split; [unfold first_ldt_entry, LDT_SIZE; lia|].
    vm_compute. reflexivity.
  - apply Hnull; [vm_compute; discriminate|].
    intros s _. reflexivity.
Defined.

(** C9 fails as written: [AllocCStoDSAlias16] on a data slot gives an alias
    of the same kind, and [AllocDStoCSAlias16] on a read-only data slot
    (type 0x11) gives a readable code segment (type 0x1b), so bit 1 of the
    access bits is not the source's. *)
Lemma alias_kind_and_access_bits :
  let st := one_block_table first_ldt_entry in
  let r := AllocCStoDSAlias16 first_ldt_entry st 143 in
  let ro := snd (SELECTOR_AllocBlock first_ldt_entry ldt_empty 0x500000 0x100
                                     0x11) in
  let c := AllocDStoCSAlias16 first_ldt_entry ro 143 in
  (allocated st 17 = true /\ fst r = 151 /\
   Z.land (wine_ldt_copy.flags st 17) 0x1f = WINE_LDT_FLAGS_DATA /\
   Z.land (wine_ldt_copy.flags (snd r) 18) 0x1f = WINE_LDT_FLAGS_DATA) /\
  (allocated ro 17 = true /\ fst c = 151 /\
   Z.testbit (wine_ldt_copy.flags ro 17) 1 = false /\
   Z.testbit (wine_ldt_copy.flags (snd c) 18) 1 = true).
Proof. cbn zeta. repeat split; vm_compute; reflexivity. Qed.

(** C9 at work: both aliases of the data block in slot 17. *)
Lemma alias_descriptor_run :
  let st := one_block_table first_ldt_entry in
  alias_result WINE_LDT_FLAGS_DATA st 143
               (AllocCStoDSAlias16 first_ldt_entry st 143) /\
  alias_result WINE_LDT_FLAGS_CODE st 143
               (AllocDStoCSAlias16 first_ldt_entry st 143).
Proof.
  cbn zeta.
  destruct (alias_descriptor first_ldt_entry first_ldt_entry_range
              (one_block_table first_ldt_entry) 143 one_block_table_wf)
    as (Hd & Hc); [vm_compute; reflexivity|].
  split; [apply Hd | apply Hc]; vm_compute; discriminate.
Defined.

(** C10 fails on the code.  With selector 143 (slot 17, limit 0xFFFF),
    offset 0x10 and count 0xFFFFFFF8 the DWORD sum [offset + count] wraps to
    8, the clamp is skipped, and both transfers copy and return 0xFFFFFFF8
    bytes instead of min(count, limit + 1 - offset) = 0xFFF0; the write
    changes the byte at 0x510000, the first one past the slot's limit. *)
Theorem memory_transfer_count_wraps :
  let st := window_64k_table first_ldt_entry in
  let sel := 143 in
  let offset := 0x10 in
  let count := 0xFFFFFFF8 in
  let lim := wine_ldt_copy.limit st (Z.shiftr sel __AHSHIFT) in
  let base := wine_ldt_copy.base st (Z.shiftr sel __AHSHIFT) in
  let w := MemoryWrite16 st mem_pattern sel offset 0x900000 count in
  let r := MemoryRead16 st mem_pattern sel offset 0x900000 count in
  allocated st (Z.shiftr sel __AHSHIFT) = true /\
  lim = 0xFFFF /\ base = 0x500000 /\
  Z.min count (lim + 1 - offset) = 0xFFF0 /\
  fst w = 0xFFFFFFF8 /\ fst r = 0xFFFFFFF8 /\
  mem_pattern (base + lim + 1) = 0 /\
  snd w (base + lim + 1) = 0xAA.
Proof. cbn zeta. repeat split; vm_compute; reflexivity. Qed.

(** ** Concrete runs of the further properties *)

Lemma three_windows_wf : ldt_wf (snd (three_windows first_ldt_entry)).
Proof.
  apply (SELECTOR_AllocBlock_wf first_ldt_entry first_ldt_entry_range).
  - unfold is_DWORD. lia.
  - apply ldt_empty_wf.
Qed.

Lemma ldt_flat_wf : ldt_wf ldt_flat.
Proof. intros i. unfold is_DWORD. cbn. lia. Qed.

(** X1 at work: in the one-block table three slots are taken at 18, and
    the only earlier start, 17, is blocked. *)
Lemma SELECTOR_AllocArray_first_fit_run :
  let st := one_block_table first_ldt_entry in
  fst (SELECTOR_AllocArray first_ldt_entry st 3) = 151 /\
  run_blocked st 17 3.
Proof.
  split; [vm_compute; reflexivity|].
  apply (SELECTOR_AllocArray_first_fit first_ldt_entry first_ldt_entry_range
           (one_block_table first_ldt_entry) 3).
  - lia.
  - vm_compute. discriminate.
  - split; [unfold first_ldt_entry; lia | vm_compute; reflexivity].
Defined.

(** X2 at work: the full table has no free slot, and every start is
    blocked. *)
Lemma SELECTOR_AllocArray_null_iff_run :
  fst (SELECTOR_AllocArray first_ldt_entry ldt_full 1) = 0 /\
  forall s, first_ldt_entry <= s -> s + 1 <= LDT_SIZE ->
            run_blocked ldt_full s 1.
Proof.
  split; [vm_compute; reflexivity|].
  apply (proj1 (SELECTOR_AllocArray_null_iff first_ldt_entry
                  first_ldt_entry_range ldt_full 1 ltac:(lia))).
  vm_compute. reflexivity.
Defined.

(** X3 at work: three slots taken from the one-block table. *)
Lemma SELECTOR_AllocArray_frame_run :
  let st := one_block_table first_ldt_entry in
  let r := SELECTOR_AllocArray first_ldt_entry st 3 in
  let idx := Z.shiftr (fst r) __AHSHIFT in
  fst r = idx * 8 + 7 /\
  first_ldt_entry <= idx /\
  idx + 3 <= LDT_SIZE /\
  forall j,
    wine_ldt_copy.base (snd r) j = wine_ldt_copy.base st j /\
    wine_ldt_copy.limit (snd r) j = wine_ldt_copy.limit st j /\
    wine_ldt_copy.flags (snd r) j =
    (if in_run idx 3 j
     then Z.lor (wine_ldt_copy.flags st j) WINE_LDT_FLAGS_ALLOCATED
     else wine_ldt_copy.flags st j).
Proof.
  apply (SELECTOR_AllocArray_frame first_ldt_entry first_ldt_entry_range
           (one_block_table first_ldt_entry) 3).
  - lia.
  - vm_compute. discriminate.
Defined.

(** X4 at work: two slots and then three slots taken from the empty
    table. *)
Lemma SELECTOR_AllocArray_disjoint_run :
  let r1 := SELECTOR_AllocArray first_ldt_entry ldt_empty 2 in
  let r2 := SELECTOR_AllocArray first_ldt_entry (snd r1) 3 in
  (fst r1 = 143 /\ fst r2 = 159) /\
  forall j,
    in_run (Z.shiftr (fst r1) __AHSHIFT) 2 j
    && in_run (Z.shiftr (fst r2) __AHSHIFT) 3 j = false.
Proof.
  split; [split; vm_compute; reflexivity|].
  apply (SELECTOR_AllocArray_disjoint first_ldt_entry first_ldt_entry_range
           ldt_empty 2 3).
  - lia.
  - lia.
  - vm_compute. discriminate.
  - vm_compute. discriminate.
Defined.

(** X5 at work on the selector of the one-block table. *)
Lemma FreeSelector16_behaviour_run :
  let st := one_block_table first_ldt_entry in
  let r := FreeSelector16 st 143 in
  fst r = 0 /\
  wine_ldt_copy.base (snd r) 17 = 0 /\
  FreeSelector16 (snd r) 143 = (143, snd r).
Proof.
  cbn zeta.
  destruct (FreeSelector16_behaviour (one_block_table first_ldt_entry) 143)
    as (_ & H).
  destruct H as (H0 & Hb & _ & _ & _ & Hagain); [vm_compute; reflexivity|].
  split; [exact H0|]. split; [exact Hb|exact Hagain].
Defined.

(** X6 at work: two windows sized in the one-block table and freed. *)
Lemma alloc_block_then_free_block_run :
  let st := one_block_table first_ldt_entry in
  let r := SELECTOR_AllocBlock first_ldt_entry st 0x600000 0x10001
                               WINE_LDT_FLAGS_DATA in
  let st'' := SELECTOR_FreeBlock (snd r) (fst r) in
  (forall j, allocated st'' j = allocated st j) /\
  (forall j,
     in_run (Z.shiftr (fst r) __AHSHIFT) (block_count 0x10001) j = false ->
     wine_ldt_copy.base st'' j = wine_ldt_copy.base st j /\
     wine_ldt_copy.limit st'' j = wine_ldt_copy.limit st j /\
     wine_ldt_copy.flags st'' j = wine_ldt_copy.flags st j).
Proof.
  apply (alloc_block_then_free_block first_ldt_entry first_ldt_entry_range
           (one_block_table first_ldt_entry) 0x600000 0x10001
           WINE_LDT_FLAGS_DATA).
  - unfold is_DWORD. lia.
  - vm_compute. discriminate.
Defined.

(** X7 at work on the three-window block. *)
Lemma alloc_block_bases_and_flags_run :
  let r := SELECTOR_AllocBlock first_ldt_entry ldt_empty 0x500000 0x20001
                               WINE_LDT_FLAGS_DATA in
  let idx := Z.shiftr (fst r) __AHSHIFT in
  (forall i, 0 <= i < block_count 0x20001 ->
     wine_ldt_copy.base (snd r) (idx + i) = DWORD (0x500000 + i * 0x10000) /\
     Z.land (wine_ldt_copy.flags (snd r) (idx + i)) 0x1f
     = Z.land WINE_LDT_FLAGS_DATA 0x1f /\
     Z.testbit (wine_ldt_copy.flags (snd r) (idx + i)) 6
     = Z.testbit WINE_LDT_FLAGS_DATA 6) /\
  (forall j, in_run idx (block_count 0x20001) j = false ->
     wine_ldt_copy.base (snd r) j = wine_ldt_copy.base ldt_empty j /\
     wine_ldt_copy.limit (snd r) j = wine_ldt_copy.limit ldt_empty j /\
     wine_ldt_copy.flags (snd r) j = wine_ldt_copy.flags ldt_empty j).
Proof.
  apply (alloc_block_bases_and_flags first_ldt_entry first_ldt_entry_range
           ldt_empty 0x500000 0x20001 WINE_LDT_FLAGS_DATA).
  - unfold is_DWORD. lia.
  - vm_compute. discriminate.
Defined.

(** X8 at work: a size just below 4G is refused. *)
Lemma alloc_block_null_leaves_table_run :
  SELECTOR_AllocBlock first_ldt_entry ldt_empty 0x500000 0xFFFF0001
                      WINE_LDT_FLAGS_DATA = (0, ldt_empty).
Proof.
  apply (proj2 (alloc_block_null_leaves_table first_ldt_entry ldt_empty
                  0x500000 0xFFFF0001 WINE_LDT_FLAGS_DATA)).
  lia.
Defined.

(** X9 at work: the three-window block shrunk to 0x100 bytes gives its
    slots 18 and 19 back. *)
Lemma realloc_block_shrink_run :
  let st := snd (three_windows first_ldt_entry) in
  let r := SELECTOR_ReallocBlock first_ldt_entry st 143 0x500000 0x100 in
  get_sel_count st 143 = 3 /\
  fst r = 143 /\
  forall j,
    allocated (snd r) j
    = allocated st j
      && negb (in_run (Z.shiftr 143 __AHSHIFT
                       + WORD (Z.shiftr (DWORD (0x100 + 0xffff)) 16))
                      (get_sel_count st 143
                       - WORD (Z.shiftr (DWORD (0x100 + 0xffff)) 16)) j).
Proof.
  split; [vm_compute; reflexivity|].
  apply (realloc_block_shrink first_ldt_entry
           (snd (three_windows first_ldt_entry)) 143 0x500000 0x100).
  - unfold is_WORD. lia.
  - vm_compute. reflexivity.
  - vm_compute. discriminate.
  - vm_compute. reflexivity.
Defined.

(** X10 at work: the block of the one-block table grown to two windows,
    and resized to a size just below 4G. *)
Lemma realloc_block_windows_run :
  let st := one_block_table first_ldt_entry in
  let r := SELECTOR_ReallocBlock first_ldt_entry st 143 0x500000 0x20000 in
  let q := SELECTOR_ReallocBlock first_ldt_entry st 143 0x500000 0xFFFF0001 in
  fst r = 143 /\
  (0 < block_count 0x20000 /\
   get_sel_count (snd r) (fst r) = block_count 0x20000 /\
   forall i, 0 <= i < block_count 0x20000 ->
     GetSelectorLimit16 (snd r) (WORD (fst r + Z.shiftl i __AHSHIFT))
     = block_limit 0x500000 0x20000 - i * 0x10000) /\
  (block_count 0xFFFF0001 = 0 /\ q = (143, SELECTOR_FreeBlock st 143)).
Proof.
  cbn zeta. split; [vm_compute; reflexivity|].
  destruct (realloc_block_windows first_ldt_entry first_ldt_entry_range
              (one_block_table first_ldt_entry) 143 0x500000 0x20000
              ltac:(unfold is_WORD; lia) ltac:(unfold is_DWORD; lia))
    as (Hgrow & _).
  destruct (realloc_block_windows first_ldt_entry first_ldt_entry_range
              (one_block_table first_ldt_entry) 143 0x500000 0xFFFF0001
              ltac:(unfold is_WORD; lia) ltac:(unfold is_DWORD; lia))
    as (_ & Hwrap).
  split.
  - apply Hgrow; [lia | vm_compute; discriminate | vm_compute; discriminate].
  - apply Hwrap. lia.
Defined.

(** X11 at work: on a flat 4G segment the count wraps to 0 and
    [SELECTOR_FreeBlock] frees nothing. *)
Lemma free_block_count_wraps_run :
  get_sel_count ldt_flat 143 = 0 /\ SELECTOR_FreeBlock ldt_flat 143 = ldt_flat.
Proof.
  apply (proj1 (free_block_count_wraps ldt_flat 143 ldt_flat_wf)).
  vm_compute. discriminate.
Defined.

(** X12 at work: the data selector 143 of the one-block table copied to
    slot 18 as a code selector. *)
Lemma PrestoChango_toggles_kind_run :
  let st := one_block_table first_ldt_entry in
  let r := PrestoChangoSelector16 st 143 151 in
  fst r = 151 /\
  wine_ldt_copy.base (snd r) (Z.shiftr 151 __AHSHIFT)
  = wine_ldt_copy.base st (Z.shiftr 143 __AHSHIFT) /\
  Z.land (wine_ldt_copy.flags (snd r) (Z.shiftr 151 __AHSHIFT)) 0x1f
  = Z.lxor (Z.land (wine_ldt_copy.flags st (Z.shiftr 143 __AHSHIFT)) 0x1f) 8.
Proof.
  cbn zeta.
  destruct (PrestoChango_toggles_kind (one_block_table first_ldt_entry)
              143 151 one_block_table_wf) as (H1 & H2 & _ & H3 & _).
  split; [exact H1|]. split; [exact H2|exact H3].
Defined.

(** X13 at work: the base of selector 143 moved by 0x100 and by 0x200. *)
Lemma LongPtrAdd16_moves_base_run :
  let st := one_block_table first_ldt_entry in
  let ptr := PTR_SEG_OFF_TO_SEGPTR 143 0x10 in
  let st' := LongPtrAdd16 st ptr 0x100 in
  MapSL st ptr = 0x500010 /\
  MapSL st' ptr = DWORD (MapSL st ptr + 0x100) /\
  wine_ldt_copy.base (LongPtrAdd16 st' ptr 0x200)
                     (Z.shiftr (SELECTOROF ptr) __AHSHIFT)
  = DWORD (wine_ldt_copy.base st (Z.shiftr (SELECTOROF ptr) __AHSHIFT)
           + (0x100 + 0x200)).
Proof.
  cbn zeta. split; [vm_compute; reflexivity|].
  destruct (LongPtrAdd16_moves_base (one_block_table first_ldt_entry)
              (PTR_SEG_OFF_TO_SEGPTR 143 0x10) 0x100 0x200 one_block_table_wf)
    as (_ & _ & _ & _ & _ & _ & Hm & H2).
  split; [exact Hm|exact H2].
Defined.

(** X14 at work: an array of two selectors taken from the one-block
    table. *)
Lemma AllocSelectorArray16_entries_run :
  let st := one_block_table first_ldt_entry in
  let r := AllocSelectorArray16 first_ldt_entry st 2 in
  fst r = 151 /\
  forall j,
    (in_run (Z.shiftr (fst r) __AHSHIFT) 2 j = true ->
     allocated st j = false /\
     wine_ldt_copy.base (snd r) j = 0 /\
     wine_ldt_copy.limit (snd r) j = 1 /\
     wine_ldt_copy.flags (snd r) j
     = Z.lor WINE_LDT_FLAGS_DATA WINE_LDT_FLAGS_ALLOCATED) /\
    (in_run (Z.shiftr (fst r) __AHSHIFT) 2 j = false ->
     wine_ldt_copy.base (snd r) j = wine_ldt_copy.base st j /\
     wine_ldt_copy.limit (snd r) j = wine_ldt_copy.limit st j /\
     wine_ldt_copy.flags (snd r) j = wine_ldt_copy.flags st j).
Proof.
  cbn zeta. split; [vm_compute; reflexivity|].
  destruct (AllocSelectorArray16_entries first_ldt_entry first_ldt_entry_range
              (one_block_table first_ldt_entry) 2 ltac:(lia))
    as (_ & _ & H).
  apply H. vm_compute. discriminate.
Defined.

(** X15 at work: the three-window block copied to slots 20 to 22. *)
Lemma AllocSelector16_copies_run :
  let st := snd (three_windows first_ldt_entry) in
  let r := AllocSelector16 first_ldt_entry st 143 in
  fst r = 167 /\
  forall k, 0 <= k < get_sel_count st 143 ->
    allocated st (Z.shiftr (fst r) __AHSHIFT + k) = false /\
    allocated (snd r) (Z.shiftr (fst r) __AHSHIFT + k) = true /\
    wine_ldt_copy.base (snd r) (Z.shiftr (fst r) __AHSHIFT + k)
    = wine_ldt_copy.base st (Z.shiftr 143 __AHSHIFT + k) /\
    wine_ldt_copy.limit (snd r) (Z.shiftr (fst r) __AHSHIFT + k)
    = wine_ldt_copy.limit st (Z.shiftr 143 __AHSHIFT + k) /\
    Z.land (wine_ldt_copy.flags (snd r) (Z.shiftr (fst r) __AHSHIFT + k)) 0x1f
    = Z.land (wine_ldt_copy.flags st (Z.shiftr 143 __AHSHIFT + k)) 0x1f /\
    Z.testbit (wine_ldt_copy.flags (snd r) (Z.shiftr (fst r) __AHSHIFT + k)) 6
    = Z.testbit (wine_ldt_copy.flags st (Z.shiftr 143 __AHSHIFT + k)) 6.
Proof.
  cbn zeta. split; [vm_compute; reflexivity|].
  destruct (AllocSelector16_copies first_ldt_entry first_ldt_entry_range
              (snd (three_windows first_ldt_entry)) 143 three_windows_wf
              ltac:(unfold is_WORD; lia)) as (_ & H).
  apply H.
  - lia.
  - vm_compute. discriminate.
  - intros k Hk.
    change (get_sel_count (snd (three_windows first_ldt_entry)) 143)
      with 3 in Hk.
    assert (Hc : k = 0 \/ k = 1 \/ k = 2) by lia.
    destruct Hc as [E|[E|E]]; subst k; vm_compute; reflexivity.
  - vm_compute. discriminate.
Defined.

(** X16 at work on the one-block table. *)
Lemma writable_pointer_is_readable_run :
  let st := one_block_table first_ldt_entry in
  let ptr := PTR_SEG_OFF_TO_SEGPTR 143 0xF0 in
  IsBadHugeWritePtr16 st ptr 0x10 = false /\
  IsBadHugeReadPtr16 st ptr 0x10 = false.
Proof.
  cbn zeta. split; [vm_compute; reflexivity|].
  apply (proj1 (writable_pointer_is_readable
                  (one_block_table first_ldt_entry)
                  (PTR_SEG_OFF_TO_SEGPTR 143 0xF0) 0x10 1)).
  vm_compute. reflexivity.
Defined.

(** X17 at work: the last 0x10 bytes of the block are good, so the first 8
    of them are. *)
Lemma pointer_check_shorter_range_run :
  let st := one_block_table first_ldt_entry in
  let ptr := PTR_SEG_OFF_TO_SEGPTR 143 0xF0 in
  IsBadHugeReadPtr16 st ptr 0x10 = false /\
  IsBadHugeReadPtr16 st ptr 8 = false /\
  IsBadHugeWritePtr16 st ptr 8 = false.
Proof.
  cbn zeta. split; [vm_compute; reflexivity|].
  destruct (pointer_check_shorter_range (one_block_table first_ldt_entry)
              (PTR_SEG_OFF_TO_SEGPTR 143 0xF0) 0x10 8) as (Hr & Hw).
  - lia.
  - vm_compute. reflexivity.
  - split; [apply Hr|apply Hw]; vm_compute; reflexivity.
Defined.

(** X19 at work: a range that starts in the first window of the
    three-window block and ends on its last byte. *)
Lemma fresh_data_block_pointers_run :
  let r := SELECTOR_AllocBlock first_ldt_entry ldt_empty 0x500000 0x20001
                               WINE_LDT_FLAGS_DATA in
  let ptr := PTR_SEG_OFF_TO_SEGPTR 143 0xF000 in
  IsBadHugeReadPtr16 (snd r) ptr 0x11001 = false /\
  IsBadHugeWritePtr16 (snd r) ptr 0x11001 = false /\
  IsBadCodePtr16 (snd r) ptr = true.
Proof.
  apply (fresh_data_block_pointers first_ldt_entry first_ldt_entry_range
           ldt_empty 0x500000 0x20001 (PTR_SEG_OFF_TO_SEGPTR 143 0xF000)
           0x11001).
  - unfold is_DWORD. lia.
  - vm_compute. discriminate.
  - vm_compute. reflexivity.
  - lia.
  - vm_compute. discriminate.
Defined.

(** X20 at work: 0x10 bytes written at offset 0xF0 from a buffer at
    0x900000 and read back into one at 0x100; the segment's bytes lie at
    0x5000F0. *)
Lemma MemoryWrite16_then_MemoryRead16_run :
  let st := one_block_table first_ldt_entry in
  let lin := 0x5000F0 in
  let w := MemoryWrite16 st mem_pattern 143 0xF0 0x900000 0x10 in
  let r := MemoryRead16 st (snd w) 143 0xF0 0x100 0x10 in
  fst w = 0x10 /\ fst r = fst w /\
  forall k, 0 <= k < fst w ->
    snd w (0x900000 + k) = mem_pattern (0x900000 + k) /\
    snd r (0x100 + k) = mem_pattern (0x900000 + k) /\
    snd r (lin + k) = mem_pattern (0x900000 + k).
Proof.
  cbn zeta. split; [vm_compute; reflexivity|].
  apply (MemoryWrite16_then_MemoryRead16 (one_block_table first_ldt_entry)
           mem_pattern 143 0xF0 0x900000 0x100 0x10).
  - left. vm_compute. discriminate.
  - right. vm_compute. discriminate.
Defined.

(** X21 at work: of 0x20 bytes asked for at offset 0xF0 of the 0x100-byte
    block, 0x10 are moved. *)
Lemma memory_transfer_in_range_run :
  let st := one_block_table first_ldt_entry in
  let w := MemoryWrite16 st mem_pattern 143 0xF0 0x900000 0x20 in
  let r := MemoryRead16 st mem_pattern 143 0xF0 0x900000 0x20 in
  let n := Z.min 0x20 (wine_ldt_copy.limit st (Z.shiftr 143 __AHSHIFT)
                       + 1 - 0xF0) in
  let lin := DWORD (wine_ldt_copy.base st (Z.shiftr 143 __AHSHIFT) + 0xF0) in
  n = 0x10 /\
  (fst w = n /\ fst r = n /\
   (forall k, 0 <= k < n ->
      (snd w (lin + k) = mem_pattern (0x900000 + k) /\
       snd w (0x900000 + k) = mem_pattern (0x900000 + k)) /\
      (snd r (0x900000 + k) = mem_pattern (lin + k) /\
       snd r (lin + k) = mem_pattern (lin + k))) /\
   (forall a, ~ (lin <= a < lin + n) -> snd w a = mem_pattern a) /\
   (forall a, ~ (0x900000 <= a < 0x900000 + n) -> snd r a = mem_pattern a)).
Proof.
  cbn zeta. split; [vm_compute; reflexivity|].
  apply (memory_transfer_in_range (one_block_table first_ldt_entry)
           mem_pattern 143 0xF0 0x900000 0x20).
  - unfold is_DWORD. lia.
  - vm_compute. split; discriminate.
  - vm_compute. reflexivity.
  - lia.
  - vm_compute. reflexivity.
  - left. vm_compute. discriminate.
Defined.

(** X22 at work: 0x600000 mapped in the one-block table and unmapped. *)
Lemma MapLS_UnMapLS_restores_run :
  let st := one_block_table first_ldt_entry in
  let m := MapLS first_ldt_entry st 0x600000 in
  let st' := UnMapLS (snd m) (fst m) in
  SELECTOROF (fst m) = 151 /\
  (forall j, allocated st' j = allocated st j) /\
  (forall j, allocated st j = true ->
     wine_ldt_copy.base st' j = wine_ldt_copy.base st j /\
     wine_ldt_copy.limit st' j = wine_ldt_copy.limit st j /\
     wine_ldt_copy.flags st' j = wine_ldt_copy.flags st j).
Proof.
  cbn zeta. split; [vm_compute; reflexivity|].
  destruct (MapLS_UnMapLS_restores first_ldt_entry first_ldt_entry_range
              (one_block_table first_ldt_entry) 0x600000
              ltac:(unfold is_DWORD; lia)) as (Ha & Hf & _).
  split; [exact Ha|exact Hf].
Defined.

(** X24 at work: [Eax] holds 0x600000. *)
Lemma SMapLS_SUnMapLS_restores_run :
  let st := one_block_table first_ldt_entry in
  let r := SMapLS first_ldt_entry st (mk_context 0x600000 0 0x1000) in
  let st' := SUnMapLS (snd r) (fst r) in
  Eax (fst r) = 151 * 0x10000 /\
  (forall j, allocated st' j = allocated st j) /\
  Ebp (fst r) = 0x1000 /\ Edx (fst r) = Eax (fst r).
Proof.
  cbn zeta. split; [vm_compute; reflexivity|].
  destruct (SMapLS_SUnMapLS_restores first_ldt_entry first_ldt_entry_range
              (one_block_table first_ldt_entry)
              (mk_context 0x600000 0 0x1000)
              ltac:(unfold is_DWORD; cbn [Eax]; lia))
    as (Ha & _ & Hb & _ & Hh).
  split; [exact Ha|]. split; [exact Hb|].
  apply Hh. vm_compute. discriminate.
Defined.

(** X25 at work: the pointer 0x600000 sits in the stack slot at
    [Ebp + 8]. *)
Lemma x_SMapLS_x_SUnMapLS_restores_run :
  let st := one_block_table first_ldt_entry in
  let context := mk_context 0 0 0x1000 in
  let m := x_SMapLS_IP_EBP_x first_ldt_entry st stack_with_pointer context 8 in
  let u := x_SUnMapLS_IP_EBP_x (snd m) (snd (fst m)) (fst (fst m)) 8 in
  snd (fst m) 0x1008 = 151 * 0x10000 /\
  (forall j, allocated (snd u) j = allocated st j) /\
  fst u (DWORD (Ebp context + 8)) = 0 /\
  (forall a, a <> DWORD (Ebp context + 8) -> fst u a = stack_with_pointer a).
Proof.
  cbn zeta. split; [vm_compute; reflexivity|].
  destruct (x_SMapLS_x_SUnMapLS_restores first_ldt_entry first_ldt_entry_range
              (one_block_table first_ldt_entry) stack_with_pointer
              (mk_context 0 0 0x1000) 8
              ltac:(vm_compute; split; [discriminate|reflexivity]))
    as (Ha & _ & _ & Hz & Hs).
  split; [exact Ha|]. split; [exact Hz|exact Hs].
Defined.

(** X26 at work: the limit of selector 143 lowered to 0x7F. *)
Lemma SetSelectorLimit16_is_the_bound_run :
  let st := one_block_table first_ldt_entry in
  let r := SetSelectorLimit16 st 143 0x7F in
  let ptr := PTR_SEG_OFF_TO_SEGPTR 143 0x70 in
  fst r = 143 /\
  GetSelectorLimit16 (snd r) 143 = 0x7F /\
  IsBadHugeReadPtr16 (snd r) ptr 0x10 = false /\
  IsBadHugeReadPtr16 (snd r) ptr 0x11 <> false.
Proof.
  cbn zeta.
  destruct (SetSelectorLimit16_is_the_bound (one_block_table first_ldt_entry)
              143 0x7F one_block_table_wf ltac:(unfold is_DWORD; lia))
    as (H1 & H2 & _ & _ & _ & _ & Hp).
  split; [exact H1|]. split; [exact H2|].
  split.
  - apply (Hp (PTR_SEG_OFF_TO_SEGPTR 143 0x70) 0x10);
      [vm_compute; reflexivity | vm_compute; reflexivity |].
    right. vm_compute. discriminate.
  - intros Hbad.
    apply (Hp (PTR_SEG_OFF_TO_SEGPTR 143 0x70) 0x11) in Hbad;
      [|vm_compute; reflexivity | vm_compute; reflexivity].
    destruct Hbad as [Hbad|Hbad]; [discriminate|].
    vm_compute in Hbad. apply Hbad. reflexivity.
Defined.

(** X27 at work: offset 0x10 of the second window of the three-window
    block. *)
Lemma block_windows_tile_memory_run :
  let r := SELECTOR_AllocBlock first_ldt_entry ldt_empty 0x500000 0x20001
                               WINE_LDT_FLAGS_DATA in
  let ptr := PTR_SEG_OFF_TO_SEGPTR 151 0x10 in
  fst r = 143 /\
  MapSL (snd r) ptr = DWORD (0x500000 + (1 * 0x10000 + OFFSETOF ptr)) /\
  IsBadHugeReadPtr16 (snd r) ptr 1 = false.
Proof.
  cbn zeta. split; [vm_compute; reflexivity|].
  destruct (block_windows_tile_memory first_ldt_entry first_ldt_entry_range
              ldt_empty 0x500000 0x20001 WINE_LDT_FLAGS_DATA 1
              (PTR_SEG_OFF_TO_SEGPTR 151 0x10)) as (Hm & Hc).
  - unfold is_DWORD. lia.
  - vm_compute. discriminate.
  - vm_compute. split; [discriminate|reflexivity].
  - vm_compute. reflexivity.
  - split; [exact Hm|].
    destruct (Hc eq_refl) as (Hr & _). apply Hr.
    vm_compute. discriminate.
Defined.
